(** * geotool/tif_merge.py: a shallow embedding of the mosaic engine

    The development follows the layout of [src/geotool/tif_merge.py]:

    - numbers: Python's [float] with the operations the module uses
      ([+ - * /], comparisons, [int()], [math.floor], [math.ceil]),
      given as an interface whose instance is IEEE binary64, what
      CPython runs;
    - the choice of the output driver from GDAL's registry;
    - the raster backend the module talks to (datasets, bands, window
      reads and writes), as an in-memory store;
    - [raster_copy], [raster_copy_with_nodata], [raster_copy_with_mask],
      [names_to_fileinfos], [file_info.copy_into] and [run_merge], in a
      state-and-exception monad over that store;
    - the predicates the properties are stated with, and sample
      rasters to run the engine on;
    - the properties: first those that hold whatever the numbers and
      the pixel types (strategy selection, the composites, plain
      mosaics, what a run leaves alone), then the driver choice, the
      planner and the snap on binary64, and the engine run on the
      sample rasters. *)

From Stdlib Require Import ZArith Lia.
From Stdlib Require Import Floats.SpecFloat.
From stdpp Require Import base option list gmap strings.

Local Open Scope Z_scope.

(** ** Python exceptions and results *)

(** What float arithmetic and the conversions to [int] can raise. *)
Inductive arith_exn :=
| ZeroDivisionError
| ValueError
| OverflowError.

Inductive exn :=
| ArithmeticError (e : arith_exn)
| IndexError
| UnboundLocalError
| AttributeError
| DriverGuessError              (* Exception("Cannot guess driver for ...") *)
| BackendError                  (* what comes of a window the backend does not read *)
| SystemExit (code : Z).

Inductive result (E A : Type) :=
| Ok (a : A)
| Raise (e : E).
Arguments Ok {E A} a.
Arguments Raise {E A} e.

Definition rbind {E A B} (r : result E A) (k : A -> result E B) : result E B :=
  match r with
  | Ok a => k a
  | Raise e => Raise e
  end.

#[export] Instance result_ret {E} : MRet (result E) := fun _ a => Ok a.
#[export] Instance result_bind {E} : MBind (result E) := fun _ _ k r => rbind r k.

(** ** Numbers

    The module computes on the values GDAL hands it (geotransform
    coefficients, samples) with Python's float arithmetic.  [PyNumber]
    lists the operations that appear in the source.  Division raises
    [ZeroDivisionError]; [int()], [math.floor] and [math.ceil] raise on
    NaN and on infinities. *)

Class PyNumber (F : Type) := {
  of_int : Z -> F;                 (* int operand promoted to float *)
  lit_0_1 : F;                     (* the literal 0.1 *)
  lit_0_5 : F;                     (* the literal 0.5 *)
  add : F -> F -> F;
  sub : F -> F -> F;
  mul : F -> F -> F;
  div : F -> F -> result arith_exn F;
  neg : F -> F;
  ltb : F -> F -> bool;            (* x < y *)
  leb : F -> F -> bool;            (* x <= y *)
  eqb : F -> F -> bool;            (* x == y *)
  isnan : F -> bool;
  py_int : F -> result arith_exn Z;          (* int(x): truncation toward zero *)
  py_floor : F -> result arith_exn Z;        (* math.floor(x) *)
  py_ceil : F -> result arith_exn Z          (* math.ceil(x) *)
}.

(** Python's [x > y] and [x >= y] are the mirrored comparisons. *)
Definition gtb {F} `{PyNumber F} (x y : F) : bool := ltb y x.
Definition geb {F} `{PyNumber F} (x y : F) : bool := leb y x.

(** Builtin [min(a, b)] and [max(a, b)] on two arguments: the first
    argument is kept unless the second is strictly better. *)
Definition py_min {F} `{PyNumber F} (a b : F) : F := if ltb b a then b else a.
Definition py_max {F} `{PyNumber F} (a b : F) : F := if gtb b a then b else a.

(** *** IEEE binary64 *)

Module B64.
Definition prec : Z := 53.
Definition emax : Z := 1024.

Definition t : Type := spec_float.

Definition of_int (k : Z) : t := binary_normalize prec emax k 0 false.

Definition div (x y : t) : result arith_exn t :=
  match y with
  | S754_zero _ => Raise ZeroDivisionError
  | _ => Ok (SFdiv prec emax x y)
  end.

Definition isnan (x : t) : bool :=
  match x with S754_nan => true | _ => false end.

(** The signed integer mantissa of a finite value. *)
Definition signed (s : bool) (m : positive) : Z :=
  if s then Z.neg m else Z.pos m.

(** [Z.shiftl z e] is [z * 2^e] for [e >= 0] and the floor of
    [z / 2^(-e)] otherwise. *)
Definition py_floor (x : t) : result arith_exn Z :=
  match x with
  | S754_zero _ => Ok 0
  | S754_infinity _ => Raise OverflowError
  | S754_nan => Raise ValueError
  | S754_finite s m e => Ok (Z.shiftl (signed s m) e)
  end.

Definition py_ceil (x : t) : result arith_exn Z :=
  match x with
  | S754_zero _ => Ok 0
  | S754_infinity _ => Raise OverflowError
  | S754_nan => Raise ValueError
  | S754_finite s m e => Ok (- Z.shiftl (- signed s m) e)
  end.

Definition py_int (x : t) : result arith_exn Z :=
  match x with
  | S754_finite true _ _ => py_ceil x
  | _ => py_floor x
  end.

(** Decimal literals are read to the nearest double, which is what a
    correctly rounded division of the two integers gives. *)
Definition lit (num den : Z) : t := SFdiv prec emax (of_int num) (of_int den).

#[global] Instance number : PyNumber t :=
  Build_PyNumber t of_int (lit 1 10) (lit 1 2)
    (SFadd prec emax) (SFsub prec emax) (SFmul prec emax) div SFopp
    SFltb SFleb SFeqb isnan py_int py_floor py_ceil.
End B64.

(** ** Choosing the output driver (lines 16-63)

    GDAL's registry is the list of its drivers in registration order,
    each with a short name and metadata items.  [os.path.splitext],
    [str.lower] and [str.upper] are Python's: the functions below take
    them as they come. *)

Module Drivers.

Record GDALDriver := mkGDALDriver {
  ShortName : string;
  Metadata : gmap string string
}.

Definition GetMetadataItem (drv : GDALDriver) (key : string) : option string :=
  Metadata drv !! key.

Definition DMD_EXTENSIONS : string := "DMD_EXTENSIONS".
Definition DMD_CONNECTION_PREFIX : string := "DMD_CONNECTION_PREFIX".
Definition DCAP_CREATE : string := "DCAP_CREATE".
Definition DCAP_CREATECOPY : string := "DCAP_CREATECOPY".
Definition DCAP_RASTER : string := "DCAP_RASTER".

(** [s.find(sub)]: the least index at which [sub] occurs in [s], or -1. *)
Fixpoint find (s sub : string) : Z :=
  if String.prefix sub s then 0
  else match s with
       | EmptyString => -1
       | String _ s' => let k := find s' sub in if k <? 0 then -1 else k + 1
       end.

(** [l[i]] *)
Definition item (l : list string) (i : nat) : result exn string :=
  match l !! i with
  | Some x => Ok x
  | None => Raise IndexError
  end.

Section Choice.
Variable splitext : string -> string * string.
Variables lower upper : string -> string.
Variable drivers : list GDALDriver.   (* gdal.GetDriver(0), gdal.GetDriver(1), ... *)

(** Lines 16-18. *)
Definition DoesDriverHandleExtension (drv : GDALDriver) (ext : string) : bool :=
  match GetMetadataItem drv DMD_EXTENSIONS with
  | None => false
  | Some exts => 0 <=? find (lower exts) (lower ext)
  end.

(** Lines 21-25. *)
Definition GetExtension (filename : string) : string :=
  let ext := (splitext filename).2 in
  if String.prefix "." ext
  then match ext with String _ rest => rest | EmptyString => EmptyString end
  else ext.

(** Lines 31-41: one round of the loop over the registry. *)
Definition visit (filename ext : string) (drv_list : list string)
    (drv : GDALDriver) : list string :=
  if (bool_decide (is_Some (GetMetadataItem drv DCAP_CREATE))
      || bool_decide (is_Some (GetMetadataItem drv DCAP_CREATECOPY)))
     && bool_decide (is_Some (GetMetadataItem drv DCAP_RASTER))
  then
    if (0 <? Z.of_nat (String.length ext)) && DoesDriverHandleExtension drv ext
    then drv_list ++ [ShortName drv]
    else
      match GetMetadataItem drv DMD_CONNECTION_PREFIX with
      | Some prefix =>
        if String.prefix (lower prefix) (lower filename)
        then drv_list ++ [ShortName drv]
        else drv_list
      | None => drv_list
      end
  else drv_list.

(** Lines 28-49.  The condition of line 45 is evaluated left to
    right and stops at the first false operand. *)
Definition GetOutputDriversFor (filename : string) : result exn (list string) :=
  let ext := GetExtension filename in
  let drv_list := fold_left (visit filename ext) drivers [] in
  swap ←
    (if String.eqb (lower ext) "nc" then
       if (Z.of_nat (length drv_list) =? 0) then
         d0 ← item drv_list 0;
         if String.eqb (upper d0) "GMT" then
           d1 ← item drv_list 1;
           mret (String.eqb (upper d1) "NETCDF")
         else mret false
       else mret false
     else mret false);
  mret (if swap : bool then ["NETCDF"; "GMT"] else drv_list).

(** Lines 52-63 (the message about several drivers is only printed). *)
Definition GetOutputDriverFor (filename : string) : result exn string :=
  drv_list ← GetOutputDriversFor filename;
  if Z.of_nat (length drv_list) =? 0 then
    let ext := GetExtension filename in
    if Z.of_nat (String.length ext) =? 0 then mret "GTiff"
    else Raise DriverGuessError
  else item drv_list 0.

(** The drivers the loop of lines 31-41 takes. *)
Definition takes (filename : string) (drv : GDALDriver) : bool :=
  (bool_decide (is_Some (GetMetadataItem drv DCAP_CREATE))
   || bool_decide (is_Some (GetMetadataItem drv DCAP_CREATECOPY)))
  && bool_decide (is_Some (GetMetadataItem drv DCAP_RASTER))
  && ((negb (String.eqb (GetExtension filename) "")
       && DoesDriverHandleExtension drv (GetExtension filename))
      || match GetMetadataItem drv DMD_CONNECTION_PREFIX with
         | Some prefix => String.prefix (lower prefix) (lower filename)
         | None => false
         end).

End Choice.
End Drivers.

(** ** The raster backend

    GDAL is an external collaborator.  The model keeps what the module
    observes of it: datasets found by name, their size, geotransform,
    projection and bands; per band the pixel type, mask flags, colour
    interpretation, palette, the samples and the samples of its mask
    band.  Samples are addressed by column [x] and row [y]; whatever
    the band's pixel type, a sample is carried as a Python float. *)

Definition GMF_ALL_VALID : Z := 1.       (* gdal.GMF_ALL_VALID *)
Definition GCI_AlphaBand : Z := 6.       (* gdal.GCI_AlphaBand *)

(** [band.DataType] is one of GDAL's type codes. *)
Definition GDT_Byte : Z := 1.
Definition GDT_Int16 : Z := 3.
Definition GDT_Float32 : Z := 6.
Definition GDT_Float64 : Z := 7.

(** What a raster write answers. *)
Definition CE_None : Z := 0.
Definition CE_Failure : Z := 3.

(** Conversions between pixel types are GDAL's and numpy's, not this
    module's.  [RasterTypes] names the four the copy engine goes
    through; they are used between different types only (see
    [convert], [result_type], [astype] and [equal_float] below). *)
Class RasterTypes (F : Type) := {
  (* GDALCopyWords: a sample of the first type stored as the second *)
  copy_word : Z -> Z -> F -> F;
  (* numpy.equal(a, x) on one sample of an array of that type, x a Python float *)
  np_equal_float : Z -> F -> F -> bool;
  (* the type of the array numpy.choose builds from arrays of two types *)
  np_result_type : Z -> Z -> Z;
  (* a sample of the first type cast to the second, a common type *)
  np_astype : Z -> Z -> F -> F
}.

Inductive band_ref :=
| BandOf (name : string) (n : Z)         (* fh.GetRasterBand(n) *)
| MaskOf (name : string) (n : Z).        (* fh.GetRasterBand(n).GetMaskBand() *)

Inductive strategy := PlainCopy | NodataComposite | MaskComposite.

(** What a run does to the backend, in order. *)
Inductive event :=
| Enter (s : strategy)
| RasterRead (b : band_ref)
| RasterWrite (b : band_ref)
| DatasetCreate (name : string).

Section Engine.
Context {F : Type} `{PyNumber F} `{RasterTypes F}.

Record Band := mkBand {
  DataType : Z;
  MaskFlags : Z;
  ColorInterpretation : Z;
  ColorTable : option (list Z);
  samples : Z -> Z -> F;
  mask_samples : Z -> Z -> F
}.

Record GeoTransform := mkGT {
  gt0 : F; gt1 : F; gt2 : F; gt3 : F; gt4 : F; gt5 : F
}.

Record Dataset := mkDataset {
  RasterXSize : Z;
  RasterYSize : Z;
  GetGeoTransform : GeoTransform;
  GetProjection : string;
  raster_bands : list Band
}.

Definition RasterCount (d : Dataset) : Z := Z.of_nat (length (raster_bands d)).

(** Band [n] of a dataset, numbered from 1; [None] is what
    [GetRasterBand] answers for any other number. *)
Definition band_at (d : Dataset) (n : Z) : option Band :=
  if 1 <=? n then raster_bands d !! Z.to_nat (n - 1) else None.

Record World := mkWorld {
  files : gmap string Dataset;
  trace : list event
}.

(** *** The state-and-exception monad *)

Definition M (A : Type) : Type := World -> result exn A * World.

#[global] Instance M_ret : MRet M := fun _ a w => (Ok a, w).
#[global] Instance M_bind : MBind M := fun _ _ k m w =>
  match m w with
  | (Ok a, w') => k a w'
  | (Raise e, w') => (Raise e, w')
  end.

Definition raise {A} (e : exn) : M A := fun w => (Raise e, w).
Definition lift {A} (r : result exn A) : M A := fun w => (r, w).
(** An arithmetic exception passing through the caller. *)
Definition lift_arith {A} (r : result arith_exn A) : M A :=
  fun w => (match r with Ok a => Ok a | Raise e => Raise (ArithmeticError e) end, w).
Definition modify (f : World -> World) : M unit := fun w => (Ok tt, f w).
Definition emit (ev : event) : M unit :=
  modify (fun w => mkWorld (files w) (trace w ++ [ev])).

(** [for x in xs: body(x)] *)
Fixpoint for_each {A} (xs : list A) (body : A -> M unit) : M unit :=
  match xs with
  | [] => mret tt
  | x :: xs' => body x ≫= fun _ => for_each xs' body
  end.

(** *** Datasets and bands *)

(** [gdal.Open(name)]: the handle is the name; [None] when the name
    does not open. *)
Definition gdal_Open (name : string) : M (option string) :=
  fun w => (Ok (if files w !! name is Some _ then Some name else None), w).

Definition dataset_of (fh : string) : M Dataset :=
  fun w => match files w !! fh with
           | Some d => (Ok d, w)
           | None => (Raise AttributeError, w)
           end.

Definition ref_name (b : band_ref) : string :=
  match b with BandOf name _ | MaskOf name _ => name end.
Definition ref_band (b : band_ref) : Z :=
  match b with BandOf _ n | MaskOf _ n => n end.

(** The band object behind a reference; using a band that does not
    exist is an [AttributeError] on [None]. *)
Definition band_of (b : band_ref) : M (Dataset * Band) :=
  d ← dataset_of (ref_name b);
  match band_at d (ref_band b) with
  | Some bd => mret (d, bd)
  | None => raise AttributeError
  end.

Definition ref_samples (b : band_ref) (bd : Band) : Z -> Z -> F :=
  match b with
  | BandOf _ _ => samples bd
  | MaskOf _ _ => mask_samples bd
  end.

(** A window the backend accepts: inside the raster, at least 1 x 1. *)
Definition window_ok (d : Dataset) (xoff yoff xsize ysize : Z) : bool :=
  (0 <=? xoff) && (0 <=? yoff) && (1 <=? xsize) && (1 <=? ysize)
  && (xoff + xsize <=? RasterXSize d) && (yoff + ysize <=? RasterYSize d).

(** Nearest-neighbour resize: cell [i] of [b] cells over a window of
    [n] source cells reads source cell [floor ((i + 1/2) * n / b)]. *)
Definition src_index (i n b : Z) : Z := ((2 * i + 1) * n) / (2 * b).

Definition resample (px : Z -> Z -> F)
    (xoff yoff xsize ysize buf_xsize buf_ysize : Z) : list (list F) :=
  (fun j => (fun i => px (xoff + src_index i xsize buf_xsize)
                         (yoff + src_index j ysize buf_ysize))
            <$> seqZ 0 buf_xsize) <$> seqZ 0 buf_ysize.

(** [GDALCopyWords] between two pixel types; within one type the
    sample is copied as it is. *)
Definition convert (from to : Z) (v : F) : F :=
  if from =? to then v else copy_word from to v.

(** numpy's common type of two arrays, and a sample cast to it; two
    arrays of one type have that type in common. *)
Definition result_type (a b : Z) : Z :=
  if a =? b then a else np_result_type a b.
Definition astype (from to : Z) (v : F) : F :=
  if from =? to then v else np_astype from to v.

(** [numpy.equal(a, x)] on one sample of an array of type [dt], for a
    Python float [x]: on a float64 array it is the floats' [==]. *)
Definition equal_float (dt : Z) (v x : F) : bool :=
  if dt =? GDT_Float64 then eqb v x else np_equal_float dt v x.

(** The pixel type of the band behind a reference; mask bands are of
    type Byte. *)
Definition ref_type (b : band_ref) (bd : Band) : Z :=
  match b with
  | BandOf _ _ => DataType bd
  | MaskOf _ _ => GDT_Byte
  end.

(** Reading a window, resized to the buffer: the band's type and the
    samples.  A window the raster does not contain is refused and
    [None] comes back instead of a buffer; the model stops there with
    [BackendError], for the exception the module meets when it goes on
    with [None] ([WriteRaster] of [None] is a [TypeError], and so is
    writing an array that holds [None]). *)
Definition read_window (b : band_ref)
    (xoff yoff xsize ysize buf_xsize buf_ysize : Z) : M (Z * list (list F)) :=
  '(d, bd) ← band_of b;
  if window_ok d xoff yoff xsize ysize && (1 <=? buf_xsize) && (1 <=? buf_ysize)
  then _ ← emit (RasterRead b);
       mret (ref_type b bd,
             resample (ref_samples b bd) xoff yoff xsize ysize buf_xsize buf_ysize)
  else raise BackendError.

(** A numpy array: its type, as the GDAL code of that type, and its
    rows. *)
Record ndarray := mk_ndarray {
  dtype : Z;
  cells : list (list F)
}.

Definition map_cells (f : F -> F) (a : list (list F)) : list (list F) :=
  (fun row : list F => f <$> row) <$> a.

(** [band.ReadAsArray(xoff, yoff, xsize, ysize, buf_xsize, buf_ysize)]:
    an array of the band's type. *)
Definition ReadAsArray (b : band_ref)
    (xoff yoff xsize ysize buf_xsize buf_ysize : Z) : M ndarray :=
  '(ty, data) ← read_window b xoff yoff xsize ysize buf_xsize buf_ysize;
  mret (mk_ndarray ty data).

(** [band.ReadRaster(xoff, yoff, xsize, ysize, buf_xsize, buf_ysize,
    buf_type)]: the samples converted to [buf_type]. *)
Definition ReadRaster (b : band_ref)
    (xoff yoff xsize ysize buf_xsize buf_ysize buf_type : Z)
  : M (list (list F)) :=
  '(ty, data) ← read_window b xoff yoff xsize ysize buf_xsize buf_ysize;
  mret (map_cells (convert ty buf_type) data).

(** Element [(row j, column i)] of a buffer. *)
Definition cell (a : list (list F)) (j i : Z) : option F :=
  if (0 <=? j) && (0 <=? i)
  then a !! Z.to_nat j ≫= fun row => row !! Z.to_nat i
  else None.

(** The samples of a band after [data] was stored at [(xoff, yoff)]. *)
Definition store (px : Z -> Z -> F) (xoff yoff : Z) (data : list (list F))
  : Z -> Z -> F :=
  fun x y => default (px x y) (cell data (y - yoff) (x - xoff)).

Definition set_samples (bd : Band) (px : Z -> Z -> F) : Band :=
  mkBand (DataType bd) (MaskFlags bd) (ColorInterpretation bd)
         (ColorTable bd) px (mask_samples bd).

Definition set_band (d : Dataset) (n : Z) (bd : Band) : Dataset :=
  mkDataset (RasterXSize d) (RasterYSize d) (GetGeoTransform d)
            (GetProjection d) (<[Z.to_nat (n - 1) := bd]> (raster_bands d)).

Definition shape_ok (data : list (list F)) (xsize ysize : Z) : bool :=
  (Z.of_nat (length data) =? ysize)
  && forallb (fun row => Z.of_nat (length row) =? xsize) data.

(** A [ysize] x [xsize] buffer of [buf_type] samples going into the
    window at [(xoff, yoff)] of a band: the backend converts each
    sample to the band's type.  A window the raster does not contain,
    or a buffer of another shape, is refused with an error code and
    the band stays as it is: no exception comes of it.  (The module
    writes to no mask band.) *)
Definition write_window (b : band_ref) (xoff yoff xsize ysize : Z)
    (data : list (list F)) (buf_type : Z) : M Z :=
  '(d, bd) ← band_of b;
  match b with
  | MaskOf _ _ => raise BackendError
  | BandOf name n =>
    _ ← emit (RasterWrite b);
    if window_ok d xoff yoff xsize ysize && shape_ok data xsize ysize
    then _ ← modify (fun w =>
           mkWorld (<[name := set_band d n
                        (set_samples bd
                           (store (samples bd) xoff yoff
                                  (map_cells (convert buf_type (DataType bd)) data)))]>
                    (files w))
                   (trace w));
         mret CE_None
    else mret CE_Failure
  end.

(** [band.WriteRaster(xoff, yoff, xsize, ysize, data, buf_xsize,
    buf_ysize, buf_type)] with the buffer of the window's size, as the
    module calls it. *)
Definition WriteRaster (b : band_ref) (xoff yoff xsize ysize : Z)
    (data : list (list F)) (buf_type : Z) : M Z :=
  write_window b xoff yoff xsize ysize data buf_type.

(** [band.WriteArray(array, xoff, yoff)]: the window has the array's
    shape and the buffer the array's type.  For an array that reaches
    past the right or the lower edge the binding raises (a
    [ValueError], here [BackendError]) before the backend is asked. *)
Definition WriteArray (b : band_ref) (array : ndarray) (xoff yoff : Z) : M Z :=
  '(d, _) ← band_of b;
  let xsize := Z.of_nat (length (default [] (head (cells array)))) in
  let ysize := Z.of_nat (length (cells array)) in
  if (RasterXSize d <? xsize + xoff) || (RasterYSize d <? ysize + yoff)
  then raise BackendError
  else write_window b xoff yoff xsize ysize (cells array) (dtype array).

(** *** numpy on two-dimensional arrays *)

(** [equal(a, x)] for a Python float [x]. *)
Definition np_equal (a : ndarray) (x : F) : list (list bool) :=
  (fun row : list F => (fun v => equal_float (dtype a) v x) <$> row) <$> cells a.
(** [equal(a, 0)]: 0 is the same number in every type. *)
Definition np_equal_zero (a : ndarray) : list (list bool) :=
  (fun row : list F => (fun v => eqb v (of_int 0)) <$> row) <$> cells a.
Definition np_isnan (a : ndarray) : list (list bool) :=
  (fun row : list F => isnan <$> row) <$> cells a.
(** [choose(test, (a0, a1))]: [a0] where the test is false (index 0),
    [a1] where it is true (index 1), both cast to their common type. *)
Definition choose_row (t : list bool) (r0 r1 : list F) : list F :=
  zip_with (fun (c : bool) (p : F * F) => if c then p.2 else p.1) t (zip r0 r1).
Definition choose_cells (test : list (list bool)) (a0 a1 : list (list F))
  : list (list F) :=
  zip_with (fun t (p : list F * list F) => choose_row t p.1 p.2)
           test (zip a0 a1).
Definition np_choose (test : list (list bool)) (a0 a1 : ndarray) : ndarray :=
  let ty := result_type (dtype a0) (dtype a1) in
  mk_ndarray ty
    (choose_cells test (map_cells (astype (dtype a0) ty) (cells a0))
                       (map_cells (astype (dtype a1) ty) (cells a1))).

(** ** The copy engine (lines 67-160) *)

Definition GetRasterBand (fh : string) (n : Z) : band_ref := BandOf fh n.
Definition GetMaskBand (b : band_ref) : band_ref :=
  MaskOf (ref_name b) (ref_band b).
Definition GetMaskFlags (b : band_ref) : M Z :=
  '(_, bd) ← band_of b; mret (MaskFlags bd).
Definition GetColorInterpretation (b : band_ref) : M Z :=
  '(_, bd) ← band_of b; mret (ColorInterpretation bd).
Definition GetDataType (b : band_ref) : M Z :=
  '(_, bd) ← band_of b; mret (DataType bd).

(** [raster_copy_with_nodata], lines 109-133.  What [WriteArray]
    answers is dropped. *)
Definition raster_copy_with_nodata
    (s_fh : string) (s_xoff s_yoff s_xsize s_ysize s_band_n : Z)
    (t_fh : string) (t_xoff t_yoff t_xsize t_ysize t_band_n : Z)
    (nodata : F) : M Z :=
  _ ← emit (Enter NodataComposite);
  let s_band := GetRasterBand s_fh s_band_n in
  let t_band := GetRasterBand t_fh t_band_n in
  data_src ← ReadAsArray s_band s_xoff s_yoff s_xsize s_ysize t_xsize t_ysize;
  data_dst ← ReadAsArray t_band t_xoff t_yoff t_xsize t_ysize t_xsize t_ysize;
  let nodata_test :=
    if negb (isnan nodata) then np_equal data_src nodata
    else np_isnan data_src in
  let to_write := np_choose nodata_test data_src data_dst in
  _ ← WriteArray t_band to_write t_xoff t_yoff;
  mret 0.

(** [raster_copy_with_mask], lines 138-160. *)
Definition raster_copy_with_mask
    (s_fh : string) (s_xoff s_yoff s_xsize s_ysize s_band_n : Z)
    (t_fh : string) (t_xoff t_yoff t_xsize t_ysize t_band_n : Z)
    (m_band : band_ref) : M Z :=
  _ ← emit (Enter MaskComposite);
  let s_band := GetRasterBand s_fh s_band_n in
  let t_band := GetRasterBand t_fh t_band_n in
  data_src ← ReadAsArray s_band s_xoff s_yoff s_xsize s_ysize t_xsize t_ysize;
  data_mask ← ReadAsArray m_band s_xoff s_yoff s_xsize s_ysize t_xsize t_ysize;
  data_dst ← ReadAsArray t_band t_xoff t_yoff t_xsize t_ysize t_xsize t_ysize;
  let mask_test := np_equal_zero data_mask in
  let to_write := np_choose mask_test data_src data_dst in
  _ ← WriteArray t_band to_write t_xoff t_yoff;
  mret 0.

(** Lines 96-104 of [raster_copy]: the unconditional copy.  The source
    window is read as samples of the target band's type and written as
    such; what [WriteRaster] answers is dropped. *)
Definition plain_copy
    (s_fh : string) (s_xoff s_yoff s_xsize s_ysize s_band_n : Z)
    (t_fh : string) (t_xoff t_yoff t_xsize t_ysize t_band_n : Z) : M Z :=
  _ ← emit (Enter PlainCopy);
  let s_band := GetRasterBand s_fh s_band_n in
  let t_band := GetRasterBand t_fh t_band_n in
  t_type ← GetDataType t_band;
  data ← ReadRaster s_band s_xoff s_yoff s_xsize s_ysize t_xsize t_ysize t_type;
  _ ← WriteRaster t_band t_xoff t_yoff t_xsize t_ysize data t_type;
  mret 0.

(** Lines 82-89 of [raster_copy]: the band that serves as mask, if any. *)
Definition mask_band_for (s_band : band_ref) : M (option band_ref) :=
  flags ← GetMaskFlags s_band;
  if negb (flags =? GMF_ALL_VALID) then mret (Some (GetMaskBand s_band))
  else ci ← GetColorInterpretation s_band;
       if ci =? GCI_AlphaBand then mret (Some s_band) else mret None.

(** [raster_copy], lines 67-104 ([verbose] only prints). *)
Definition raster_copy
    (s_fh : string) (s_xoff s_yoff s_xsize s_ysize s_band_n : Z)
    (t_fh : string) (t_xoff t_yoff t_xsize t_ysize t_band_n : Z)
    (nodata : option F) : M Z :=
  match nodata with
  | Some nd =>
    raster_copy_with_nodata s_fh s_xoff s_yoff s_xsize s_ysize s_band_n
                            t_fh t_xoff t_yoff t_xsize t_ysize t_band_n nd
  | None =>
    m_band ← mask_band_for (GetRasterBand s_fh s_band_n);
    match m_band with
    | Some m =>
      raster_copy_with_mask s_fh s_xoff s_yoff s_xsize s_ysize s_band_n
                            t_fh t_xoff t_yoff t_xsize t_ysize t_band_n m
    | None =>
      plain_copy s_fh s_xoff s_yoff s_xsize s_ysize s_band_n
                 t_fh t_xoff t_yoff t_xsize t_ysize t_band_n
    end
  end.

(** ** Tile descriptors (lines 165-299) *)

Record file_info := mk_file_info {
  filename : string;
  bands : Z;
  xsize : Z;
  ysize : Z;
  band_type : Z;
  projection : string;
  geotransform : GeoTransform;
  ulx : F;
  uly : F;
  lrx : F;
  lry : F;
  ct : option (list Z)
}.

(** What [init_from_name] leaves in [self] for an opened dataset. *)
Definition describe (name : string) (d : Dataset) (b1 : Band) : file_info :=
  let gt := GetGeoTransform d in
  mk_file_info name (RasterCount d) (RasterXSize d) (RasterYSize d)
    (DataType b1) (GetProjection d) gt
    (gt0 gt) (gt3 gt)
    (add (gt0 gt) (mul (gt1 gt) (of_int (RasterXSize d))))
    (add (gt3 gt) (mul (gt5 gt) (of_int (RasterYSize d))))
    (ColorTable b1).

(** [file_info.init_from_name], lines 189-219: [Some fi] stands for
    "returns 1 with [self] filled in", [None] for "returns 0". *)
Definition init_from_name (name : string) : M (option file_info) :=
  fh ← gdal_Open name;
  match fh with
  | None => mret None
  | Some fh =>
    d ← dataset_of fh;
    match band_at d 1 with
    | None => raise AttributeError
    | Some b1 => mret (Some (describe name d b1))
    end
  end.

(** [names_to_fileinfos], lines 165-181. *)
Fixpoint names_to_fileinfos_from (file_infos : list file_info)
    (names : list string) : M (list file_info) :=
  match names with
  | [] => mret file_infos
  | name :: rest =>
    fi ← init_from_name name;
    names_to_fileinfos_from
      (match fi with Some fi => file_infos ++ [fi] | None => file_infos end)
      rest
  end.
Definition names_to_fileinfos (names : list string) : M (list file_info) :=
  names_to_fileinfos_from [] names.

(** *** [copy_into], lines 230-299 *)

(** A pixel window: offset and size on both axes. *)
Record window := mk_window {
  xoff : Z; yoff : Z; win_xsize : Z; win_ysize : Z
}.

(** The world-space rectangle [tgw_ulx, tgw_uly, tgw_lrx, tgw_lry]. *)
Record rect := mk_rect {
  tgw_ulx : F; tgw_uly : F; tgw_lrx : F; tgw_lry : F
}.

(** Lines 248-262: the target extent and its intersection with the tile. *)
Definition intersection (self : file_info) (t : Dataset) : rect :=
  let t_geotransform := GetGeoTransform t in
  let t_ulx := gt0 t_geotransform in
  let t_uly := gt3 t_geotransform in
  let t_lrx := add (gt0 t_geotransform)
                   (mul (of_int (RasterXSize t)) (gt1 t_geotransform)) in
  let t_lry := add (gt3 t_geotransform)
                   (mul (of_int (RasterYSize t)) (gt5 t_geotransform)) in
  let tgw_ulx := py_max t_ulx (ulx self) in
  let tgw_lrx := py_min t_lrx (lrx self) in
  if ltb (gt5 t_geotransform) (of_int 0)
  then mk_rect tgw_ulx (py_min t_uly (uly self)) tgw_lrx (py_max t_lry (lry self))
  else mk_rect tgw_ulx (py_max t_uly (uly self)) tgw_lrx (py_min t_lry (lry self)).

(** Lines 264-270: "do they even intersect?" *)
Definition no_intersection (t_gt5 : F) (r : rect) : bool :=
  geb (tgw_ulx r) (tgw_lrx r)
  || (ltb t_gt5 (of_int 0) && leb (tgw_uly r) (tgw_lry r))
  || (gtb t_gt5 (of_int 0) && geb (tgw_uly r) (tgw_lry r)).

(** [int((world - origin) / size + bias)] *)
Definition to_pixel (world origin size bias : F) : result arith_exn Z :=
  q ← div (sub world origin) size; py_int (add q bias).
(** [int((world - origin) / size)] *)
Definition to_pixel_floor (world origin size : F) : result arith_exn Z :=
  q ← div (sub world origin) size; py_int q.

(** Lines 272-278. *)
Definition target_window (t_geotransform : GeoTransform) (r : rect)
  : result arith_exn window :=
  tw_xoff ← to_pixel (tgw_ulx r) (gt0 t_geotransform) (gt1 t_geotransform) lit_0_1;
  tw_yoff ← to_pixel (tgw_uly r) (gt3 t_geotransform) (gt5 t_geotransform) lit_0_1;
  x1 ← to_pixel (tgw_lrx r) (gt0 t_geotransform) (gt1 t_geotransform) lit_0_5;
  y1 ← to_pixel (tgw_lry r) (gt3 t_geotransform) (gt5 t_geotransform) lit_0_5;
  mret (mk_window tw_xoff tw_yoff (x1 - tw_xoff) (y1 - tw_yoff)).

(** Lines 283-289. *)
Definition source_window (self : file_info) (r : rect)
  : result arith_exn window :=
  let g := geotransform self in
  sw_xoff ← to_pixel_floor (tgw_ulx r) (gt0 g) (gt1 g);
  sw_yoff ← to_pixel_floor (tgw_uly r) (gt3 g) (gt5 g);
  x1 ← to_pixel (tgw_lrx r) (gt0 g) (gt1 g) lit_0_5;
  y1 ← to_pixel (tgw_lry r) (gt3 g) (gt5 g) lit_0_5;
  mret (mk_window sw_xoff sw_yoff (x1 - sw_xoff) (y1 - sw_yoff)).

Definition too_small (w : window) : bool :=
  (win_xsize w <? 1) || (win_ysize w <? 1).

Definition copy_into (self : file_info) (t_fh : string)
    (s_band t_band : Z) (nodata_arg : option F) : M Z :=
  t ← dataset_of t_fh;
  let t_geotransform := GetGeoTransform t in
  let r := intersection self t in
  if no_intersection (gt5 t_geotransform) r then mret 1 else
  tw ← lift_arith (target_window t_geotransform r);
  if too_small tw then mret 1 else
  sw ← lift_arith (source_window self r);
  if too_small sw then mret 1 else
  s_fh ← gdal_Open (filename self);
  raster_copy (default (filename self) s_fh)
              (xoff sw) (yoff sw) (win_xsize sw) (win_ysize sw) s_band
              t_fh (xoff tw) (yoff tw) (win_xsize tw) (win_ysize tw) t_band
              nodata_arg.

(** ** The orchestrator: [run_merge], lines 303-448

    [run_merge(tif_dir, out_path)] takes its inputs from
    [glob(tif_dir/*.tif)]; the model takes that list as [names].  The
    choice of the output driver (lines 16-63, 328-341) is the
    environment's: [GetOutputDriverFor] answers a format name or raises,
    [GetDriverByName] finds the driver, which says whether it can
    create and, asked to, allocates a dataset or declines.  Progress
    reports and prints are left out. *)

Record Driver := mkDriver {
  DCAP_CREATE : bool;     (* 'DCAP_CREATE' in Driver.GetMetadata() *)
  Create : string -> Z -> Z -> Z -> Z -> option Dataset
}.

Record Env := mkEnv {
  GetOutputDriverFor : string -> result exn string;
  GetDriverByName : string -> option Driver
}.

(** The options [run_merge] fixes at lines 315-325. *)
Definition separate : Z := 0.
Definition createonly : Z := 0.
Definition bTargetAlignedPixels : bool := false.
Definition nodata : option F := None.

Record extent := mk_extent {
  ext_ulx : F; ext_uly : F; ext_lrx : F; ext_lry : F
}.

(** Lines 352-356, one turn of the loop. *)
Definition grow (e : extent) (fi : file_info) : extent :=
  mk_extent (py_min (ext_ulx e) (ulx fi)) (py_max (ext_uly e) (uly fi))
            (py_max (ext_lrx e) (lrx fi)) (py_min (ext_lry e) (lry fi)).

(** Lines 347-356; [file_infos[0]] raises [IndexError] on an empty list. *)
Definition union_extent (file_infos : list file_info) : result exn extent :=
  match file_infos with
  | [] => Raise IndexError
  | fi0 :: _ =>
    Ok (fold_left grow file_infos
          (mk_extent (ulx fi0) (uly fi0) (lrx fi0) (lry fi0)))
  end.

(** Lines 376-379: the snap to the pixel grid. *)
Definition snap_down (x step : F) : result arith_exn F :=
  q ← div x step; k ← py_floor q; mret (mul (of_int k) step).
Definition snap_up (x step : F) : result arith_exn F :=
  q ← div x step; k ← py_ceil q; mret (mul (of_int k) step).

Definition align_extent (e : extent) (psize_x psize_y : F)
  : result arith_exn extent :=
  ulx' ← snap_down (ext_ulx e) psize_x;
  lrx' ← snap_up (ext_lrx e) psize_x;
  lry' ← snap_down (ext_lry e) (neg psize_y);
  uly' ← snap_up (ext_uly e) (neg psize_y);
  mret (mk_extent ulx' uly' lrx' lry').

(** What the creation branch, lines 375-391, decides. *)
Record plan := mk_plan {
  plan_geotransform : GeoTransform;
  plan_xsize : Z;
  plan_ysize : Z;
  plan_bands : Z
}.

Definition plan_output (aligned : bool) (file_infos : list file_info)
    (e : extent) (psize_x psize_y : F) (bands0 : Z) : result arith_exn plan :=
  e ← (if aligned then align_extent e psize_x psize_y else Ok e);
  let geotransform :=
    mkGT (ext_ulx e) psize_x (of_int 0) (ext_uly e) (of_int 0) psize_y in
  xsize ← to_pixel (ext_lrx e) (ext_ulx e) (gt1 geotransform) lit_0_5;
  ysize ← to_pixel (ext_lry e) (ext_uly e) (gt5 geotransform) lit_0_5;
  let nbands :=
    if negb (separate =? 0)
    then fold_left (fun n fi => n + bands fi) file_infos 0
    else bands0 in
  mret (mk_plan geotransform xsize ysize nbands).

Definition SetGeoTransform (fh : string) (g : GeoTransform) : M unit :=
  d ← dataset_of fh;
  modify (fun w =>
    mkWorld (<[fh := mkDataset (RasterXSize d) (RasterYSize d) g
                       (GetProjection d) (raster_bands d)]> (files w))
            (trace w)).

Definition SetProjection (fh : string) (p : string) : M unit :=
  d ← dataset_of fh;
  modify (fun w =>
    mkWorld (<[fh := mkDataset (RasterXSize d) (RasterYSize d)
                       (GetGeoTransform d) p (raster_bands d)]> (files w))
            (trace w)).

(** Lines 393-400. *)
Definition create_output (drv : Driver) (out_file : string) (p : plan)
    (band_type0 : Z) (projection0 : string) : M string :=
  match Create drv out_file (plan_xsize p) (plan_ysize p) (plan_bands p)
               band_type0 with
  | None => raise (SystemExit 1)
  | Some d =>
    _ ← emit (DatasetCreate out_file);
    _ ← modify (fun w => mkWorld (<[out_file := d]> (files w)) (trace w));
    _ ← SetGeoTransform out_file (plan_geotransform p);
    _ ← SetProjection out_file projection0;
    mret out_file
  end.

(** Lines 443-445: SEPARATE layout, with the running output band. *)
Fixpoint copy_bands_separate (fi : file_info) (t_fh : string)
    (bs : list Z) (t_band : Z) : M Z :=
  match bs with
  | [] => mret t_band
  | band :: rest =>
    _ ← copy_into fi t_fh band t_band nodata;
    copy_bands_separate fi t_fh rest (t_band + 1)
  end.

(** Lines 439-441: STACKED layout.  [bands] is assigned only where the
    output is created (line 391); reading it otherwise is an
    [UnboundLocalError]. *)
Definition copy_bands_stacked (fi : file_info) (t_fh : string)
    (nbands : option Z) : M unit :=
  match nbands with
  | None => raise UnboundLocalError
  | Some n =>
    for_each (seqZ 1 n)
             (fun band => _ ← copy_into fi t_fh band band nodata; mret tt)
  end.

(** Lines 427-448. *)
Fixpoint copy_tiles (t_fh : string) (nbands : option Z)
    (file_infos : list file_info) (t_band : Z) : M unit :=
  match file_infos with
  | [] => mret tt
  | fi :: rest =>
    if negb (createonly =? 0) then copy_tiles t_fh nbands rest t_band
    else
      t_band' ← (if separate =? 0
                 then _ ← copy_bands_stacked fi t_fh nbands; mret t_band
                 else copy_bands_separate fi t_fh (seqZ 1 (bands fi)) t_band);
      copy_tiles t_fh nbands rest t_band'
  end.

(** Lines 359-448: what follows once the union extent [e] and the
    first tile [fi0] are there.  [a_nodata] is [None] and [pre_init] is
    the empty list, so lines 406-418 do nothing. *)
Definition merge_from (drv : Driver) (out_file : string)
    (file_infos : list file_info) (e : extent) (fi0 : file_info) : M unit :=
  let psize_x := gt1 (geotransform fi0) in
  let psize_y := gt5 (geotransform fi0) in
  let band_type0 := band_type fi0 in
  t_fh ← gdal_Open out_file;
  '(t_fh, nbands) ←
    match t_fh with
    | Some t_fh => mret (t_fh, None)
    | None =>
      p ← lift_arith (plan_output bTargetAlignedPixels file_infos e
                        psize_x psize_y (bands fi0));
      t_fh ← create_output drv out_file p band_type0 (projection fi0);
      mret (t_fh, Some (plan_bands p))
    end;
  copy_tiles t_fh nbands file_infos 1.

(** Lines 344-448, once the driver is known. *)
Definition merge_with (drv : Driver) (names : list string)
    (out_file : string) : M unit :=
  file_infos ← names_to_fileinfos names;
  e ← lift (union_extent file_infos);
  match file_infos with
  | [] => raise IndexError
  | fi0 :: _ => merge_from drv out_file file_infos e fi0
  end.

(** Lines 303-341, then the rest. *)
Definition run_merge (env : Env) (names : list string) (out_file : string)
  : M unit :=
  format ← lift (GetOutputDriverFor env out_file);
  match GetDriverByName env format with
  | None => raise (SystemExit 1)
  | Some drv =>
    if negb (DCAP_CREATE drv) then raise (SystemExit 1)
    else merge_with drv names out_file
  end.

(** ** What the properties speak of *)

(** The band a reference points to, as a plain lookup. *)
Definition find_band (w : World) (name : string) (n : Z) : option (Dataset * Band) :=
  d ← files w !! name; bd ← band_at d n; Some (d, bd).

(** What [raster_copy] comes to, case by case. *)
Definition selected_copy
    (s_fh : string) (s_xoff s_yoff s_xsize s_ysize s_band_n : Z)
    (t_fh : string) (t_xoff t_yoff t_xsize t_ysize t_band_n : Z)
    (nodata_arg : option F) (w : World) : result exn Z * World :=
  match nodata_arg with
  | Some nd =>
    raster_copy_with_nodata s_fh s_xoff s_yoff s_xsize s_ysize s_band_n
                            t_fh t_xoff t_yoff t_xsize t_ysize t_band_n nd w
  | None =>
    match find_band w s_fh s_band_n with
    | None => (Raise AttributeError, w)
    | Some (_, s_band) =>
      if negb (MaskFlags s_band =? GMF_ALL_VALID) then
        raster_copy_with_mask s_fh s_xoff s_yoff s_xsize s_ysize s_band_n
          t_fh t_xoff t_yoff t_xsize t_ysize t_band_n (MaskOf s_fh s_band_n) w
      else if ColorInterpretation s_band =? GCI_AlphaBand then
        raster_copy_with_mask s_fh s_xoff s_yoff s_xsize s_ysize s_band_n
          t_fh t_xoff t_yoff t_xsize t_ysize t_band_n (BandOf s_fh s_band_n) w
      else
        plain_copy s_fh s_xoff s_yoff s_xsize s_ysize s_band_n
                   t_fh t_xoff t_yoff t_xsize t_ysize t_band_n w
    end
  end.

(** A computation is [quiet] when it only appends to the trace and
    what it appends has no entry into the nodata-aware composite. *)
Definition quiet {A} (m : M A) : Prop :=
  forall w, exists evs,
    trace (m w).2 = trace w ++ evs /\ Enter NodataComposite ∉ evs.

(** It is [tame] when, besides, it does not raise [IndexError]. *)
Definition tame {A} (m : M A) : Prop :=
  quiet m /\ forall w, (m w).1 <> Raise IndexError.

(** Every dataset of the store has a first band (the data model's
    [bandCount > 0]). *)
Definition has_bands (w : World) : Prop :=
  forall name d, files w !! name = Some d -> raster_bands d <> [].

(** The descriptor of a name that opens. *)
Definition describe_in (w : World) (name : string) : option file_info :=
  d ← files w !! name; b1 ← band_at d 1; Some (describe name d b1).

(** The sample of band [n] of dataset [name] at column [x], row [y]. *)
Definition pixel (w : World) (name : string) (n x y : Z) : option F :=
  '(_, bd) ← find_band w name n; Some (samples bd x y).

(** A buffer of [ysize] rows of [xsize] cells. *)
Definition has_shape {A} (a : list (list A)) (xsize ysize : Z) : Prop :=
  length a = Z.to_nat ysize
  /\ Forall (fun row => length row = Z.to_nat xsize) a.

(** [cell] for buffers of any element type. *)
Definition bcell {A} (a : list (list A)) (j i : Z) : option A :=
  if (0 <=? j) && (0 <=? i)
  then a !! Z.to_nat j ≫= fun row => row !! Z.to_nat i
  else None.

(** The store after [data] went into band [n] of [name] at [(x, y)]. *)
Definition stored (w : World) (name : string) (n : Z) (d : Dataset) (bd : Band)
    (x y : Z) (data : list (list F)) : World :=
  mkWorld (<[name := set_band d n (set_samples bd (store (samples bd) x y data))]>
           (files w))
          (trace w ++ [RasterWrite (BandOf name n)]).

(** The nodata test on one sample of an array of type [dt]: equal to
    the nodata value as numpy compares them, or NaN when the nodata
    value is NaN. *)
Definition is_nodata (dt : Z) (nodata_value v : F) : bool :=
  if isnan nodata_value then isnan v else equal_float dt v nodata_value.

(** A sample of type [from], cast to the common type of two arrays of
    types [sdt] and [tdt] and then stored in a band of type [tdt]: the
    way of a sample through [choose] and [WriteArray]. *)
Definition composited (sdt tdt from : Z) (v : F) : F :=
  convert (result_type sdt tdt) tdt (astype from (result_type sdt tdt) v).

(** The source sample that lands on cell [(i, j)] of a [t_xsize] x
    [t_ysize] buffer read from the source window. *)
Definition sample_for (px : Z -> Z -> F)
    (s_xoff s_yoff s_xsize s_ysize t_xsize t_ysize i j : Z) : F :=
  px (s_xoff + src_index i s_xsize t_xsize) (s_yoff + src_index j s_ysize t_ysize).

(** The geometry of [copy_into], lines 248-292: the source and target
    windows, or [None] where the tile is skipped. *)
Definition copy_windows (self : file_info) (t : Dataset)
  : result arith_exn (option (window * window)) :=
  let r := intersection self t in
  if no_intersection (gt5 (GetGeoTransform t)) r then Ok None else
  tw ← target_window (GetGeoTransform t) r;
  if too_small tw then Ok None else
  sw ← source_window self r;
  if too_small sw then Ok None else Ok (Some (sw, tw)).

(** What the geometry sees of a dataset, and the pixel types of its
    bands. *)
Definition frame_of (d : Dataset) : Z * Z * GeoTransform * list Z :=
  (RasterXSize d, RasterYSize d, GetGeoTransform d, DataType <$> raster_bands d).

(** The window lies inside the raster. *)
Definition window_in (d : Dataset) (win : window) : bool :=
  window_ok d (xoff win) (yoff win) (win_xsize win) (win_ysize win).

(** Column [x], row [y] lies in the window. *)
Definition inside (win : window) (x y : Z) : Prop :=
  xoff win <= x < xoff win + win_xsize win
  /\ yoff win <= y < yoff win + win_ysize win.

(** A band the plain copy applies to: all-valid mask, not alpha. *)
Definition plain_band (bd : Band) : Prop :=
  MaskFlags bd = GMF_ALL_VALID /\ ColorInterpretation bd <> GCI_AlphaBand.

(** The value a tile brings to column [x], row [y] of the target [t]
    under the plain copy: the sample of its band that the resized
    source window puts there, converted to the target band's type. *)
Definition tile_sample (t sd : Dataset) (sw tw : window) (band x y : Z)
  : option F :=
  bd ← band_at sd band;
  tb ← band_at t band;
  Some (convert (DataType bd) (DataType tb)
          (sample_for (samples bd) (xoff sw) (yoff sw) (win_xsize sw) (win_ysize sw)
                      (win_xsize tw) (win_ysize tw) (x - xoff tw) (y - yoff tw))).

(** The backend calls of one tile copied band by band, plainly. *)
Definition tile_events (t_fh : string) (fi : file_info) (bs : list Z)
  : list event :=
  bs ≫= fun band => [Enter PlainCopy;
                     RasterRead (BandOf (filename fi) band);
                     RasterWrite (BandOf t_fh band)].

(** A tile that [copy_into] copies plainly into the target [t], band
    for band up to [n]: another file than the target, its bands
    all-valid and not alpha, with windows the two rasters contain. *)
Definition plain_tile (w : World) (t_fh : string) (t : Dataset) (n : Z)
    (fi : file_info) (sd : Dataset) (sw tw : window) : Prop :=
  filename fi <> t_fh
  /\ files w !! filename fi = Some sd
  /\ Forall plain_band (raster_bands sd)
  /\ n <= RasterCount sd
  /\ copy_windows fi t = Ok (Some (sw, tw))
  /\ window_in sd sw = true
  /\ window_in t tw = true.

(** *** The planner (lines 347-384) *)

(** [m] is a least (greatest) element of [l]. *)
Definition is_min (m : F) (l : list F) : Prop :=
  m ∈ l /\ forall x, x ∈ l -> leb m x = true.
Definition is_max (m : F) (l : list F) : Prop :=
  m ∈ l /\ forall x, x ∈ l -> leb x m = true.

(** No coordinate of the tile's extent is NaN. *)
Definition extent_defined (fi : file_info) : Prop :=
  isnan (ulx fi) = false /\ isnan (uly fi) = false
  /\ isnan (lrx fi) = false /\ isnan (lry fi) = false.

(** Lines 347-384 in one piece, for an output that is to be created. *)
Definition mosaic_plan (file_infos : list file_info) : result exn plan :=
  e ← union_extent file_infos;
  match file_infos with
  | [] => Raise IndexError
  | fi0 :: _ =>
    match plan_output bTargetAlignedPixels file_infos e
            (gt1 (geotransform fi0)) (gt5 (geotransform fi0)) (bands fi0) with
    | Ok p => Ok p
    | Raise err => Raise (ArithmeticError err)
    end
  end.

(** The multipliers the snap of lines 376-379 works with:
    [floor(x / step)] and [ceil(x / step)]. *)
Definition grid_floor (x step : F) : result arith_exn Z :=
  q ← div x step; py_floor q.
Definition grid_ceil (x step : F) : result arith_exn Z :=
  q ← div x step; py_ceil q.

(** The four of an extent, in the order of the source: [ulx], [lrx],
    [lry], [uly]. *)
Definition grid_indices (e : extent) (psize_x psize_y : F)
  : result arith_exn (Z * Z * Z * Z) :=
  k_ulx ← grid_floor (ext_ulx e) psize_x;
  k_lrx ← grid_ceil (ext_lrx e) psize_x;
  k_lry ← grid_floor (ext_lry e) (neg psize_y);
  k_uly ← grid_ceil (ext_uly e) (neg psize_y);
  mret (k_ulx, k_lrx, k_lry, k_uly).

(** *** What a copy does to the store *)

(** Size, geotransform, projection and band count of a dataset. *)
Definition header_of (d : Dataset) : Z * Z * GeoTransform * string * nat :=
  (RasterXSize d, RasterYSize d, GetGeoTransform d, GetProjection d,
   length (raster_bands d)).

(** The calls that leave the store as it is: entering a strategy and
    reading a window. *)
Definition is_read (ev : event) : Prop :=
  match ev with
  | Enter _ | RasterRead _ => True
  | RasterWrite _ | DatasetCreate _ => False
  end.

(** What one band copy into window [tw] of band [band] of [t_fh] can
    come to, after some reads: an exception with the files as they
    were; the result 0 with one buffer of the window's shape written
    to that window; or the result 0 with the write refused, the window
    not being inside the raster, and the files as they were. *)
Definition copy_effect (t_fh : string) (band : Z) (tw : window)
    (w : World) (r : result exn Z) (w' : World) : Prop :=
  exists evs,
    Forall is_read evs
    /\ ((exists e, r = Raise e)
        /\ files w' = files w /\ trace w' = trace w ++ evs
        \/ (exists td tb data,
             find_band w t_fh band = Some (td, tb)
             /\ window_in td tw = true
             /\ has_shape data (win_xsize tw) (win_ysize tw)
             /\ r = Ok 0
             /\ w' = stored (mkWorld (files w) (trace w ++ evs))
                            t_fh band td tb (xoff tw) (yoff tw) data)
        \/ (exists td tb,
             find_band w t_fh band = Some (td, tb)
             /\ window_in td tw = false
             /\ r = Ok 0
             /\ files w' = files w
             /\ trace w' = trace w ++ evs ++ [RasterWrite (BandOf t_fh band)])).

(** The calls that touch no dataset but [out]: reads, and writes to
    and the creation of [out]. *)
Definition touches_only (out : string) (ev : event) : Prop :=
  match ev with
  | Enter _ | RasterRead _ => True
  | RasterWrite b => exists n, b = BandOf out n
  | DatasetCreate name => name = out
  end.

(** From [w] to [w'] only the dataset [out] changed: every other name
    is stored as before and the trace grew by calls that touch [out]
    alone. *)
Definition confined (out : string) (w w' : World) : Prop :=
  (forall name, name <> out -> files w' !! name = files w !! name)
  /\ exists evs, trace w' = trace w ++ evs /\ Forall (touches_only out) evs.

(** Besides, the header of [out] is what it was. *)
Definition kept (out : string) (w w' : World) : Prop :=
  confined out w w'
  /\ header_of <$> files w' !! out = header_of <$> files w !! out.

(** A computation whose final store is always related to the initial
    one by [R]. *)
Definition preserves {A} (R : World -> World -> Prop) (m : M A) : Prop :=
  forall w, R w (m w).2.

(** [inside], decided. *)
Definition insideb (win : window) (x y : Z) : bool :=
  (xoff win <=? x) && (x <? xoff win + win_xsize win)
  && (yoff win <=? y) && (y <? yoff win + win_ysize win).

(** What one tile of a plain mosaic makes of the sample [old] at
    column [x], row [y] of band [band]: its own value where its target
    window covers the pixel and the band is among the [n] copied ones. *)
Definition overlay (w : World) (t : Dataset) (n : Z) (fi : file_info)
    (band x y : Z) (old : option F) : option F :=
  match copy_windows fi t, files w !! filename fi with
  | Ok (Some (sw, tw)), Some sd =>
    if (1 <=? band) && (band <=? n) && insideb tw x y
    then tile_sample t sd sw tw band x y
    else old
  | _, _ => old
  end.

(** A tile a plain mosaic can take: one that [copy_into] skips, or one
    it copies plainly. *)
Definition mosaic_tile (w : World) (t_fh : string) (t : Dataset) (n : Z)
    (fi : file_info) : Prop :=
  copy_windows fi t = Ok None
  \/ exists sd sw tw, plain_tile w t_fh t n fi sd sw tw.

(** The output as lines 393-400 leave it, [d0] being the raster the
    driver allocated, and the store that holds it. *)
Definition created (p : plan) (fi0 : file_info) (d0 : Dataset) : Dataset :=
  mkDataset (RasterXSize d0) (RasterYSize d0) (plan_geotransform p)
            (projection fi0) (raster_bands d0).
Definition with_created (w : World) (out_file : string) (t : Dataset) : World :=
  mkWorld (<[out_file := t]> (files w)) (trace w ++ [DatasetCreate out_file]).

(** A dataset without bands among those the names open. *)
Definition opens_bandless (w : World) (names : list string) : Prop :=
  exists name d, name ∈ names /\ files w !! name = Some d /\ raster_bands d = [].

End Engine.

(** * Numbers with an order

    What the planner needs of the comparisons: on values that are not
    NaN, [<=] is reflexive and total against [<], and it is transitive.
    Binary64 has it. *)

Class OrderedNumber (F : Type) `{PyNumber F} := {
  leb_refl : forall x : F, isnan x = false -> leb x x = true;
  ltb_leb : forall x y : F, ltb x y = true -> leb x y = true;
  leb_total : forall x y : F,
    isnan x = false -> isnan y = false -> ltb y x = false -> leb x y = true;
  leb_trans : forall x y z : F,
    leb x y = true -> leb y z = true -> leb x z = true
}.

(** * Sample rasters

    North-up rasters with unit pixels on binary64, used to run the
    engine on concrete inputs. *)

Module Sample.

Definition fz (k : Z) : B64.t := B64.of_int k.

(** *** The pixel types of the sample rasters

    GDAL's and numpy's conversions between Byte, Int16, Float32 and
    Float64, the types the sample rasters are made of. *)

(** The range of an integer type. *)
Definition limits (ty : Z) : option (Z * Z) :=
  if ty =? GDT_Byte then Some (0, 255)
  else if ty =? GDT_Int16 then Some (-32768, 32767)
  else None.

(** A float in the form binary64 operations expect. *)
Definition canonical (x : B64.t) : B64.t :=
  match x with
  | S754_finite s m e => binary_normalize B64.prec B64.emax (B64.signed s m) e s
  | _ => x
  end.

(** The nearest binary32 number, as a float. *)
Definition to_float32 (x : B64.t) : B64.t :=
  match x with
  | S754_finite s m e => canonical (binary_normalize 24 128 (B64.signed s m) e s)
  | _ => x
  end.

(** [x + y] as the type [from] computes it: in binary32 for Float32
    samples, in binary64 otherwise. *)
Definition plus_in (from : Z) (x y : B64.t) : B64.t :=
  if from =? GDT_Float32 then canonical (SFadd 24 128 x y)
  else SFadd B64.prec B64.emax x y.

(** GDALCopyWords into an integer type with range [lo, hi]: NaN gives
    0; any other sample is moved by one half away from zero (toward
    plus infinity for an unsigned type), clamped to the range and cut
    to a whole number.  A whole number inside the range is stored as it
    is, one outside it as the nearer end of the range. *)
Definition to_integer (from lo hi : Z) (v : B64.t) : B64.t :=
  match v with
  | S754_nan => fz 0
  | _ =>
    let half := B64.lit 1 2 in
    let moved :=
      if (lo <? 0) && SFltb v (fz 0) then plus_in from v (SFopp half)
      else plus_in from v half in
    if SFltb moved (fz lo) then fz lo
    else if SFltb (fz hi) moved then fz hi
    else match B64.py_int moved with
         | Ok k => fz k
         | Raise _ => fz 0
         end
  end.

Definition gdal_copy_word (from to : Z) (v : B64.t) : B64.t :=
  match limits to with
  | Some (lo, hi) => to_integer from lo hi v
  | None => if to =? GDT_Float32 then to_float32 v else v
  end.

(** A Python float against a float32 array is compared as a float32;
    against an integer or a float64 array, as it is. *)
Definition numpy_equal_float (dt : Z) (v x : B64.t) : bool :=
  SFeqb v (if dt =? GDT_Float32 then to_float32 x else x).

Definition is_integer (ty : Z) : bool := if limits ty is Some _ then true else false.

(** numpy's promotion: uint8 with int16 is int16, either of them with
    float32 is float32, anything with float64 is float64. *)
Definition numpy_result_type (a b : Z) : Z :=
  if a =? b then a
  else if is_integer a && is_integer b then GDT_Int16
  else if (is_integer a && (b =? GDT_Float32))
          || ((a =? GDT_Float32) && is_integer b) then GDT_Float32
  else GDT_Float64.

(** A cast to the common type keeps the value. *)
Definition numpy_astype (from to : Z) (v : B64.t) : B64.t := v.

#[global] Instance types : RasterTypes B64.t :=
  Build_RasterTypes B64.t gdal_copy_word numpy_equal_float
                    numpy_result_type numpy_astype.

Definition uniform_band (v : B64.t) : Band :=
  mkBand GDT_Byte GMF_ALL_VALID 1 None (fun _ _ => v) (fun _ _ => fz 255).

Definition int16_band (v : B64.t) : Band :=
  mkBand GDT_Int16 GMF_ALL_VALID 1 None (fun _ _ => v) (fun _ _ => fz 255).

Definition float32_band (v : B64.t) : Band :=
  mkBand GDT_Float32 GMF_ALL_VALID 1 None (fun _ _ => v) (fun _ _ => fz 255).

(** A band of type [ty] whose mask band is 0 on columns 0-4 and 255
    elsewhere. *)
Definition half_masked (ty : Z) (v : B64.t) : Band :=
  mkBand ty 2 1 None (fun _ _ => v)
         (fun x _ => if x <? 5 then fz 0 else fz 255).
Definition half_masked_band (v : B64.t) : Band := half_masked GDT_Byte v.

Definition north_up (x0 y0 : Z) : GeoTransform :=
  mkGT (fz x0) (fz 1) (fz 0) (fz y0) (fz 0) (fz (-1)).

(** Extent [0,10] x [0,10], all samples 5. *)
Definition tileA : Dataset :=
  mkDataset 10 10 (north_up 0 10) "" [uniform_band (fz 5)].
(** Extent [5,20] x [-5,10], all samples 2. *)
Definition tileB : Dataset :=
  mkDataset 15 15 (north_up 5 10) "" [uniform_band (fz 2)].
(** Extent [0,10] x [0,10], every sample the sentinel -9999. *)
Definition hole : Dataset :=
  mkDataset 10 10 (north_up 0 10) "" [int16_band (fz (-9999))].
(** Extent [0,10] x [0,10], samples 7, left half masked out. *)
Definition masked : Dataset :=
  mkDataset 10 10 (north_up 0 10) "" [half_masked_band (fz 7)].
(** Extent [0,10] x [0,10], Int16 samples, all 300. *)
Definition bright : Dataset :=
  mkDataset 10 10 (north_up 0 10) "" [int16_band (fz 300)].
(** The same, left half masked out. *)
Definition glare : Dataset :=
  mkDataset 10 10 (north_up 0 10) "" [half_masked GDT_Int16 (fz 300)].
(** Extent [0,10] x [0,10], Float32 samples: the float32 nearest to
    0.1 in [mist], 5 in [slate]. *)
Definition mist : Dataset :=
  mkDataset 10 10 (north_up 0 10) "" [float32_band (to_float32 (B64.lit 1 10))].
Definition slate : Dataset :=
  mkDataset 10 10 (north_up 0 10) "" [float32_band (fz 5)].
(** Extent [100,110] x [0,10]: away from everything else. *)
Definition far : Dataset :=
  mkDataset 10 10 (north_up 100 10) "" [uniform_band (fz 9)].
(** A 20 x 15 output over [0,20] x [-5,10], all samples 0. *)
Definition canvas : Dataset :=
  mkDataset 20 15 (north_up 0 10) "" [uniform_band (fz 0)].

Definition store0 : World :=
  mkWorld (<["a.tif" := tileA]> (<["b.tif" := tileB]> (<["hole.tif" := hole]>
           (<["masked.tif" := masked]> (<["far.tif" := far]>
           (<["bright.tif" := bright]> (<["glare.tif" := glare]>
           (<["mist.tif" := mist]> (<["slate.tif" := slate]> ∅))))))))) [].

Definition store1 : World :=
  mkWorld (<["out.tif" := canvas]> (files store0)) [].

Definition fiA : file_info := describe "a.tif" tileA (uniform_band (fz 5)).
Definition fiB : file_info := describe "b.tif" tileB (uniform_band (fz 2)).
Definition fiFar : file_info := describe "far.tif" far (uniform_band (fz 9)).
Definition fiBright : file_info :=
  describe "bright.tif" bright (int16_band (fz 300)).

(** A driver that allocates zero-filled rasters of at least 1 x 1. *)
Definition mem : Driver :=
  mkDriver true
    (fun _ xs ys nb bt =>
       if (1 <=? xs) && (1 <=? ys)
       then Some (mkDataset xs ys
                    (mkGT (fz 0) (fz 1) (fz 0) (fz 0) (fz 0) (fz 1)) ""
                    (replicate (Z.to_nat nb)
                       (mkBand bt GMF_ALL_VALID 1 None
                               (fun _ _ => fz 0) (fun _ _ => fz 255))))
       else None).

Definition env : Env :=
  mkEnv (fun _ => Ok "GTiff") (fun _ => Some mem).

(** A driver that can create rasters but declines to, as one does
    where it cannot write; and an environment that has only it. *)
Definition locked : Driver (F:=B64.t) :=
  mkDriver true (fun _ _ _ _ _ => None).
Definition locked_env : Env :=
  mkEnv (fun _ => Ok "GTiff") (fun _ => Some locked).

(** Rasters 10^17 units east, where binary64 numbers are 16 apart: a
    32-wide tile, and a 10-wide target whose right edge, 10^17 + 10,
    is rounded to 10^17 + 16. *)
Definition east : Z := 100000000000000000.
Definition wide : Dataset :=
  mkDataset 32 10 (north_up east 10) "" [uniform_band (fz 4)].
Definition narrow : Dataset :=
  mkDataset 10 10 (north_up east 10) "" [uniform_band (fz 0)].
Definition fiWide : file_info := describe "wide.tif" wide (uniform_band (fz 4)).
Definition store3 : World :=
  mkWorld (<["wide.tif" := wide]> (<["narrow.tif" := narrow]> ∅)) [].

(** A grid of pixel size 0.1: the tile starts at 0, the target three
    pixels further, at 0.3. *)
Definition tenth : B64.t := B64.lit 1 10.
Definition fine_tile : Dataset :=
  mkDataset 10 10 (mkGT (fz 0) tenth (fz 0) (fz 1) (fz 0) (SFopp tenth)) ""
            [uniform_band (fz 1)].
Definition fine_target : Dataset :=
  mkDataset 10 10 (mkGT (B64.lit 3 10) tenth (fz 0) (fz 1) (fz 0) (SFopp tenth)) ""
            [uniform_band (fz 0)].
Definition fi_fine : file_info :=
  describe "fine.tif" fine_tile (uniform_band (fz 1)).

(** A dataset without bands, and a store that holds it. *)
Definition bare : Dataset :=
  mkDataset 10 10 (north_up 0 10) "" ([] : list (Band (F:=B64.t))).
Definition store2 : World :=
  mkWorld (<["bare.tif" := bare]> (files store0)) [].

End Sample.

(** The extent [0, 0.25] x [0, 0] on binary64. *)
Definition quarter_extent : extent (F:=B64.t) :=
  mk_extent (Sample.fz 0) (Sample.fz 0) (B64.lit 1 4) (Sample.fz 0).

(** The extent [0.35, 0.5] x [0, 1] on binary64. *)
Definition odd_extent : extent (F:=B64.t) :=
  mk_extent (B64.lit 35 100) (Sample.fz 1) (B64.lit 1 2) (Sample.fz 0).

(** * Properties *)

Section Properties.
Context {F : Type} `{PyNumber F} `{RasterTypes F}.

Local Abbreviation World := (World (F:=F)).
Local Abbreviation Dataset := (Dataset (F:=F)).
Local Abbreviation Band := (Band (F:=F)).
Local Abbreviation M := (M (F:=F)).
Local Abbreviation file_info := (file_info (F:=F)).
Local Abbreviation Driver := (Driver (F:=F)).
Local Abbreviation Env := (Env (F:=F)).
Local Abbreviation plan := (plan (F:=F)).
Local Abbreviation extent := (extent (F:=F)).
Local Abbreviation quiet := (quiet (F:=F)).
Local Abbreviation tame := (tame (F:=F)).
Local Abbreviation nodata := (nodata (F:=F)).

(** ** Reasoning in the monad *)

Lemma bind_run {A B} (m : M A) (k : A -> M B) (w : World) :
  (m ≫= k) w =
  match m w return result exn B * World with
  | (Ok a, w') => k a w'
  | (Raise e, w') => (Raise e, w')
  end.
Proof. reflexivity. Qed.

Lemma ret_run {A} (a : A) (w : World) : mret (M:=M) a w = (Ok a, w).
Proof. reflexivity. Qed.

Lemma emit_run (ev : event) (w : World) :
  emit ev w = (Ok tt, mkWorld (files w) (trace w ++ [ev])).
Proof. reflexivity. Qed.

Lemma band_of_run (b : band_ref) (w : World) :
  band_of b w =
  match find_band w (ref_name b) (ref_band b) with
  | Some p => (Ok p, w)
  | None => (Raise AttributeError, w)
  end.
Proof.
  unfold band_of, find_band. rewrite bind_run. unfold dataset_of.
  destruct (files w !! ref_name b) as [d|]; simpl; [|reflexivity].
  destruct (band_at d (ref_band b)); reflexivity.
Qed.

Lemma raster_copy_run
    (s_fh : string) (s_xoff s_yoff s_xsize s_ysize s_band_n : Z)
    (t_fh : string) (t_xoff t_yoff t_xsize t_ysize t_band_n : Z)
    (nodata_arg : option F) (w : World) :
  raster_copy s_fh s_xoff s_yoff s_xsize s_ysize s_band_n
              t_fh t_xoff t_yoff t_xsize t_ysize t_band_n nodata_arg w =
  selected_copy s_fh s_xoff s_yoff s_xsize s_ysize s_band_n
                t_fh t_xoff t_yoff t_xsize t_ysize t_band_n nodata_arg w.
Proof.
  unfold selected_copy.
  destruct nodata_arg as [nd|]; [reflexivity|].
  unfold raster_copy. rewrite bind_run.
  unfold mask_band_for, GetMaskFlags, GetColorInterpretation.
  rewrite !bind_run, band_of_run. simpl ref_name; simpl ref_band.
  destruct (find_band w s_fh s_band_n) as [[d bd]|] eqn:Hb; [|reflexivity].
  rewrite ret_run.
  destruct (negb (MaskFlags bd =? GMF_ALL_VALID)); [reflexivity|].
  rewrite !bind_run, band_of_run. simpl ref_name; simpl ref_band. rewrite Hb.
  rewrite ret_run.
  destruct (ColorInterpretation bd =? GCI_AlphaBand); reflexivity.
Qed.

(** C5. Strategy selection in [raster_copy]: a supplied nodata value
    selects the nodata-aware composite whatever the band's mask flags
    and colour interpretation are; without one, mask flags other than
    all-valid select the mask-aware composite on the band's mask band,
    an alpha band selects it with the band as its own mask, and only
    otherwise the plain copy runs. *)
Theorem raster_copy_strategy_precedence
    (s_fh : string) (s_xoff s_yoff s_xsize s_ysize s_band_n : Z)
    (t_fh : string) (t_xoff t_yoff t_xsize t_ysize t_band_n : Z)
    (nodata_arg : option F) (w : World) :
  raster_copy s_fh s_xoff s_yoff s_xsize s_ysize s_band_n
              t_fh t_xoff t_yoff t_xsize t_ysize t_band_n nodata_arg w =
  match nodata_arg with
  | Some nd =>
    raster_copy_with_nodata s_fh s_xoff s_yoff s_xsize s_ysize s_band_n
                            t_fh t_xoff t_yoff t_xsize t_ysize t_band_n nd w
  | None =>
    match find_band w s_fh s_band_n with
    | None => (Raise AttributeError, w)
    | Some (_, s_band) =>
      if negb (MaskFlags s_band =? GMF_ALL_VALID) then
        raster_copy_with_mask s_fh s_xoff s_yoff s_xsize s_ysize s_band_n
          t_fh t_xoff t_yoff t_xsize t_ysize t_band_n (MaskOf s_fh s_band_n) w
      else if ColorInterpretation s_band =? GCI_AlphaBand then
        raster_copy_with_mask s_fh s_xoff s_yoff s_xsize s_ysize s_band_n
          t_fh t_xoff t_yoff t_xsize t_ysize t_band_n (BandOf s_fh s_band_n) w
      else
        plain_copy s_fh s_xoff s_yoff s_xsize s_ysize s_band_n
                   t_fh t_xoff t_yoff t_xsize t_ysize t_band_n w
    end
  end.
Proof. apply raster_copy_run. Qed.

(** C7. A degenerate overlap makes [copy_into] a successful no-op:
    when the world-space intersection is empty (overlap [ulx >= lrx],
    or the y-extent degenerate or inverted for the sign of the target
    pixel height), or the target or the source pixel window comes out
    smaller than 1 on an axis, [copy_into] returns 1 and leaves the
    store and the trace as they were: no raster read, no raster
    write. *)
Theorem copy_into_degenerate_overlap_is_noop
    (self : file_info) (t_fh : string) (s_band t_band : Z)
    (nodata_arg : option F) (w : World) (t : Dataset) :
  files w !! t_fh = Some t ->
  geb (tgw_ulx (intersection self t)) (tgw_lrx (intersection self t)) = true
  \/ (ltb (gt5 (GetGeoTransform t)) (of_int 0) = true
      /\ leb (tgw_uly (intersection self t)) (tgw_lry (intersection self t)) = true)
  \/ (gtb (gt5 (GetGeoTransform t)) (of_int 0) = true
      /\ geb (tgw_uly (intersection self t)) (tgw_lry (intersection self t)) = true)
  \/ (exists tw,
        target_window (GetGeoTransform t) (intersection self t) = Ok tw
        /\ (win_xsize tw < 1 \/ win_ysize tw < 1))
  \/ (exists tw sw,
        target_window (GetGeoTransform t) (intersection self t) = Ok tw
        /\ source_window self (intersection self t) = Ok sw
        /\ (win_xsize sw < 1 \/ win_ysize sw < 1)) ->
  copy_into self t_fh s_band t_band nodata_arg w = (Ok 1, w).
Proof.
  intros Ht Hdeg. unfold copy_into. rewrite bind_run. unfold dataset_of.
  rewrite Ht. cbv beta iota zeta.
  destruct (no_intersection (gt5 (GetGeoTransform t)) (intersection self t))
    eqn:Hno; [reflexivity|].
  unfold no_intersection in Hno.
  apply orb_false_elim in Hno as [Hno H3].
  apply orb_false_elim in Hno as [H1 H2].
  destruct Hdeg as [Hd|[[Ha Hb]|[[Ha Hb]|[(tw & Htw & Hs)|(tw & sw & Htw & Hsw & Hs)]]]].
  - congruence.
  - rewrite Ha, Hb in H2. discriminate.
  - rewrite Ha, Hb in H3. discriminate.
  - rewrite bind_run. unfold lift_arith. rewrite Htw.
    assert (too_small tw = true) as ->; [|reflexivity].
    unfold too_small. apply orb_true_iff.
    destruct Hs; [left|right]; apply Z.ltb_lt; assumption.
  - rewrite bind_run. unfold lift_arith. rewrite Htw.
    destruct (too_small tw); [reflexivity|].
    rewrite bind_run. rewrite Hsw.
    assert (too_small sw = true) as ->; [|reflexivity].
    unfold too_small. apply orb_true_iff.
    destruct Hs; [left|right]; apply Z.ltb_lt; assumption.
Qed.

(** ** The trace of a run *)

Lemma tame_quiet {A} (m : M A) : tame m -> quiet m.
Proof. intros [Hq _]. exact Hq. Qed.

Lemma quiet_silent {A} (m : M A) :
  (forall w, trace (m w).2 = trace w) -> quiet m.
Proof.
  intros Hm w. exists []. rewrite app_nil_r.
  split; [apply Hm|apply not_elem_of_nil].
Qed.

Lemma quiet_ret {A} (a : A) : quiet (mret a).
Proof. apply quiet_silent. reflexivity. Qed.

Lemma quiet_raise {A} (e : exn) : quiet (raise (A:=A) e).
Proof. apply quiet_silent. reflexivity. Qed.

Lemma quiet_lift {A} (r : result exn A) : quiet (lift r).
Proof. apply quiet_silent. reflexivity. Qed.

Lemma quiet_bind {A B} (m : M A) (k : A -> M B) :
  quiet m -> (forall a, quiet (k a)) -> quiet (m ≫= k).
Proof.
  intros Hm Hk w. rewrite bind_run.
  destruct (Hm w) as (evs1 & E1 & N1).
  destruct (m w) as [[a|e] w1]; simpl in E1.
  - destruct (Hk a w1) as (evs2 & E2 & N2).
    exists (evs1 ++ evs2). rewrite E2, E1, app_assoc. split; [done|].
    intros [?|?]%elem_of_app; tauto.
  - exists evs1. simpl. split; [done|done].
Qed.

Lemma tame_ret {A} (a : A) : tame (mret a).
Proof. split; [apply quiet_ret|]. intros w. discriminate. Qed.

Lemma tame_raise {A} (e : exn) : e <> IndexError -> tame (raise (A:=A) e).
Proof. intros He. split; [apply quiet_raise|]. intros w. simpl. congruence. Qed.

Lemma tame_lift_arith {A} (r : result arith_exn A) : tame (lift_arith r).
Proof.
  split; [apply quiet_silent; reflexivity|].
  intros w. destruct r; discriminate.
Qed.

Lemma tame_emit (ev : event) : ev <> Enter NodataComposite -> tame (emit ev).
Proof.
  intros Hne. split; [|intros w; discriminate].
  intros w. exists [ev]. split; [done|].
  intros Hin%list_elem_of_singleton. congruence.
Qed.

Lemma tame_modify (f : World -> World) :
  (forall w, trace (f w) = trace w) -> tame (modify f).
Proof.
  intros Hf. split; [apply quiet_silent; exact Hf|]. intros w. discriminate.
Qed.

Lemma tame_bind {A B} (m : M A) (k : A -> M B) :
  tame m -> (forall a, tame (k a)) -> tame (m ≫= k).
Proof.
  intros [Hq Hm] Hk. split.
  - apply quiet_bind; [exact Hq|]. intros a. apply Hk.
  - intros w. rewrite bind_run. specialize (Hm w).
    destruct (m w) as [[a|e] w1]; simpl in *; [apply Hk|congruence].
Qed.

Lemma tame_gdal_Open (name : string) : tame (gdal_Open name).
Proof. split; [apply quiet_silent; reflexivity|]. intros w. discriminate. Qed.

Lemma tame_dataset_of (fh : string) : tame (dataset_of fh).
Proof.
  split.
  - apply quiet_silent. intros w. unfold dataset_of.
    destruct (files w !! fh); reflexivity.
  - intros w. unfold dataset_of. destruct (files w !! fh); discriminate.
Qed.

Ltac tame_step :=
  first
    [ apply tame_ret | apply tame_lift_arith
    | apply tame_gdal_Open | apply tame_dataset_of
    | apply tame_raise; discriminate
    | apply tame_emit; discriminate
    | apply tame_modify; reflexivity
    | apply tame_bind; [|intros ?]
    | match goal with
      | |- tame (match ?x with _ => _ end) => destruct x
      | |- tame (let (_, _) := ?x in _) => destruct x
      end ].

Lemma tame_band_of (b : band_ref) : tame (band_of b).
Proof. unfold band_of. repeat tame_step. Qed.

Lemma tame_read_window (b : band_ref) (x y xs ys bx bs : Z) :
  tame (read_window b x y xs ys bx bs).
Proof. unfold read_window. repeat (apply tame_band_of || tame_step). Qed.

Lemma tame_write_window (b : band_ref) (x y xs ys : Z) (data : list (list F))
    (buf_type : Z) :
  tame (write_window b x y xs ys data buf_type).
Proof. unfold write_window. repeat (apply tame_band_of || tame_step). Qed.

Lemma tame_ReadAsArray (b : band_ref) (x y xs ys bx bs : Z) :
  tame (ReadAsArray b x y xs ys bx bs).
Proof. unfold ReadAsArray. repeat (apply tame_read_window || tame_step). Qed.

Lemma tame_WriteArray (b : band_ref) (a : ndarray) (x y : Z) :
  tame (WriteArray b a x y).
Proof.
  unfold WriteArray.
  repeat (apply tame_write_window || apply tame_band_of || tame_step).
Qed.

Lemma tame_raster_copy_with_mask s_fh s_xoff s_yoff s_xsize s_ysize s_band_n
    t_fh t_xoff t_yoff t_xsize t_ysize t_band_n m_band :
  tame (raster_copy_with_mask s_fh s_xoff s_yoff s_xsize s_ysize s_band_n
          t_fh t_xoff t_yoff t_xsize t_ysize t_band_n m_band).
Proof.
  unfold raster_copy_with_mask.
  repeat (apply tame_ReadAsArray || apply tame_WriteArray || tame_step).
Qed.

Lemma tame_plain_copy s_fh s_xoff s_yoff s_xsize s_ysize s_band_n
    t_fh t_xoff t_yoff t_xsize t_ysize t_band_n :
  tame (plain_copy s_fh s_xoff s_yoff s_xsize s_ysize s_band_n
          t_fh t_xoff t_yoff t_xsize t_ysize t_band_n).
Proof.
  unfold plain_copy, ReadRaster, WriteRaster, GetDataType.
  repeat (apply tame_read_window || apply tame_write_window
          || apply tame_band_of || tame_step).
Qed.

Lemma tame_raster_copy_without_nodata s_fh s_xoff s_yoff s_xsize s_ysize s_band_n
    t_fh t_xoff t_yoff t_xsize t_ysize t_band_n :
  tame (raster_copy s_fh s_xoff s_yoff s_xsize s_ysize s_band_n
          t_fh t_xoff t_yoff t_xsize t_ysize t_band_n None).
Proof.
  unfold raster_copy, mask_band_for, GetMaskFlags, GetColorInterpretation.
  repeat (apply tame_raster_copy_with_mask || apply tame_plain_copy
          || apply tame_band_of || tame_step).
Qed.

Lemma tame_copy_into (fi : file_info) (t_fh : string) (s_band t_band : Z) :
  tame (copy_into fi t_fh s_band t_band nodata).
Proof.
  unfold copy_into, nodata.
  repeat (apply tame_raster_copy_without_nodata || tame_step).
Qed.

Lemma tame_for_each {A} (xs : list A) (body : A -> M unit) :
  (forall x, tame (body x)) -> tame (for_each xs body).
Proof.
  intros Hb. induction xs as [|x xs IH]; simpl; [apply tame_ret|].
  apply tame_bind; [apply Hb|intros _; apply IH].
Qed.

Lemma tame_copy_bands_stacked (fi : file_info) (t_fh : string) (nbands : option Z) :
  tame (copy_bands_stacked fi t_fh nbands).
Proof.
  unfold copy_bands_stacked. destruct nbands; [|apply tame_raise; discriminate].
  apply tame_for_each. intros band.
  repeat (apply tame_copy_into || tame_step).
Qed.

Lemma tame_copy_bands_separate (fi : file_info) (t_fh : string)
    (bs : list Z) (t_band : Z) :
  tame (copy_bands_separate fi t_fh bs t_band).
Proof.
  revert t_band. induction bs as [|b bs IH]; intros t_band; simpl;
    [apply tame_ret|].
  apply tame_bind; [apply tame_copy_into|intros _; apply IH].
Qed.

Lemma tame_copy_tiles (t_fh : string) (nbands : option Z)
    (file_infos : list file_info) (t_band : Z) :
  tame (copy_tiles t_fh nbands file_infos t_band).
Proof.
  revert t_band. induction file_infos as [|fi rest IH]; intros t_band; simpl;
    [apply tame_ret|].
  apply tame_bind; [|intros ?; apply IH].
  repeat (apply tame_copy_bands_stacked || tame_step).
Qed.

Lemma tame_names_to_fileinfos_from (acc : list file_info) (names : list string) :
  tame (names_to_fileinfos_from acc names).
Proof.
  revert acc. induction names as [|name rest IH]; intros acc; simpl;
    [apply tame_ret|].
  apply tame_bind; [|intros ?; apply IH].
  unfold init_from_name. repeat tame_step.
Qed.

Lemma tame_create_output (drv : Driver) (out_file : string) (p : plan)
    (bt : Z) (proj : string) :
  tame (create_output drv out_file p bt proj).
Proof.
  unfold create_output, SetGeoTransform, SetProjection. repeat tame_step.
Qed.

Lemma tame_merge_from drv out_file file_infos e fi0 :
  tame (merge_from drv out_file file_infos e fi0).
Proof.
  unfold merge_from.
  repeat (apply tame_create_output || apply tame_copy_tiles || tame_step).
Qed.

Lemma merge_with_run (drv : Driver) (names : list string) (out_file : string)
    (w : World) :
  merge_with drv names out_file w =
  match names_to_fileinfos names w with
  | (Ok [], w') => (Raise IndexError, w')
  | (Ok (fi0 :: rest), w') =>
    merge_from drv out_file (fi0 :: rest)
      (fold_left grow (fi0 :: rest)
                 (mk_extent (ulx fi0) (uly fi0) (lrx fi0) (lry fi0)))
      fi0 w'
  | (Raise e, w') => (Raise e, w')
  end.
Proof.
  unfold merge_with. rewrite bind_run.
  destruct (names_to_fileinfos names w) as [[[|fi0 rest]|e] w']; reflexivity.
Qed.

Lemma quiet_merge_with (drv : Driver) (names : list string) (out_file : string) :
  quiet (merge_with drv names out_file).
Proof.
  intros w. rewrite merge_with_run.
  destruct (tame_quiet _ (tame_names_to_fileinfos_from [] names) w)
    as (evs1 & E1 & N1).
  fold (names_to_fileinfos names) in E1.
  destruct (names_to_fileinfos names w) as [[[|fi0 rest]|e] w1]; simpl in E1.
  - exists evs1. done.
  - destruct (tame_quiet _ (tame_merge_from drv out_file (fi0 :: rest)
        (fold_left grow (fi0 :: rest)
           (mk_extent (ulx fi0) (uly fi0) (lrx fi0) (lry fi0))) fi0) w1)
      as (evs2 & E2 & N2).
    exists (evs1 ++ evs2). rewrite E2, E1, app_assoc. split; [done|].
    intros [?|?]%elem_of_app; tauto.
  - exists evs1. done.
Qed.

Lemma quiet_run_merge (env : Env) (names : list string) (out_file : string) :
  quiet (run_merge env names out_file).
Proof.
  unfold run_merge. apply quiet_bind; [apply quiet_lift|]. intros format.
  destruct (GetDriverByName env format) as [drv|]; [|apply quiet_raise].
  destruct (negb (DCAP_CREATE drv)); [apply quiet_raise|].
  apply quiet_merge_with.
Qed.

(** C10. [run_merge] fixes [nodata = None] and hands it through
    [copy_into] to [raster_copy], so no run ever enters the
    nodata-aware composite: whatever the inputs, every strategy entered
    during the run is the plain copy or the mask-aware composite. *)
Theorem run_merge_never_uses_nodata_composite
    (env : Env) (names : list string) (out_file : string) (w : World) :
  nodata = None /\
  exists evs,
    trace (run_merge env names out_file w).2 = trace w ++ evs
    /\ forall s, Enter s ∈ evs -> s = PlainCopy \/ s = MaskComposite.
Proof.
  split; [reflexivity|].
  destruct (quiet_run_merge env names out_file w) as (evs & E & N).
  exists evs. split; [exact E|].
  intros [] Hin; auto. contradiction.
Qed.

(** Where the output does not exist yet, the run creates it from
    [mosaic_plan] of the collected descriptors and copies into it. *)
Lemma merge_with_creates_planned (drv : Driver) (names : list string)
    (out_file : string) (w w' : World) (fi0 : file_info) (rest : list file_info) :
  names_to_fileinfos names w = (Ok (fi0 :: rest), w') ->
  files w' !! out_file = None ->
  merge_with drv names out_file w =
  match mosaic_plan (fi0 :: rest) with
  | Ok p =>
    (t_fh ← create_output drv out_file p (band_type fi0) (projection fi0);
     copy_tiles t_fh (Some (plan_bands p)) (fi0 :: rest) 1) w'
  | Raise e => (Raise e, w')
  end.
Proof.
  intros Hnames Hout. rewrite merge_with_run, Hnames.
  unfold merge_from, mosaic_plan. rewrite bind_run. unfold gdal_Open. rewrite Hout.
  cbn [union_extent mbind result_bind rbind]. rewrite bind_run. unfold lift_arith.
  destruct (plan_output _ _ _ _ _ _) as [p|e]; [|reflexivity].
  rewrite !bind_run.
  destruct (create_output drv out_file p (band_type fi0) (projection fi0) w')
    as [[t_fh|e] w'']; reflexivity.
Qed.

(** ** Collecting the descriptors *)

Lemma band_at_first (d : Dataset) :
  raster_bands d <> [] -> is_Some (band_at d 1).
Proof.
  unfold band_at. simpl. destruct (raster_bands d); [congruence|eauto].
Qed.

Lemma init_from_name_run (w : World) (name : string) :
  has_bands w -> init_from_name name w = (Ok (describe_in w name), w).
Proof.
  intros Hw. unfold init_from_name, describe_in. rewrite bind_run.
  unfold gdal_Open. destruct (files w !! name) as [d|] eqn:Hd; simpl; [|reflexivity].
  rewrite bind_run. unfold dataset_of. rewrite Hd.
  destruct (band_at_first d (Hw _ _ Hd)) as [b1 ->]. reflexivity.
Qed.

Lemma names_to_fileinfos_from_run (w : World) (acc : list file_info)
    (names : list string) :
  has_bands w ->
  names_to_fileinfos_from acc names w = (Ok (acc ++ omap (describe_in w) names), w).
Proof.
  intros Hw. revert acc. induction names as [|name rest IH]; intros acc; simpl.
  - rewrite app_nil_r. reflexivity.
  - rewrite bind_run, init_from_name_run by exact Hw. rewrite IH.
    destruct (describe_in w name); [rewrite <- app_assoc|]; reflexivity.
Qed.

Lemma describe_in_filename (w : World) (name : string) (fi : file_info) :
  describe_in w name = Some fi -> filename fi = name.
Proof.
  unfold describe_in. destruct (files w !! name) as [d|]; [|discriminate]. simpl.
  destruct (band_at d 1); [|discriminate]. simpl. intros [= <-]. reflexivity.
Qed.

Lemma describe_in_opens (w : World) (name : string) :
  has_bands w -> (is_Some (describe_in w name) <-> is_Some (files w !! name)).
Proof.
  intros Hw. unfold describe_in. destruct (files w !! name) as [d|] eqn:Hd; simpl.
  - destruct (band_at_first d (Hw _ _ Hd)) as [b1 ->]. simpl. split; eauto.
  - split; intros [? ?]; discriminate.
Qed.

Lemma described_names (w : World) (names : list string) :
  has_bands w ->
  filename <$> omap (describe_in w) names
  = filter (fun n => is_Some (files w !! n)) names.
Proof.
  intros Hw. induction names as [|name rest IH]; [reflexivity|].
  simpl. rewrite filter_cons. pose proof (describe_in_opens w name Hw) as Ho.
  destruct (describe_in w name) as [fi|] eqn:Hfi.
  - rewrite decide_True by (apply Ho; eauto).
    rewrite fmap_cons, (describe_in_filename _ _ _ Hfi).
    f_equal. exact IH.
  - rewrite decide_False; [exact IH|].
    intros Hs%Ho. destruct Hs; discriminate.
Qed.

Lemma described_opened (w : World) (names : list string) :
  has_bands w ->
  omap (describe_in w) (filter (fun n => is_Some (files w !! n)) names)
  = omap (describe_in w) names.
Proof.
  intros Hw. induction names as [|name rest IH]; [reflexivity|].
  rewrite filter_cons. pose proof (describe_in_opens w name Hw) as Ho.
  change (omap (describe_in w) (name :: rest))
    with (match describe_in w name with
          | Some fi => fi :: omap (describe_in w) rest
          | None => omap (describe_in w) rest
          end).
  destruct (decide (is_Some (files w !! name))) as [Hs|Hs].
  - change (omap (describe_in w)
              (name :: filter (fun n => is_Some (files w !! n)) rest))
      with (match describe_in w name with
            | Some fi => fi :: omap (describe_in w)
                                 (filter (fun n => is_Some (files w !! n)) rest)
            | None => omap (describe_in w)
                           (filter (fun n => is_Some (files w !! n)) rest)
            end).
    rewrite IH. reflexivity.
  - rewrite IH. destruct (describe_in w name) eqn:Hfi; [|reflexivity].
    exfalso. apply Hs, Ho. eauto.
Qed.

(** The store once [create_output] has gone through. *)
Lemma create_output_run (drv : Driver) (out_file : string) (p : plan)
    (band_type0 : Z) (projection0 : string) (w : World) (d0 : Dataset) :
  Create drv out_file (plan_xsize p) (plan_ysize p) (plan_bands p) band_type0
    = Some d0 ->
  create_output drv out_file p band_type0 projection0 w
  = (Ok out_file,
     mkWorld (<[out_file := mkDataset (RasterXSize d0) (RasterYSize d0)
                              (plan_geotransform p) projection0
                              (raster_bands d0)]> (files w))
             (trace w ++ [DatasetCreate out_file])).
Proof.
  intros Hc. unfold create_output. rewrite Hc.
  rewrite bind_run, emit_run. rewrite bind_run. unfold modify at 1. cbv beta iota.
  cbn [files trace].
  unfold SetGeoTransform. rewrite !bind_run. unfold dataset_of at 1.
  cbn [files trace]. rewrite lookup_insert_eq. unfold modify at 1. cbv beta iota.
  cbn [files trace RasterXSize RasterYSize GetProjection raster_bands].
  unfold SetProjection. rewrite !bind_run. unfold dataset_of at 1.
  cbn [files trace]. rewrite lookup_insert_eq. unfold modify at 1. cbv beta iota.
  cbn [files trace RasterXSize RasterYSize GetGeoTransform raster_bands].
  rewrite ret_run, !insert_insert_eq. reflexivity.
Qed.

(** ** Buffers and windows *)

Lemma cell_bcell (a : list (list F)) j i : cell a j i = bcell a j i.
Proof. reflexivity. Qed.

Lemma bcell_inside {A} (a : list (list A)) (xsize ysize j i : Z) :
  has_shape a xsize ysize -> 0 <= j < ysize -> 0 <= i < xsize ->
  is_Some (bcell a j i).
Proof.
  intros [Hl Hr] Hj Hi. unfold bcell.
  replace ((0 <=? j) && (0 <=? i)) with true
    by (symmetry; apply andb_true_iff; split; apply Z.leb_le; lia).
  destruct (lookup_lt_is_Some_2 a (Z.to_nat j)) as [row Hrow]; [lia|].
  rewrite Hrow. simpl. apply lookup_lt_is_Some_2.
  rewrite Forall_forall in Hr. rewrite (Hr row).
  - lia.
  - eapply list_elem_of_lookup_2. exact Hrow.
Qed.

Lemma bcell_outside {A} (a : list (list A)) (xsize ysize j i : Z) :
  has_shape a xsize ysize -> ~ (0 <= j < ysize /\ 0 <= i < xsize) ->
  bcell a j i = None.
Proof.
  intros [Hl Hr] Hout. unfold bcell.
  destruct ((0 <=? j) && (0 <=? i)) eqn:Hg; [|reflexivity].
  apply andb_true_iff in Hg as [Hj%Z.leb_le Hi%Z.leb_le].
  destruct (a !! Z.to_nat j) as [row|] eqn:Hrow; [|reflexivity]. simpl.
  apply lookup_ge_None.
  assert (length row = Z.to_nat xsize) as ->.
  { rewrite Forall_forall in Hr. apply Hr.
    eapply list_elem_of_lookup_2. exact Hrow. }
  apply lookup_lt_Some in Hrow. lia.
Qed.

Lemma resample_shape (px : Z -> Z -> F) (x y xs ys bx bs : Z) :
  has_shape (resample px x y xs ys bx bs) bx bs.
Proof.
  unfold resample, has_shape. split.
  - rewrite length_fmap, length_seqZ. reflexivity.
  - apply Forall_fmap, Forall_forall. intros j _. simpl.
    rewrite length_fmap, length_seqZ. reflexivity.
Qed.

Lemma cell_resample (px : Z -> Z -> F) (x y xs ys bx bs j i : Z) :
  0 <= j < bs -> 0 <= i < bx ->
  cell (resample px x y xs ys bx bs) j i
  = Some (px (x + src_index i xs bx) (y + src_index j ys bs)).
Proof.
  intros Hj Hi. unfold cell, resample.
  replace ((0 <=? j) && (0 <=? i)) with true
    by (symmetry; apply andb_true_iff; split; apply Z.leb_le; lia).
  rewrite list_lookup_fmap, lookup_seqZ_lt by lia. simpl.
  rewrite list_lookup_fmap, lookup_seqZ_lt by lia. simpl.
  rewrite !Z2Nat.id by lia. reflexivity.
Qed.

(** A buffer as large as the window is the window itself. *)
Lemma src_index_same (i n : Z) : 0 < n -> src_index i n n = i.
Proof.
  intros Hn. unfold src_index. symmetry.
  apply (Z.div_unique_pos _ _ i n); lia.
Qed.

Lemma fmap_rows_shape {A B} (f : A -> B) (a : list (list A)) (xs ys : Z) :
  has_shape a xs ys -> has_shape ((fun row : list A => f <$> row) <$> a) xs ys.
Proof.
  intros [Hl Hr]. unfold has_shape. split.
  - rewrite length_fmap. exact Hl.
  - apply Forall_fmap. eapply Forall_impl; [exact Hr|].
    intros row Hrow. simpl. rewrite length_fmap. exact Hrow.
Qed.

Lemma bcell_fmap_rows {A B} (f : A -> B) (a : list (list A)) (j i : Z) :
  bcell ((fun row : list A => f <$> row) <$> a) j i = f <$> bcell a j i.
Proof.
  unfold bcell.
  destruct ((0 <=? j) && (0 <=? i)); [|reflexivity].
  rewrite list_lookup_fmap. destruct (a !! Z.to_nat j) as [row|]; [|reflexivity].
  simpl. rewrite list_lookup_fmap. reflexivity.
Qed.

Lemma map_cells_shape (f : F -> F) (a : list (list F)) (xs ys : Z) :
  has_shape a xs ys -> has_shape (map_cells f a) xs ys.
Proof. apply fmap_rows_shape. Qed.

Lemma cell_map_cells (f : F -> F) (a : list (list F)) (j i : Z) :
  cell (map_cells f a) j i = f <$> cell a j i.
Proof. rewrite !cell_bcell. apply bcell_fmap_rows. Qed.

Lemma np_equal_shape (a : ndarray) (v : F) (xs ys : Z) :
  has_shape (cells a) xs ys -> has_shape (np_equal a v) xs ys.
Proof. apply fmap_rows_shape. Qed.

Lemma np_equal_zero_shape (a : ndarray) (xs ys : Z) :
  has_shape (cells a) xs ys -> has_shape (np_equal_zero a) xs ys.
Proof. apply fmap_rows_shape. Qed.

Lemma np_isnan_shape (a : ndarray) (xs ys : Z) :
  has_shape (cells a) xs ys -> has_shape (np_isnan a) xs ys.
Proof. apply fmap_rows_shape. Qed.

Lemma bcell_np_equal (a : ndarray) (v : F) (j i : Z) :
  bcell (np_equal a v) j i
  = (fun x => equal_float (dtype a) x v) <$> cell (cells a) j i.
Proof. rewrite cell_bcell. apply bcell_fmap_rows. Qed.

Lemma bcell_np_equal_zero (a : ndarray) (j i : Z) :
  bcell (np_equal_zero a) j i = (fun x => eqb x (of_int 0)) <$> cell (cells a) j i.
Proof. rewrite cell_bcell. apply bcell_fmap_rows. Qed.

Lemma bcell_np_isnan (a : ndarray) (j i : Z) :
  bcell (np_isnan a) j i = isnan <$> cell (cells a) j i.
Proof. rewrite cell_bcell. apply bcell_fmap_rows. Qed.

Lemma choose_cells_shape (test : list (list bool)) (a0 a1 : list (list F)) (xs ys : Z) :
  has_shape test xs ys -> has_shape a0 xs ys -> has_shape a1 xs ys ->
  has_shape (choose_cells test a0 a1) xs ys.
Proof.
  intros [Ht Htr] [Ha Har] [Hb Hbr]. unfold choose_cells, has_shape. split.
  - rewrite length_zip_with, length_zip. lia.
  - apply Forall_forall. intros row Hin.
    apply list_elem_of_lookup in Hin as [k Hk].
    apply lookup_zip_with_Some in Hk as (t & [r0 r1] & -> & Htk & Hz).
    apply lookup_zip_with_Some in Hz as (? & ? & [= <- <-] & Hr0 & Hr1).
    unfold choose_row. simpl. rewrite length_zip_with, length_zip.
    rewrite Forall_forall in Htr. rewrite Forall_forall in Har.
    rewrite Forall_forall in Hbr.
    rewrite (Htr t), (Har r0), (Hbr r1);
      [lia|eapply list_elem_of_lookup_2; eassumption..].
Qed.

Lemma cell_choose_cells (test : list (list bool)) (a0 a1 : list (list F))
    (j i : Z) (c : bool) (v0 v1 : F) :
  bcell test j i = Some c -> cell a0 j i = Some v0 -> cell a1 j i = Some v1 ->
  cell (choose_cells test a0 a1) j i = Some (if c then v1 else v0).
Proof.
  unfold bcell, cell, choose_cells.
  destruct ((0 <=? j) && (0 <=? i)); [|discriminate].
  destruct (test !! Z.to_nat j) as [t|] eqn:Ht; [|discriminate].
  destruct (a0 !! Z.to_nat j) as [r0|] eqn:H0'; [|discriminate].
  destruct (a1 !! Z.to_nat j) as [r1|] eqn:H1'; [|discriminate].
  simpl. intros Hc Hv0 Hv1.
  rewrite lookup_zip_with, Ht. simpl.
  rewrite lookup_zip_with, H0'. simpl. rewrite H1'. simpl.
  unfold choose_row. rewrite lookup_zip_with, Hc. simpl.
  rewrite lookup_zip_with, Hv0. simpl. rewrite Hv1. reflexivity.
Qed.

Lemma np_choose_shape (test : list (list bool)) (a0 a1 : ndarray) (xs ys : Z) :
  has_shape test xs ys -> has_shape (cells a0) xs ys -> has_shape (cells a1) xs ys ->
  has_shape (cells (np_choose test a0 a1)) xs ys.
Proof.
  intros Ht Ha0 Ha1. unfold np_choose. cbn [cells].
  apply choose_cells_shape; [exact Ht|apply map_cells_shape..]; assumption.
Qed.

(** A cell of [choose(test, (a0, a1))], in the common type. *)
Lemma cell_np_choose (test : list (list bool)) (a0 a1 : ndarray)
    (j i : Z) (c : bool) (v0 v1 : F) :
  bcell test j i = Some c ->
  cell (cells a0) j i = Some v0 -> cell (cells a1) j i = Some v1 ->
  cell (cells (np_choose test a0 a1)) j i
  = Some (if c then astype (dtype a1) (result_type (dtype a0) (dtype a1)) v1
          else astype (dtype a0) (result_type (dtype a0) (dtype a1)) v0).
Proof.
  intros Hc Hv0 Hv1. unfold np_choose. cbn [cells].
  apply cell_choose_cells; [exact Hc|rewrite cell_map_cells..].
  - rewrite Hv0. reflexivity.
  - rewrite Hv1. reflexivity.
Qed.

(** Conversions within one type change nothing. *)
Lemma convert_same (ty : Z) (v : F) : convert ty ty v = v.
Proof. unfold convert. rewrite Z.eqb_refl. reflexivity. Qed.

Lemma composited_same (ty : Z) (v : F) : composited ty ty ty v = v.
Proof.
  unfold composited, result_type, astype, convert.
  rewrite !Z.eqb_refl. reflexivity.
Qed.

Lemma map_cells_id (f : F -> F) (a : list (list F)) :
  (forall v, f v = v) -> map_cells f a = a.
Proof.
  intros Hf. unfold map_cells.
  rewrite <- (list_fmap_id a) at 2. apply list_fmap_ext. intros _ row _.
  rewrite <- (list_fmap_id row) at 2. apply list_fmap_ext. intros _ v _. apply Hf.
Qed.

(** ** Window reads and writes, run *)

Lemma read_window_run (b : band_ref) (x y xs ys bx bs : Z) (w : World)
    (d : Dataset) (bd : Band) :
  find_band w (ref_name b) (ref_band b) = Some (d, bd) ->
  window_ok d x y xs ys = true -> 1 <= bx -> 1 <= bs ->
  read_window b x y xs ys bx bs w
  = (Ok (ref_type b bd, resample (ref_samples b bd) x y xs ys bx bs),
     mkWorld (files w) (trace w ++ [RasterRead b])).
Proof.
  intros Hb Hw Hbx Hbs. unfold read_window.
  rewrite bind_run, band_of_run, Hb, Hw.
  replace (1 <=? bx) with true by (symmetry; apply Z.leb_le; lia).
  replace (1 <=? bs) with true by (symmetry; apply Z.leb_le; lia).
  reflexivity.
Qed.

Lemma ReadAsArray_run (b : band_ref) (x y xs ys bx bs : Z) (w : World)
    (d : Dataset) (bd : Band) :
  find_band w (ref_name b) (ref_band b) = Some (d, bd) ->
  window_ok d x y xs ys = true -> 1 <= bx -> 1 <= bs ->
  ReadAsArray b x y xs ys bx bs w
  = (Ok (mk_ndarray (ref_type b bd)
           (resample (ref_samples b bd) x y xs ys bx bs)),
     mkWorld (files w) (trace w ++ [RasterRead b])).
Proof.
  intros Hb Hw Hbx Hbs. unfold ReadAsArray.
  rewrite bind_run, (read_window_run _ _ _ _ _ _ _ _ d bd) by assumption.
  reflexivity.
Qed.

Lemma ReadRaster_run (b : band_ref) (x y xs ys bx bs buf_type : Z) (w : World)
    (d : Dataset) (bd : Band) :
  find_band w (ref_name b) (ref_band b) = Some (d, bd) ->
  window_ok d x y xs ys = true -> 1 <= bx -> 1 <= bs ->
  ReadRaster b x y xs ys bx bs buf_type w
  = (Ok (map_cells (convert (ref_type b bd) buf_type)
           (resample (ref_samples b bd) x y xs ys bx bs)),
     mkWorld (files w) (trace w ++ [RasterRead b])).
Proof.
  intros Hb Hw Hbx Hbs. unfold ReadRaster.
  rewrite bind_run, (read_window_run _ _ _ _ _ _ _ _ d bd) by assumption.
  reflexivity.
Qed.

Lemma has_shape_ok (data : list (list F)) (xs ys : Z) :
  0 <= xs -> 0 <= ys -> has_shape data xs ys -> shape_ok data xs ys = true.
Proof.
  intros Hx Hy [Hl Hr]. unfold shape_ok. apply andb_true_iff. split.
  - apply Z.eqb_eq. lia.
  - apply forallb_forall. intros row Hin. apply Z.eqb_eq.
    rewrite Forall_forall in Hr. rewrite (Hr row); [lia|].
    apply list_elem_of_In. exact Hin.
Qed.

Lemma window_ok_sizes (d : Dataset) (x y xs ys : Z) :
  window_ok d x y xs ys = true ->
  0 <= x /\ 0 <= y /\ 1 <= xs /\ 1 <= ys
  /\ x + xs <= RasterXSize d /\ y + ys <= RasterYSize d.
Proof.
  unfold window_ok. rewrite !andb_true_iff, !Z.leb_le. tauto.
Qed.

(** An accepted write stores the buffer, converted to the band's type. *)
Lemma write_window_run (name : string) (n x y xs ys : Z)
    (data : list (list F)) (buf_type : Z) (w : World) (d : Dataset) (bd : Band) :
  find_band w name n = Some (d, bd) ->
  window_ok d x y xs ys = true -> has_shape data xs ys ->
  write_window (BandOf name n) x y xs ys data buf_type w
  = (Ok CE_None,
     stored w name n d bd x y (map_cells (convert buf_type (DataType bd)) data)).
Proof.
  intros Hb Hw Hs. unfold write_window.
  rewrite bind_run, band_of_run. simpl ref_name; simpl ref_band. rewrite Hb.
  rewrite bind_run, emit_run, Hw.
  destruct (window_ok_sizes _ _ _ _ _ Hw) as (_ & _ & Hxs & Hys & _).
  rewrite has_shape_ok by (try lia; exact Hs). reflexivity.
Qed.

(** A refused write changes no dataset and raises nothing. *)
Lemma write_window_refused (name : string) (n x y xs ys : Z)
    (data : list (list F)) (buf_type : Z) (w : World) (d : Dataset) (bd : Band) :
  find_band w name n = Some (d, bd) ->
  window_ok d x y xs ys = false ->
  write_window (BandOf name n) x y xs ys data buf_type w
  = (Ok CE_Failure, mkWorld (files w) (trace w ++ [RasterWrite (BandOf name n)])).
Proof.
  intros Hb Hw. unfold write_window.
  rewrite bind_run, band_of_run. simpl ref_name; simpl ref_band. rewrite Hb.
  rewrite bind_run, emit_run, Hw. reflexivity.
Qed.

Lemma WriteArray_run (name : string) (n x y xs ys : Z)
    (array : ndarray) (w : World) (d : Dataset) (bd : Band) :
  find_band w name n = Some (d, bd) ->
  window_ok d x y xs ys = true -> has_shape (cells array) xs ys ->
  WriteArray (BandOf name n) array x y w
  = (Ok CE_None,
     stored w name n d bd x y
            (map_cells (convert (dtype array) (DataType bd)) (cells array))).
Proof.
  intros Hb Hw Hs. unfold WriteArray.
  rewrite bind_run, band_of_run. simpl ref_name; simpl ref_band. rewrite Hb.
  destruct (window_ok_sizes _ _ _ _ _ Hw) as (_ & _ & Hxs & Hys & Hx & Hy).
  pose proof Hs as [Hl Hr].
  assert (Z.of_nat (length (cells array)) = ys) as -> by lia.
  assert (Z.of_nat (length (default [] (head (cells array)))) = xs) as ->.
  { destruct (cells array) as [|row rest]; [simpl in Hl; lia|]. simpl.
    apply Forall_cons in Hr as [-> _]. lia. }
  replace (RasterXSize d <? xs + x) with false by (symmetry; apply Z.ltb_ge; lia).
  replace (RasterYSize d <? ys + y) with false by (symmetry; apply Z.ltb_ge; lia).
  apply write_window_run; assumption.
Qed.

Lemma find_band_stored (w : World) (name : string) (n : Z) (d : Dataset)
    (bd : Band) (x y : Z) (data : list (list F)) :
  find_band w name n = Some (d, bd) ->
  find_band (stored w name n d bd x y data) name n
  = Some (set_band d n (set_samples bd (store (samples bd) x y data)),
          set_samples bd (store (samples bd) x y data)).
Proof.
  unfold find_band, stored. simpl. intros Hb.
  destruct (files w !! name) as [d0|]; [|discriminate]. simpl in Hb.
  destruct (band_at d0 n) as [bd0|] eqn:Hbd; [|discriminate].
  injection Hb as -> ->. rewrite lookup_insert_eq. simpl.
  unfold band_at in *. simpl.
  destruct (1 <=? n); [|discriminate].
  rewrite list_lookup_insert_eq by (eapply lookup_lt_Some; exact Hbd).
  reflexivity.
Qed.

Lemma pixel_stored (w : World) (name : string) (n : Z) (d : Dataset)
    (bd : Band) (x y : Z) (data : list (list F)) (x' y' : Z) :
  find_band w name n = Some (d, bd) ->
  pixel (stored w name n d bd x y data) name n x' y'
  = Some (store (samples bd) x y data x' y').
Proof.
  intros Hb. unfold pixel. rewrite (find_band_stored _ _ _ _ _ _ _ _ Hb).
  reflexivity.
Qed.

Lemma store_inside (px : Z -> Z -> F) (x y : Z) (data : list (list F))
    (j i : Z) (v : F) :
  cell data j i = Some v -> store px x y data (x + i) (y + j) = v.
Proof.
  intros Hc. unfold store.
  replace (y + j - y) with j by lia. replace (x + i - x) with i by lia.
  rewrite Hc. reflexivity.
Qed.

Lemma store_outside (px : Z -> Z -> F) (x y xs ys : Z) (data : list (list F))
    (x' y' : Z) :
  has_shape data xs ys ->
  ~ (x <= x' < x + xs /\ y <= y' < y + ys) ->
  store px x y data x' y' = px x' y'.
Proof.
  intros Hs Hout. unfold store. rewrite cell_bcell.
  rewrite (bcell_outside data xs ys) by (try exact Hs; lia). reflexivity.
Qed.

(** ** The two composites *)

(** Writing [choose(test, (src, dst))] over the window [dst] was read
    from: a true test keeps the destination sample, a false one takes
    the source sample, either of them brought to the common type of
    the two arrays and from there to the band's type; samples outside
    the window stay. *)
Lemma composite_run (t_fh : string) (t_band_n x y xs ys : Z)
    (test : list (list bool)) (sdt : Z) (data_src : list (list F))
    (w : World) (td : Dataset) (tb : Band) :
  find_band w t_fh t_band_n = Some (td, tb) ->
  window_ok td x y xs ys = true ->
  has_shape test xs ys -> has_shape data_src xs ys ->
  exists w',
    WriteArray (BandOf t_fh t_band_n)
      (np_choose test (mk_ndarray sdt data_src)
         (mk_ndarray (DataType tb) (resample (samples tb) x y xs ys xs ys))) x y w
    = (Ok CE_None, w')
    /\ trace w' = trace w ++ [RasterWrite (BandOf t_fh t_band_n)]
    /\ (forall i j c src,
          0 <= i < xs -> 0 <= j < ys ->
          bcell test j i = Some c -> cell data_src j i = Some src ->
          pixel w' t_fh t_band_n (x + i) (y + j)
          = Some (if c
                  then composited sdt (DataType tb) (DataType tb)
                                  (samples tb (x + i) (y + j))
                  else composited sdt (DataType tb) sdt src))
    /\ (forall x' y',
          ~ (x <= x' < x + xs /\ y <= y' < y + ys) ->
          pixel w' t_fh t_band_n x' y' = Some (samples tb x' y')).
Proof.
  intros Hb Hw Ht Hs.
  destruct (window_ok_sizes _ _ _ _ _ Hw) as (_ & _ & Hxs & Hys & _).
  set (a0 := mk_ndarray sdt data_src).
  set (a1 := mk_ndarray (DataType tb) (resample (samples tb) x y xs ys xs ys)).
  assert (Hshape : has_shape (cells (np_choose test a0 a1)) xs ys).
  { apply np_choose_shape; [exact Ht|exact Hs|apply resample_shape]. }
  eexists. split; [apply (WriteArray_run _ _ _ _ xs ys _ _ _ _ Hb Hw Hshape)|].
  split; [reflexivity|]. split.
  - intros i j c src Hi Hj Hc Hsrc.
    rewrite (pixel_stored _ _ _ _ _ _ _ _ _ _ Hb). f_equal.
    apply store_inside. rewrite cell_map_cells.
    rewrite (cell_np_choose test a0 a1 j i c src (samples tb (x + i) (y + j)) Hc Hsrc).
    + destruct c; reflexivity.
    + unfold a1. cbn [cells]. rewrite cell_resample by lia.
      rewrite !src_index_same by lia. reflexivity.
  - intros x' y' Hout.
    rewrite (pixel_stored _ _ _ _ _ _ _ _ _ _ Hb). f_equal.
    apply (store_outside _ _ _ xs ys); [|assumption].
    apply map_cells_shape. exact Hshape.
Qed.

Lemma cell_sample_for (px : Z -> Z -> F)
    (s_xoff s_yoff s_xsize s_ysize t_xsize t_ysize i j : Z) :
  0 <= i < t_xsize -> 0 <= j < t_ysize ->
  cell (resample px s_xoff s_yoff s_xsize s_ysize t_xsize t_ysize) j i
  = Some (sample_for px s_xoff s_yoff s_xsize s_ysize t_xsize t_ysize i j).
Proof. intros Hi Hj. apply cell_resample; assumption. Qed.

(** The nodata composite, run: the shared part of what follows. *)
Lemma nodata_copy_pixels
    (s_fh : string) (s_xoff s_yoff s_xsize s_ysize s_band_n : Z)
    (t_fh : string) (t_xoff t_yoff t_xsize t_ysize t_band_n : Z)
    (nodata_value : F) (w : World)
    (sd td : Dataset) (sb tb : Band) :
  find_band w s_fh s_band_n = Some (sd, sb) ->
  find_band w t_fh t_band_n = Some (td, tb) ->
  window_ok sd s_xoff s_yoff s_xsize s_ysize = true ->
  window_ok td t_xoff t_yoff t_xsize t_ysize = true ->
  exists w',
    raster_copy_with_nodata s_fh s_xoff s_yoff s_xsize s_ysize s_band_n
      t_fh t_xoff t_yoff t_xsize t_ysize t_band_n nodata_value w = (Ok 0, w')
    /\ (forall i j, 0 <= i < t_xsize -> 0 <= j < t_ysize ->
          pixel w' t_fh t_band_n (t_xoff + i) (t_yoff + j)
          = Some (if is_nodata (DataType sb) nodata_value
                       (sample_for (samples sb) s_xoff s_yoff s_xsize s_ysize
                                   t_xsize t_ysize i j)
                  then composited (DataType sb) (DataType tb) (DataType tb)
                                  (samples tb (t_xoff + i) (t_yoff + j))
                  else composited (DataType sb) (DataType tb) (DataType sb)
                         (sample_for (samples sb) s_xoff s_yoff s_xsize s_ysize
                                     t_xsize t_ysize i j)))
    /\ (forall x y,
          ~ (t_xoff <= x < t_xoff + t_xsize /\ t_yoff <= y < t_yoff + t_ysize) ->
          pixel w' t_fh t_band_n x y = Some (samples tb x y)).
Proof.
  intros Hs Ht Hsw Htw.
  destruct (window_ok_sizes _ _ _ _ _ Htw) as (_ & _ & Hxs & Hys & _).
  set (data_src := resample (samples sb) s_xoff s_yoff s_xsize s_ysize t_xsize t_ysize).
  set (test := if negb (isnan nodata_value)
               then np_equal (mk_ndarray (DataType sb) data_src) nodata_value
               else np_isnan (mk_ndarray (DataType sb) data_src)).
  assert (Htest : has_shape test t_xsize t_ysize).
  { unfold test. destruct (negb (isnan nodata_value));
      [apply np_equal_shape|apply np_isnan_shape]; apply resample_shape. }
  assert (Hcell : forall i j, 0 <= i < t_xsize -> 0 <= j < t_ysize ->
             bcell test j i
             = Some (is_nodata (DataType sb) nodata_value
                       (sample_for (samples sb) s_xoff s_yoff s_xsize s_ysize
                                   t_xsize t_ysize i j))).
  { intros i j Hi Hj. unfold test, is_nodata.
    destruct (isnan nodata_value); simpl.
    - rewrite bcell_np_isnan. unfold data_src. cbn [cells].
      rewrite cell_sample_for by assumption. reflexivity.
    - rewrite bcell_np_equal. unfold data_src. cbn [cells dtype].
      rewrite cell_sample_for by assumption. reflexivity. }
  set (w2 := mkWorld (files w)
               (((trace w ++ [Enter NodataComposite])
                   ++ [RasterRead (BandOf s_fh s_band_n)])
                  ++ [RasterRead (BandOf t_fh t_band_n)])).
  destruct (composite_run t_fh t_band_n t_xoff t_yoff t_xsize t_ysize
              test (DataType sb) data_src w2 td tb Ht Htw Htest
              (resample_shape _ _ _ _ _ _ _))
    as (w' & Hrun & _ & Hin & Hout).
  exists w'. split; [|split].
  - unfold raster_copy_with_nodata, GetRasterBand.
    rewrite bind_run, emit_run.
    rewrite bind_run, (ReadAsArray_run _ _ _ _ _ _ _ _ sd sb) by (try lia; assumption).
    rewrite bind_run, (ReadAsArray_run _ _ _ _ _ _ _ _ td tb) by (try lia; assumption).
    simpl ref_samples; simpl ref_type. fold data_src. cbv zeta. fold test.
    rewrite bind_run. simpl files; simpl trace. fold w2. rewrite Hrun. reflexivity.
  - intros i j Hi Hj. apply Hin; [assumption..|apply Hcell; assumption|].
    unfold data_src. apply cell_sample_for; assumption.
  - exact Hout.
Qed.

(** C1. The nodata-aware composite, pixel by pixel.  With the source
    and destination windows inside their rasters, the copy returns 0
    and, for every pixel of the window, the destination then holds its
    previous sample where the source sample equals the nodata value as
    numpy compares them in the source band's type (is NaN, when the
    nodata value is NaN) and the source sample otherwise, either of
    them carried through the common type of the two bands and the
    conversion to the destination band's type.  When the two bands
    have the same pixel type nothing is converted: the pixel is the
    previous destination sample or the source sample itself, and a
    source that is nodata all over leaves every destination pixel as
    it was. *)
Theorem nodata_composite_per_pixel
    (s_fh : string) (s_xoff s_yoff s_xsize s_ysize s_band_n : Z)
    (t_fh : string) (t_xoff t_yoff t_xsize t_ysize t_band_n : Z)
    (nodata_value : F) (w : World)
    (sd td : Dataset) (sb tb : Band) :
  find_band w s_fh s_band_n = Some (sd, sb) ->
  find_band w t_fh t_band_n = Some (td, tb) ->
  window_ok sd s_xoff s_yoff s_xsize s_ysize = true ->
  window_ok td t_xoff t_yoff t_xsize t_ysize = true ->
  exists w',
    raster_copy_with_nodata s_fh s_xoff s_yoff s_xsize s_ysize s_band_n
      t_fh t_xoff t_yoff t_xsize t_ysize t_band_n nodata_value w = (Ok 0, w')
    /\ (forall i j, 0 <= i < t_xsize -> 0 <= j < t_ysize ->
          pixel w' t_fh t_band_n (t_xoff + i) (t_yoff + j)
          = Some (if is_nodata (DataType sb) nodata_value
                       (sample_for (samples sb) s_xoff s_yoff s_xsize s_ysize
                                   t_xsize t_ysize i j)
                  then composited (DataType sb) (DataType tb) (DataType tb)
                                  (samples tb (t_xoff + i) (t_yoff + j))
                  else composited (DataType sb) (DataType tb) (DataType sb)
                         (sample_for (samples sb) s_xoff s_yoff s_xsize s_ysize
                                     t_xsize t_ysize i j)))
    /\ (DataType sb = DataType tb ->
        (forall i j, 0 <= i < t_xsize -> 0 <= j < t_ysize ->
           pixel w' t_fh t_band_n (t_xoff + i) (t_yoff + j)
           = Some (if is_nodata (DataType sb) nodata_value
                        (sample_for (samples sb) s_xoff s_yoff s_xsize s_ysize
                                    t_xsize t_ysize i j)
                   then samples tb (t_xoff + i) (t_yoff + j)
                   else sample_for (samples sb) s_xoff s_yoff s_xsize s_ysize
                                   t_xsize t_ysize i j))
        /\ ((forall i j, 0 <= i < t_xsize -> 0 <= j < t_ysize ->
               is_nodata (DataType sb) nodata_value
                 (sample_for (samples sb) s_xoff s_yoff s_xsize s_ysize
                             t_xsize t_ysize i j) = true) ->
            forall x y, pixel w' t_fh t_band_n x y = pixel w t_fh t_band_n x y)).
Proof.
  intros Hs Ht Hsw Htw.
  destruct (nodata_copy_pixels s_fh s_xoff s_yoff s_xsize s_ysize s_band_n
              t_fh t_xoff t_yoff t_xsize t_ysize t_band_n nodata_value w
              sd td sb tb Hs Ht Hsw Htw) as (w' & Hrun & Hin & Hout).
  exists w'. split; [exact Hrun|]. split; [exact Hin|].
  intros Hty.
  assert (Hsame : forall i j, 0 <= i < t_xsize -> 0 <= j < t_ysize ->
            pixel w' t_fh t_band_n (t_xoff + i) (t_yoff + j)
            = Some (if is_nodata (DataType sb) nodata_value
                         (sample_for (samples sb) s_xoff s_yoff s_xsize s_ysize
                                     t_xsize t_ysize i j)
                    then samples tb (t_xoff + i) (t_yoff + j)
                    else sample_for (samples sb) s_xoff s_yoff s_xsize s_ysize
                                    t_xsize t_ysize i j)).
  { intros i j Hi Hj. rewrite (Hin i j Hi Hj), <- Hty, !composited_same.
    reflexivity. }
  split; [exact Hsame|].
  intros Hall x y.
  assert (Hold : pixel w t_fh t_band_n x y = Some (samples tb x y)).
  { unfold pixel. rewrite Ht. reflexivity. }
  rewrite Hold.
  destruct (decide (t_xoff <= x < t_xoff + t_xsize
                    /\ t_yoff <= y < t_yoff + t_ysize)) as [Hwin|Hwin].
  - replace x with (t_xoff + (x - t_xoff)) by lia.
    replace y with (t_yoff + (y - t_yoff)) by lia.
    rewrite Hsame, Hall by lia. reflexivity.
  - apply Hout. exact Hwin.
Qed.

Lemma mask_copy_pixels
    (s_fh : string) (s_xoff s_yoff s_xsize s_ysize s_band_n : Z)
    (t_fh : string) (t_xoff t_yoff t_xsize t_ysize t_band_n : Z)
    (m_band : band_ref) (w : World)
    (sd md td : Dataset) (sb mb tb : Band) :
  find_band w s_fh s_band_n = Some (sd, sb) ->
  find_band w (ref_name m_band) (ref_band m_band) = Some (md, mb) ->
  find_band w t_fh t_band_n = Some (td, tb) ->
  window_ok sd s_xoff s_yoff s_xsize s_ysize = true ->
  window_ok md s_xoff s_yoff s_xsize s_ysize = true ->
  window_ok td t_xoff t_yoff t_xsize t_ysize = true ->
  exists w',
    raster_copy_with_mask s_fh s_xoff s_yoff s_xsize s_ysize s_band_n
      t_fh t_xoff t_yoff t_xsize t_ysize t_band_n m_band w = (Ok 0, w')
    /\ (forall i j, 0 <= i < t_xsize -> 0 <= j < t_ysize ->
          pixel w' t_fh t_band_n (t_xoff + i) (t_yoff + j)
          = Some (if eqb (sample_for (ref_samples m_band mb) s_xoff s_yoff
                                     s_xsize s_ysize t_xsize t_ysize i j)
                         (of_int 0)
                  then composited (DataType sb) (DataType tb) (DataType tb)
                                  (samples tb (t_xoff + i) (t_yoff + j))
                  else composited (DataType sb) (DataType tb) (DataType sb)
                         (sample_for (samples sb) s_xoff s_yoff s_xsize s_ysize
                                     t_xsize t_ysize i j)))
    /\ (forall x' y',
          ~ (t_xoff <= x' < t_xoff + t_xsize /\ t_yoff <= y' < t_yoff + t_ysize) ->
          pixel w' t_fh t_band_n x' y' = Some (samples tb x' y')).
Proof.
  intros Hs Hm Ht Hsw Hmw Htw.
  destruct (window_ok_sizes _ _ _ _ _ Htw) as (_ & _ & Hxs & Hys & _).
  set (data_src := resample (samples sb) s_xoff s_yoff s_xsize s_ysize t_xsize t_ysize).
  set (test := np_equal_zero
                 (mk_ndarray (ref_type m_band mb)
                    (resample (ref_samples m_band mb)
                       s_xoff s_yoff s_xsize s_ysize t_xsize t_ysize))).
  assert (Htest : has_shape test t_xsize t_ysize)
    by apply np_equal_zero_shape, resample_shape.
  set (w3 := mkWorld (files w)
               ((((trace w ++ [Enter MaskComposite])
                    ++ [RasterRead (BandOf s_fh s_band_n)])
                   ++ [RasterRead m_band])
                  ++ [RasterRead (BandOf t_fh t_band_n)])).
  destruct (composite_run t_fh t_band_n t_xoff t_yoff t_xsize t_ysize
              test (DataType sb) data_src w3 td tb Ht Htw Htest
              (resample_shape _ _ _ _ _ _ _))
    as (w' & Hrun & _ & Hin & Hout).
  exists w'. split; [|split].
  - unfold raster_copy_with_mask, GetRasterBand.
    rewrite bind_run, emit_run.
    rewrite bind_run, (ReadAsArray_run _ _ _ _ _ _ _ _ sd sb) by (try lia; assumption).
    rewrite bind_run, (ReadAsArray_run _ _ _ _ _ _ _ _ md mb) by (try lia; assumption).
    rewrite bind_run, (ReadAsArray_run _ _ _ _ _ _ _ _ td tb) by (try lia; assumption).
    simpl ref_samples; simpl ref_type. fold data_src. cbv zeta. fold test.
    rewrite bind_run. simpl files; simpl trace. fold w3. rewrite Hrun. reflexivity.
  - intros i j Hi Hj. apply Hin; [assumption..| |].
    + unfold test. rewrite bcell_np_equal_zero. cbn [cells].
      rewrite cell_sample_for by assumption. reflexivity.
    + unfold data_src. apply cell_sample_for; assumption.
  - exact Hout.
Qed.

(** C4. The mask-aware composite, pixel by pixel.  With the windows
    inside their rasters, the copy returns 0 and every pixel of the
    window keeps its previous sample where the mask sample is 0 and
    takes the source sample where the mask sample is not 0, whatever
    the source sample is: there is no third outcome.  The sample kept
    or taken goes through the common type of the two bands and the
    conversion to the destination band's type; when the two bands have
    the same pixel type it is the previous destination sample or the
    source sample itself. *)
Theorem mask_composite_is_binary
    (s_fh : string) (s_xoff s_yoff s_xsize s_ysize s_band_n : Z)
    (t_fh : string) (t_xoff t_yoff t_xsize t_ysize t_band_n : Z)
    (m_band : band_ref) (w : World)
    (sd md td : Dataset) (sb mb tb : Band) :
  find_band w s_fh s_band_n = Some (sd, sb) ->
  find_band w (ref_name m_band) (ref_band m_band) = Some (md, mb) ->
  find_band w t_fh t_band_n = Some (td, tb) ->
  window_ok sd s_xoff s_yoff s_xsize s_ysize = true ->
  window_ok md s_xoff s_yoff s_xsize s_ysize = true ->
  window_ok td t_xoff t_yoff t_xsize t_ysize = true ->
  exists w',
    raster_copy_with_mask s_fh s_xoff s_yoff s_xsize s_ysize s_band_n
      t_fh t_xoff t_yoff t_xsize t_ysize t_band_n m_band w = (Ok 0, w')
    /\ (forall i j, 0 <= i < t_xsize -> 0 <= j < t_ysize ->
          pixel w' t_fh t_band_n (t_xoff + i) (t_yoff + j)
          = Some (if eqb (sample_for (ref_samples m_band mb) s_xoff s_yoff
                                     s_xsize s_ysize t_xsize t_ysize i j)
                         (of_int 0)
                  then composited (DataType sb) (DataType tb) (DataType tb)
                                  (samples tb (t_xoff + i) (t_yoff + j))
                  else composited (DataType sb) (DataType tb) (DataType sb)
                         (sample_for (samples sb) s_xoff s_yoff s_xsize s_ysize
                                     t_xsize t_ysize i j)))
    /\ (DataType sb = DataType tb ->
        forall i j, 0 <= i < t_xsize -> 0 <= j < t_ysize ->
          pixel w' t_fh t_band_n (t_xoff + i) (t_yoff + j)
          = Some (if eqb (sample_for (ref_samples m_band mb) s_xoff s_yoff
                                     s_xsize s_ysize t_xsize t_ysize i j)
                         (of_int 0)
                  then samples tb (t_xoff + i) (t_yoff + j)
                  else sample_for (samples sb) s_xoff s_yoff s_xsize s_ysize
                                  t_xsize t_ysize i j)).
Proof.
  intros Hs Hm Ht Hsw Hmw Htw.
  destruct (mask_copy_pixels s_fh s_xoff s_yoff s_xsize s_ysize s_band_n
              t_fh t_xoff t_yoff t_xsize t_ysize t_band_n m_band w
              sd md td sb mb tb Hs Hm Ht Hsw Hmw Htw) as (w' & Hrun & Hin & _).
  exists w'. split; [exact Hrun|]. split; [exact Hin|].
  intros Hty i j Hi Hj.
  rewrite (Hin i j Hi Hj), <- Hty, !composited_same. reflexivity.
Qed.

(** ** Plain copies, tile after tile *)

Lemma copy_into_run (self : file_info) (t_fh : string) (s_band t_band : Z)
    (nodata_arg : option F) (w : World) (t : Dataset) :
  files w !! t_fh = Some t ->
  copy_into self t_fh s_band t_band nodata_arg w =
  match copy_windows self t with
  | Raise e => (Raise (ArithmeticError e), w)
  | Ok None => (Ok 1, w)
  | Ok (Some (sw, tw)) =>
    raster_copy (filename self)
                (xoff sw) (yoff sw) (win_xsize sw) (win_ysize sw) s_band
                t_fh (xoff tw) (yoff tw) (win_xsize tw) (win_ysize tw) t_band
                nodata_arg w
  end.
Proof.
  intros Ht. unfold copy_into, copy_windows. rewrite bind_run.
  unfold dataset_of. rewrite Ht. cbv beta iota zeta.
  destruct (no_intersection _ _); [reflexivity|].
  rewrite bind_run. unfold lift_arith.
  destruct (target_window _ _) as [tw|e]; [|reflexivity]. simpl.
  destruct (too_small tw); [reflexivity|].
  rewrite bind_run.
  destruct (source_window _ _) as [sw|e]; [|reflexivity]. simpl.
  destruct (too_small sw); [reflexivity|].
  rewrite bind_run. unfold gdal_Open.
  destruct (files w !! filename self); reflexivity.
Qed.

Lemma plain_copy_run
    (s_fh : string) (s_xoff s_yoff s_xsize s_ysize s_band_n : Z)
    (t_fh : string) (t_xoff t_yoff t_xsize t_ysize t_band_n : Z)
    (w : World) (sd td : Dataset) (sb tb : Band) :
  find_band w s_fh s_band_n = Some (sd, sb) ->
  find_band w t_fh t_band_n = Some (td, tb) ->
  window_ok sd s_xoff s_yoff s_xsize s_ysize = true ->
  window_ok td t_xoff t_yoff t_xsize t_ysize = true ->
  plain_copy s_fh s_xoff s_yoff s_xsize s_ysize s_band_n
             t_fh t_xoff t_yoff t_xsize t_ysize t_band_n w
  = (Ok 0,
     stored (mkWorld (files w)
               ((trace w ++ [Enter PlainCopy])
                  ++ [RasterRead (BandOf s_fh s_band_n)]))
            t_fh t_band_n td tb t_xoff t_yoff
            (map_cells (convert (DataType sb) (DataType tb))
               (resample (samples sb) s_xoff s_yoff s_xsize s_ysize
                         t_xsize t_ysize))).
Proof.
  intros Hs Ht Hsw Htw.
  destruct (window_ok_sizes _ _ _ _ _ Htw) as (_ & _ & Hxs & Hys & _).
  unfold plain_copy, WriteRaster, GetRasterBand, GetDataType.
  rewrite bind_run, emit_run.
  rewrite !bind_run, band_of_run. simpl ref_name; simpl ref_band.
  change (find_band (mkWorld (files w) (trace w ++ [Enter PlainCopy])) t_fh t_band_n)
    with (find_band w t_fh t_band_n).
  rewrite Ht, ret_run.
  rewrite bind_run, (ReadRaster_run _ _ _ _ _ _ _ _ _ sd sb) by (try lia; assumption).
  rewrite bind_run. simpl ref_type; simpl ref_samples.
  rewrite (write_window_run _ _ _ _ _ _ _ _ _ td tb);
    [|exact Ht|exact Htw|apply map_cells_shape, resample_shape].
  rewrite (map_cells_id (convert (DataType tb) (DataType tb)))
    by apply convert_same.
  reflexivity.
Qed.

Lemma band_at_in_range (d : Dataset) (n : Z) :
  1 <= n <= RasterCount d ->
  exists bd, band_at d n = Some bd /\ bd ∈ raster_bands d.
Proof.
  intros Hn. unfold band_at, RasterCount in *.
  replace (1 <=? n) with true by (symmetry; apply Z.leb_le; lia).
  destruct (lookup_lt_is_Some_2 (raster_bands d) (Z.to_nat (n - 1))) as [bd Hbd];
    [lia|].
  exists bd. split; [exact Hbd|]. eapply list_elem_of_lookup_2. exact Hbd.
Qed.

Lemma pixel_stored_other (w : World) (name : string) (n : Z) (d : Dataset)
    (bd : Band) (x y : Z) (data : list (list F)) (n' x' y' : Z) :
  find_band w name n = Some (d, bd) -> n' <> n ->
  pixel (stored w name n d bd x y data) name n' x' y' = pixel w name n' x' y'.
Proof.
  intros Hb Hne. unfold pixel, find_band, stored in *. simpl.
  destruct (files w !! name) as [d0|]; [|discriminate]. simpl in Hb.
  destruct (band_at d0 n) as [bd0|] eqn:Hbd; [|discriminate].
  injection Hb as -> ->. rewrite lookup_insert_eq. simpl.
  unfold band_at in *. simpl.
  destruct (1 <=? n) eqn:Hn; [|discriminate]. apply Z.leb_le in Hn.
  destruct (1 <=? n') eqn:Hn'; [|reflexivity]. apply Z.leb_le in Hn'.
  rewrite list_lookup_insert_ne by lia.
  destruct (raster_bands d !! Z.to_nat (n' - 1)); reflexivity.
Qed.

Lemma files_stored_other (w : World) (name : string) (n : Z) (d : Dataset)
    (bd : Band) (x y : Z) (data : list (list F)) (name' : string) :
  name' <> name ->
  files (stored w name n d bd x y data) !! name' = files w !! name'.
Proof. intros Hne. unfold stored. simpl. apply lookup_insert_ne. congruence. Qed.

Lemma frame_of_set_band (d : Dataset) (n : Z) (bd : Band) (px : Z -> Z -> F) :
  band_at d n = Some bd ->
  frame_of (set_band d n (set_samples bd px)) = frame_of d.
Proof.
  intros Hb. unfold frame_of, set_band. simpl. f_equal.
  rewrite list_fmap_insert. simpl. apply list_insert_id.
  unfold band_at in Hb. destruct (1 <=? n); [|discriminate].
  rewrite list_lookup_fmap, Hb. reflexivity.
Qed.

Lemma copy_windows_frame (fi : file_info) (t t' : Dataset) :
  frame_of t' = frame_of t -> copy_windows fi t' = copy_windows fi t.
Proof.
  unfold frame_of. intros [= Hx Hy Hg _].
  unfold copy_windows, intersection. rewrite Hx, Hy, Hg. reflexivity.
Qed.

Lemma window_in_frame (t t' : Dataset) (win : window) :
  frame_of t' = frame_of t -> window_in t' win = window_in t win.
Proof.
  unfold frame_of. intros [= Hx Hy _ _].
  unfold window_in, window_ok. rewrite Hx, Hy. reflexivity.
Qed.

Lemma RasterCount_frame (t t' : Dataset) :
  frame_of t' = frame_of t -> RasterCount t' = RasterCount t.
Proof.
  unfold frame_of, RasterCount. intros [= _ _ _ Hl].
  rewrite <- (length_fmap DataType (raster_bands t')), Hl, length_fmap.
  reflexivity.
Qed.

Lemma tile_sample_frame (t t' sd : Dataset) (sw tw : window) (band x y : Z) :
  frame_of t' = frame_of t ->
  tile_sample t' sd sw tw band x y = tile_sample t sd sw tw band x y.
Proof.
  unfold frame_of. intros [= _ _ _ Hl]. unfold tile_sample.
  destruct (band_at sd band) as [bd|]; [|reflexivity]. simpl.
  assert (Hty : DataType <$> band_at t' band = DataType <$> band_at t band).
  { unfold band_at. destruct (1 <=? band); [|reflexivity].
    rewrite <- !list_lookup_fmap, Hl. reflexivity. }
  destruct (band_at t' band) as [tb'|], (band_at t band) as [tb|];
    simpl in Hty; try discriminate; [|reflexivity].
  injection Hty as Hty. simpl. rewrite Hty. reflexivity.
Qed.

Lemma find_band_lookup (w : World) (name : string) (n : Z) (d : Dataset) (bd : Band) :
  files w !! name = Some d -> band_at d n = Some bd ->
  find_band w name n = Some (d, bd).
Proof. intros Hd Hb. unfold find_band. rewrite Hd. simpl. rewrite Hb. reflexivity. Qed.

(** One tile, bands [bs], every copy a plain one: the run succeeds,
    the trace grows by the tile's calls in band order, only the target
    dataset changes, its frame stays, and a target pixel holds the
    tile's value where a copied band's window covers it and its old
    value elsewhere. *)
Lemma copy_bands_plain (t_fh : string) (fi : file_info) (sd : Dataset)
    (sw tw : window) (bs : list Z) :
  forall (w : World) (t : Dataset),
  filename fi <> t_fh ->
  files w !! filename fi = Some sd ->
  Forall plain_band (raster_bands sd) ->
  files w !! t_fh = Some t ->
  copy_windows fi t = Ok (Some (sw, tw)) ->
  window_in sd sw = true -> window_in t tw = true ->
  NoDup bs ->
  (forall b, b ∈ bs -> 1 <= b <= RasterCount sd /\ b <= RasterCount t) ->
  exists w' t',
    for_each bs (fun band => _ ← copy_into fi t_fh band band nodata; mret tt) w
    = (Ok tt, w')
    /\ trace w' = trace w ++ tile_events t_fh fi bs
    /\ (forall name, name <> t_fh -> files w' !! name = files w !! name)
    /\ files w' !! t_fh = Some t' /\ frame_of t' = frame_of t
    /\ forall band x y,
         pixel w' t_fh band x y
         = if decide (band ∈ bs /\ inside tw x y)
           then tile_sample t sd sw tw band x y
           else pixel w t_fh band x y.
Proof.
  induction bs as [|b bs IH]; intros w t Hne Hsrc Hplain Ht Hcw Hsw Htw Hnd Hrange.
  - exists w, t. split; [reflexivity|]. split; [symmetry; apply app_nil_r|].
    split; [reflexivity|]. split; [exact Ht|]. split; [reflexivity|].
    intros band x y. rewrite decide_False; [reflexivity|].
    intros [Hin _]. apply not_elem_of_nil in Hin. exact Hin.
  - destruct (Hrange b) as [Hbs Hbt]; [left|].
    destruct (band_at_in_range sd b Hbs) as (sb & Hsb & Hsbin).
    destruct (band_at_in_range t b) as (tb & Htb & _); [lia|].
    pose proof (find_band_lookup _ _ _ _ _ Hsrc Hsb) as Hfs.
    pose proof (find_band_lookup _ _ _ _ _ Ht Htb) as Hft.
    assert (Hpb : plain_band sb).
    { rewrite Forall_forall in Hplain. apply Hplain, Hsbin. }
    destruct Hpb as [Hmf Hci].
    set (data := map_cells (convert (DataType sb) (DataType tb))
                   (resample (samples sb) (xoff sw) (yoff sw) (win_xsize sw)
                             (win_ysize sw) (win_xsize tw) (win_ysize tw))).
    set (w0 := mkWorld (files w)
                 ((trace w ++ [Enter PlainCopy])
                    ++ [RasterRead (BandOf (filename fi) b)])).
    set (w1 := stored w0 t_fh b t tb (xoff tw) (yoff tw) data).
    assert (Hstep : copy_into fi t_fh b b nodata w = (Ok 0, w1)).
    { rewrite (copy_into_run _ _ _ _ _ _ _ Ht), Hcw, raster_copy_run.
      unfold selected_copy, nodata. rewrite Hfs, Hmf, Z.eqb_refl. simpl negb.
      cbv iota.
      replace (ColorInterpretation sb =? GCI_AlphaBand) with false
        by (symmetry; apply Z.eqb_neq; exact Hci).
      apply (plain_copy_run _ _ _ _ _ _ _ _ _ _ _ _ _ sd); assumption. }
    set (t1 := set_band t b (set_samples tb (store (samples tb) (xoff tw) (yoff tw) data))).
    assert (Ht1 : files w1 !! t_fh = Some t1).
    { unfold w1, stored. simpl. apply lookup_insert_eq. }
    assert (Hfr1 : frame_of t1 = frame_of t) by (apply frame_of_set_band; exact Htb).
    destruct (IH w1 t1) as (w' & t' & Hrun & Htr & Hoth & Ht' & Hfr & Hpx).
    + exact Hne.
    + unfold w1. rewrite (files_stored_other w0) by exact Hne. exact Hsrc.
    + exact Hplain.
    + exact Ht1.
    + rewrite (copy_windows_frame _ _ _ Hfr1). exact Hcw.
    + exact Hsw.
    + rewrite (window_in_frame _ _ _ Hfr1). exact Htw.
    + apply NoDup_cons in Hnd. tauto.
    + intros b' Hb'. rewrite (RasterCount_frame _ _ Hfr1). apply Hrange. right. exact Hb'.
    + exists w', t'. split; [|split; [|split; [|split; [|split]]]].
      * simpl for_each. rewrite !bind_run, Hstep, ret_run. exact Hrun.
      * rewrite Htr. unfold w1, stored, w0, tile_events. simpl.
        rewrite <- !app_assoc. reflexivity.
      * intros name Hname. rewrite (Hoth name Hname). unfold w1.
        apply (files_stored_other w0). exact Hname.
      * exact Ht'.
      * rewrite Hfr. exact Hfr1.
      * intros band x y. rewrite Hpx.
        apply NoDup_cons in Hnd as [Hnb Hnd].
        destruct (decide (band ∈ bs /\ inside tw x y)) as [[Hin Hins]|Hout].
        { rewrite decide_True; [apply tile_sample_frame, Hfr1|].
          split; [right; exact Hin|exact Hins]. }
        destruct (decide (band = b)) as [->|Hbne].
        -- unfold w1. rewrite (pixel_stored w0 _ _ _ _ _ _ _ _ _ Hft).
           destruct (decide (inside tw x y)) as [Hins|Hins].
           ++ rewrite decide_True by (split; [left|exact Hins]).
              unfold tile_sample. rewrite Hsb, Htb. simpl. f_equal.
              destruct Hins as [Hx Hy].
              replace x with (xoff tw + (x - xoff tw)) at 1 by lia.
              replace y with (yoff tw + (y - yoff tw)) at 1 by lia.
              apply store_inside. unfold data. rewrite cell_map_cells.
              rewrite cell_sample_for by lia. reflexivity.
           ++ rewrite decide_False by tauto.
              unfold pixel. rewrite Hft. simpl. f_equal.
              apply (store_outside _ _ _ (win_xsize tw) (win_ysize tw));
                [apply map_cells_shape, resample_shape|exact Hins].
        -- unfold w1. rewrite (pixel_stored_other w0 _ _ _ _ _ _ _ _ _ _ Hft Hbne).
           rewrite decide_False; [reflexivity|].
           intros [Hin Hins]. apply elem_of_cons in Hin as [?|?]; tauto.
Qed.

Lemma copy_tiles_cons (t_fh : string) (nbands : option Z) (fi : file_info)
    (rest : list file_info) (t_band : Z) (w : World) :
  copy_tiles t_fh nbands (fi :: rest) t_band w =
  match copy_bands_stacked fi t_fh nbands w with
  | (Ok _, w') => copy_tiles t_fh nbands rest t_band w'
  | (Raise e, w') => (Raise e, w')
  end.
Proof.
  simpl. rewrite !bind_run.
  destruct (copy_bands_stacked fi t_fh nbands w) as [[[]|e] w']; reflexivity.
Qed.

Lemma copy_tile_plain (t_fh : string) (n : Z) (fi : file_info) (sd : Dataset)
    (sw tw : window) (w : World) (t t0 : Dataset) :
  files w !! t_fh = Some t -> frame_of t = frame_of t0 ->
  n <= RasterCount t ->
  files w !! filename fi = Some sd ->
  plain_tile w t_fh t0 n fi sd sw tw ->
  exists w' t',
    copy_bands_stacked fi t_fh (Some n) w = (Ok tt, w')
    /\ trace w' = trace w ++ tile_events t_fh fi (seqZ 1 n)
    /\ (forall name, name <> t_fh -> files w' !! name = files w !! name)
    /\ files w' !! t_fh = Some t' /\ frame_of t' = frame_of t0
    /\ forall band x y,
         pixel w' t_fh band x y
         = if decide (1 <= band <= n /\ inside tw x y)
           then tile_sample t0 sd sw tw band x y
           else pixel w t_fh band x y.
Proof.
  intros Ht Hfr Hn Hsrc (Hne & _ & Hplain & Hns & Hcw & Hsw & Htw).
  destruct (copy_bands_plain t_fh fi sd sw tw (seqZ 1 n) w t)
    as (w' & t' & Hrun & Htr & Hoth & Ht' & Hfr' & Hpx); try assumption.
  - rewrite (copy_windows_frame _ _ _ Hfr). exact Hcw.
  - rewrite (window_in_frame _ _ _ Hfr). exact Htw.
  - apply NoDup_seqZ.
  - intros b Hb%elem_of_seqZ. lia.
  - exists w', t'. split; [exact Hrun|]. split; [exact Htr|].
    split; [exact Hoth|]. split; [exact Ht'|].
    split; [rewrite Hfr'; exact Hfr|].
    intros band x y. rewrite Hpx.
    destruct (decide (band ∈ seqZ 1 n /\ inside tw x y)) as [[Hb%elem_of_seqZ Hi]|Hno].
    + rewrite decide_True by (split; [lia|exact Hi]).
      apply tile_sample_frame, Hfr.
    + rewrite decide_False; [reflexivity|].
      intros [Hb Hi]. apply Hno. split; [apply elem_of_seqZ; lia|exact Hi].
Qed.

Lemma copy_two_plain_tiles (t_fh : string) (n : Z) (A B : file_info)
    (w : World) (t dA dB : Dataset) (swA twA swB twB : window) :
  files w !! t_fh = Some t -> n <= RasterCount t ->
  plain_tile w t_fh t n A dA swA twA ->
  plain_tile w t_fh t n B dB swB twB ->
  exists wAB,
    copy_tiles t_fh (Some n) [A; B] 1 w = (Ok tt, wAB)
    /\ trace wAB = trace w ++ tile_events t_fh A (seqZ 1 n)
                           ++ tile_events t_fh B (seqZ 1 n)
    /\ forall band x y, 1 <= band <= n -> inside twB x y ->
         pixel wAB t_fh band x y = tile_sample t dB swB twB band x y.
Proof.
  intros Ht Hn HA HB.
  destruct (copy_tile_plain t_fh n A dA swA twA w t t Ht eq_refl Hn)
    as (w1 & t1 & Hrun1 & Htr1 & Hoth1 & Ht1 & Hfr1 & Hpx1);
    [apply HA|exact HA|].
  destruct (copy_tile_plain t_fh n B dB swB twB w1 t1 t Ht1 Hfr1)
    as (w2 & t2 & Hrun2 & Htr2 & Hoth2 & Ht2 & Hfr2 & Hpx2).
  - rewrite (RasterCount_frame _ _ Hfr1). exact Hn.
  - destruct HB as (Hne & Hsrc & _). rewrite (Hoth1 _ Hne). exact Hsrc.
  - destruct HB as (Hne & Hsrc & Hrest). split; [exact Hne|].
    split; [rewrite (Hoth1 _ Hne); exact Hsrc|exact Hrest].
  - exists w2. split; [|split].
    + rewrite copy_tiles_cons, Hrun1, copy_tiles_cons, Hrun2. reflexivity.
    + rewrite Htr2, Htr1, <- app_assoc. reflexivity.
    + intros band x y Hb Hi. rewrite Hpx2.
      rewrite decide_True by (split; assumption). reflexivity.
Qed.

(** C3. Order of the tiles under the plain copy.  Two tiles [A] and
    [B] that both overlap the target are copied in the order of the
    list, all bands of the first before any band of the second, and in
    the overlap of their windows the output holds the sample of the
    tile that comes later, converted to the pixel type of the output
    band (the sample itself where the tile's band has that type):
    [B]'s for the list [A; B], [A]'s for the list [B; A]. *)
Theorem later_tile_overwrites_under_plain_copy
    (t_fh : string) (n : Z) (A B : file_info) (w : World)
    (t dA dB : Dataset) (swA twA swB twB : window) :
  files w !! t_fh = Some t -> n <= RasterCount t ->
  plain_tile w t_fh t n A dA swA twA ->
  plain_tile w t_fh t n B dB swB twB ->
  exists wAB wBA,
    copy_tiles t_fh (Some n) [A; B] 1 w = (Ok tt, wAB)
    /\ copy_tiles t_fh (Some n) [B; A] 1 w = (Ok tt, wBA)
    /\ trace wAB = trace w ++ tile_events t_fh A (seqZ 1 n)
                           ++ tile_events t_fh B (seqZ 1 n)
    /\ trace wBA = trace w ++ tile_events t_fh B (seqZ 1 n)
                           ++ tile_events t_fh A (seqZ 1 n)
    /\ forall band x y,
         1 <= band <= n -> inside twA x y -> inside twB x y ->
         pixel wAB t_fh band x y = tile_sample t dB swB twB band x y
         /\ pixel wBA t_fh band x y = tile_sample t dA swA twA band x y.
Proof.
  intros Ht Hn HA HB.
  destruct (copy_two_plain_tiles t_fh n A B w t dA dB swA twA swB twB Ht Hn HA HB)
    as (wAB & HrAB & HtAB & HpAB).
  destruct (copy_two_plain_tiles t_fh n B A w t dB dA swB twB swA twA Ht Hn HB HA)
    as (wBA & HrBA & HtBA & HpBA).
  exists wAB, wBA. repeat split; try assumption.
  - apply HpAB; assumption.
  - apply HpBA; assumption.
Qed.

(** ** What a copy does to the store *)

Lemma read_window_cases (b : band_ref) (x y xs ys bx bs : Z) (w : World) :
  (exists e, read_window b x y xs ys bx bs w = (Raise e, w))
  \/ exists d bd,
       find_band w (ref_name b) (ref_band b) = Some (d, bd)
       /\ window_ok d x y xs ys = true /\ 1 <= bx /\ 1 <= bs
       /\ read_window b x y xs ys bx bs w
          = (Ok (ref_type b bd, resample (ref_samples b bd) x y xs ys bx bs),
             mkWorld (files w) (trace w ++ [RasterRead b])).
Proof.
  unfold read_window. rewrite bind_run, band_of_run.
  destruct (find_band w (ref_name b) (ref_band b)) as [[d bd]|] eqn:Hb;
    [|left; eexists; reflexivity].
  destruct (window_ok d x y xs ys) eqn:Hw; [|left; eexists; reflexivity].
  destruct (1 <=? bx) eqn:Hx; [|left; eexists; reflexivity].
  destruct (1 <=? bs) eqn:Hs; [|left; eexists; reflexivity].
  right. exists d, bd. apply Z.leb_le in Hx, Hs.
  repeat split; try assumption; reflexivity.
Qed.

Lemma ReadAsArray_cases (b : band_ref) (x y xs ys bx bs : Z) (w : World) :
  (exists e, ReadAsArray b x y xs ys bx bs w = (Raise e, w))
  \/ exists d bd,
       find_band w (ref_name b) (ref_band b) = Some (d, bd)
       /\ window_ok d x y xs ys = true /\ 1 <= bx /\ 1 <= bs
       /\ ReadAsArray b x y xs ys bx bs w
          = (Ok (mk_ndarray (ref_type b bd)
                   (resample (ref_samples b bd) x y xs ys bx bs)),
             mkWorld (files w) (trace w ++ [RasterRead b])).
Proof.
  unfold ReadAsArray. rewrite bind_run.
  destruct (read_window_cases b x y xs ys bx bs w)
    as [[e He]|(d & bd & Hb & Hw & Hx & Hy & Hr)].
  - left. exists e. rewrite He. reflexivity.
  - right. exists d, bd. rewrite Hr. repeat split; assumption.
Qed.

Lemma ReadRaster_cases (b : band_ref) (x y xs ys bx bs buf_type : Z) (w : World) :
  (exists e, ReadRaster b x y xs ys bx bs buf_type w = (Raise e, w))
  \/ exists d bd,
       find_band w (ref_name b) (ref_band b) = Some (d, bd)
       /\ window_ok d x y xs ys = true /\ 1 <= bx /\ 1 <= bs
       /\ ReadRaster b x y xs ys bx bs buf_type w
          = (Ok (map_cells (convert (ref_type b bd) buf_type)
                   (resample (ref_samples b bd) x y xs ys bx bs)),
             mkWorld (files w) (trace w ++ [RasterRead b])).
Proof.
  unfold ReadRaster. rewrite bind_run.
  destruct (read_window_cases b x y xs ys bx bs w)
    as [[e He]|(d & bd & Hb & Hw & Hx & Hy & Hr)].
  - left. exists e. rewrite He. reflexivity.
  - right. exists d, bd. rewrite Hr. repeat split; assumption.
Qed.

Lemma shape_ok_has_shape (data : list (list F)) (xs ys : Z) :
  shape_ok data xs ys = true -> has_shape data xs ys.
Proof.
  unfold shape_ok, has_shape. intros [Hl Hr]%andb_true_iff.
  apply Z.eqb_eq in Hl. split; [lia|].
  apply Forall_forall. intros row Hin.
  rewrite forallb_forall in Hr. specialize (Hr row).
  rewrite <- list_elem_of_In in Hr. apply Hr, Z.eqb_eq in Hin. lia.
Qed.

(** A write to a band: the band is not there, or the buffer is
    stored, or the write is refused and nothing is stored. *)
Lemma write_window_cases (name : string) (n x y xs ys : Z)
    (data : list (list F)) (buf_type : Z) (w : World) :
  (exists e, write_window (BandOf name n) x y xs ys data buf_type w = (Raise e, w))
  \/ (exists d bd,
        find_band w name n = Some (d, bd)
        /\ window_ok d x y xs ys = true /\ has_shape data xs ys
        /\ write_window (BandOf name n) x y xs ys data buf_type w
           = (Ok CE_None,
              stored w name n d bd x y
                     (map_cells (convert buf_type (DataType bd)) data)))
  \/ (exists d bd,
        find_band w name n = Some (d, bd)
        /\ window_ok d x y xs ys && shape_ok data xs ys = false
        /\ write_window (BandOf name n) x y xs ys data buf_type w
           = (Ok CE_Failure,
              mkWorld (files w) (trace w ++ [RasterWrite (BandOf name n)]))).
Proof.
  unfold write_window. rewrite bind_run, band_of_run. simpl ref_name; simpl ref_band.
  destruct (find_band w name n) as [[d bd]|] eqn:Hb; [|left; eexists; reflexivity].
  rewrite bind_run, emit_run.
  destruct (window_ok d x y xs ys && shape_ok data xs ys) eqn:Hok.
  - apply andb_true_iff in Hok as [Hw Hs].
    right. left. exists d, bd. split; [reflexivity|]. split; [exact Hw|].
    split; [apply shape_ok_has_shape, Hs|reflexivity].
  - right. right. exists d, bd. split; [reflexivity|]. split; [exact Hok|reflexivity].
Qed.

Lemma is_read_app (evs1 evs2 : list event) :
  Forall is_read evs1 -> Forall is_read evs2 -> Forall is_read (evs1 ++ evs2).
Proof. intros H1 H2. apply Forall_app. split; assumption. Qed.

(** A composite, from the point where the strategy has been entered
    and the source-side buffers are there: the destination window is
    read, the choice written back. *)
Lemma composite_outcome (t_fh : string) (t_band_n x y xs ys : Z)
    (test : list (list bool)) (data_src : ndarray)
    (w0 : World) (evs : list event) :
  Forall is_read evs ->
  has_shape (cells data_src) xs ys -> has_shape test xs ys ->
  let w := mkWorld (files w0) (trace w0 ++ evs) in
  let m := data_dst ← ReadAsArray (BandOf t_fh t_band_n) x y xs ys xs ys;
           _ ← WriteArray (BandOf t_fh t_band_n)
                 (np_choose test data_src data_dst) x y;
           mret 0 in
  copy_effect t_fh t_band_n (mk_window x y xs ys) w0 (m w).1 (m w).2.
Proof.
  intros Hevs Hsrc Htest w m. unfold m.
  rewrite bind_run.
  destruct (ReadAsArray_cases (BandOf t_fh t_band_n) x y xs ys xs ys w)
    as [[e He]|(td & tb & Hb & Hw & Hx & Hy & Hr)].
  - rewrite He. exists evs. split; [exact Hevs|]. left.
    split; [eauto|]. split; reflexivity.
  - rewrite Hr. simpl ref_samples; simpl ref_type. rewrite bind_run.
    simpl ref_name in Hb; simpl ref_band in Hb.
    set (a := np_choose test data_src
                (mk_ndarray (DataType tb) (resample (samples tb) x y xs ys xs ys))).
    assert (Hshape : has_shape (cells a) xs ys).
    { apply np_choose_shape; [exact Htest|exact Hsrc|apply resample_shape]. }
    rewrite (WriteArray_run t_fh t_band_n x y xs ys a
               (mkWorld (files w) (trace w ++ [RasterRead (BandOf t_fh t_band_n)]))
               td tb Hb Hw Hshape).
    exists (evs ++ [RasterRead (BandOf t_fh t_band_n)]).
    split; [apply is_read_app; [exact Hevs|repeat constructor]|].
    right. left. exists td, tb. eexists. split; [exact Hb|]. split; [exact Hw|].
    split; [apply map_cells_shape; exact Hshape|]. split; [reflexivity|].
    unfold stored. simpl. f_equal. repeat rewrite <- app_assoc. reflexivity.
Qed.

Lemma raster_copy_with_nodata_outcome
    (s_fh : string) (s_xoff s_yoff s_xsize s_ysize s_band_n : Z)
    (t_fh : string) (t_xoff t_yoff t_xsize t_ysize t_band_n : Z)
    (nd : F) (w : World) :
  let m := raster_copy_with_nodata s_fh s_xoff s_yoff s_xsize s_ysize s_band_n
             t_fh t_xoff t_yoff t_xsize t_ysize t_band_n nd in
  copy_effect t_fh t_band_n (mk_window t_xoff t_yoff t_xsize t_ysize)
              w (m w).1 (m w).2.
Proof.
  intros m. unfold m, raster_copy_with_nodata, GetRasterBand.
  rewrite bind_run, emit_run, bind_run.
  destruct (ReadAsArray_cases (BandOf s_fh s_band_n) s_xoff s_yoff s_xsize s_ysize
              t_xsize t_ysize (mkWorld (files w) (trace w ++ [Enter NodataComposite])))
    as [[e He]|(sd & sb & Hb & Hw & Hx & Hy & Hr)].
  - rewrite He. exists [Enter NodataComposite].
    split; [repeat constructor|]. left. split; [eauto|]. split; reflexivity.
  - rewrite Hr. simpl ref_samples; simpl ref_type. simpl files; simpl trace.
    rewrite <- app_assoc.
    set (a := mk_ndarray (DataType sb)
                (resample (samples sb) s_xoff s_yoff s_xsize s_ysize t_xsize t_ysize)).
    apply (composite_outcome t_fh t_band_n t_xoff t_yoff t_xsize t_ysize
             (if negb (isnan nd) then np_equal a nd else np_isnan a) a
             w ([Enter NodataComposite] ++ [RasterRead (BandOf s_fh s_band_n)])).
    + repeat constructor.
    + apply resample_shape.
    + destruct (negb (isnan nd));
        [apply np_equal_shape|apply np_isnan_shape]; apply resample_shape.
Qed.

Lemma raster_copy_with_mask_outcome
    (s_fh : string) (s_xoff s_yoff s_xsize s_ysize s_band_n : Z)
    (t_fh : string) (t_xoff t_yoff t_xsize t_ysize t_band_n : Z)
    (m_band : band_ref) (w : World) :
  let m := raster_copy_with_mask s_fh s_xoff s_yoff s_xsize s_ysize s_band_n
             t_fh t_xoff t_yoff t_xsize t_ysize t_band_n m_band in
  copy_effect t_fh t_band_n (mk_window t_xoff t_yoff t_xsize t_ysize)
              w (m w).1 (m w).2.
Proof.
  intros m. unfold m, raster_copy_with_mask, GetRasterBand.
  rewrite bind_run, emit_run, bind_run.
  destruct (ReadAsArray_cases (BandOf s_fh s_band_n) s_xoff s_yoff s_xsize s_ysize
              t_xsize t_ysize (mkWorld (files w) (trace w ++ [Enter MaskComposite])))
    as [[e He]|(sd & sb & Hb & Hw & Hx & Hy & Hr)].
  { rewrite He. exists [Enter MaskComposite].
    split; [repeat constructor|]. left. split; [eauto|]. split; reflexivity. }
  rewrite Hr. simpl ref_samples; simpl ref_type. simpl files; simpl trace.
  rewrite bind_run.
  match goal with
  | |- context [ReadAsArray m_band ?a ?b ?c ?d ?e ?f ?w1] =>
    destruct (ReadAsArray_cases m_band a b c d e f w1)
      as [[e' He]|(md & mb & Hmb & Hmw & _ & _ & Hmr)]
  end.
  { rewrite He. exists [Enter MaskComposite; RasterRead (BandOf s_fh s_band_n)].
    split; [repeat constructor|]. left. split; [eauto|].
    split; [reflexivity|]. simpl. rewrite <- app_assoc. reflexivity. }
  rewrite Hmr. simpl files; simpl trace. rewrite <- !app_assoc.
  apply (composite_outcome t_fh t_band_n t_xoff t_yoff t_xsize t_ysize
           (np_equal_zero
              (mk_ndarray (ref_type m_band mb)
                 (resample (ref_samples m_band mb) s_xoff s_yoff s_xsize s_ysize
                           t_xsize t_ysize)))
           (mk_ndarray (DataType sb)
              (resample (samples sb) s_xoff s_yoff s_xsize s_ysize t_xsize t_ysize))
           w ([Enter MaskComposite] ++ [RasterRead (BandOf s_fh s_band_n)]
                                    ++ [RasterRead m_band])).
  - repeat constructor.
  - apply resample_shape.
  - apply np_equal_zero_shape, resample_shape.
Qed.

Lemma plain_copy_outcome
    (s_fh : string) (s_xoff s_yoff s_xsize s_ysize s_band_n : Z)
    (t_fh : string) (t_xoff t_yoff t_xsize t_ysize t_band_n : Z) (w : World) :
  let m := plain_copy s_fh s_xoff s_yoff s_xsize s_ysize s_band_n
             t_fh t_xoff t_yoff t_xsize t_ysize t_band_n in
  copy_effect t_fh t_band_n (mk_window t_xoff t_yoff t_xsize t_ysize)
              w (m w).1 (m w).2.
Proof.
  intros m. unfold m, plain_copy, GetRasterBand, WriteRaster, GetDataType.
  rewrite bind_run, emit_run, !bind_run, band_of_run. simpl ref_name; simpl ref_band.
  set (w1 := mkWorld (files w) (trace w ++ [Enter PlainCopy])).
  destruct (find_band w1 t_fh t_band_n) as [[td tb]|] eqn:Hb.
  2:{ exists [Enter PlainCopy]. split; [repeat constructor|]. left.
      split; [eauto|]. split; reflexivity. }
  rewrite ret_run, bind_run.
  destruct (ReadRaster_cases (BandOf s_fh s_band_n) s_xoff s_yoff s_xsize s_ysize
              t_xsize t_ysize (DataType tb) w1)
    as [[e He]|(sd & sb & Hsb & Hw & Hx & Hy & Hr)].
  { rewrite He. exists [Enter PlainCopy]. split; [repeat constructor|]. left.
    split; [eauto|]. split; reflexivity. }
  rewrite Hr. simpl ref_samples; simpl ref_type. rewrite bind_run.
  set (data := map_cells (convert (DataType sb) (DataType tb))
                 (resample (samples sb) s_xoff s_yoff s_xsize s_ysize
                           t_xsize t_ysize)).
  assert (Hshape : has_shape data t_xsize t_ysize)
    by apply map_cells_shape, resample_shape.
  match goal with
  | |- context [write_window (BandOf t_fh t_band_n) ?a ?b ?c ?d ?dt ?ty ?w2] =>
    destruct (write_window_cases t_fh t_band_n a b c d dt ty w2)
      as [[e He]|[(td' & tb' & Hb' & Hw' & Hs' & Hr')
                 |(td' & tb' & Hb' & Hw' & Hr')]]
  end.
  - rewrite He. exists [Enter PlainCopy; RasterRead (BandOf s_fh s_band_n)].
    split; [repeat constructor|]. left. split; [eauto|].
    split; [reflexivity|]. simpl. unfold w1. simpl. rewrite <- app_assoc.
    reflexivity.
  - rewrite Hr'. exists [Enter PlainCopy; RasterRead (BandOf s_fh s_band_n)].
    split; [repeat constructor|]. right. left. exists td', tb'. eexists.
    split; [exact Hb'|]. split; [exact Hw'|].
    split; [apply map_cells_shape; exact Hs'|].
    split; [reflexivity|]. simpl. unfold w1. simpl. rewrite <- app_assoc.
    reflexivity.
  - rewrite Hr'. exists [Enter PlainCopy; RasterRead (BandOf s_fh s_band_n)].
    split; [repeat constructor|]. right. right. exists td', tb'.
    split; [exact Hb'|]. split.
    + rewrite has_shape_ok in Hw' by (try lia; exact Hshape).
      rewrite andb_true_r in Hw'. exact Hw'.
    + split; [reflexivity|]. split; [reflexivity|].
      simpl. unfold w1. simpl. rewrite <- !app_assoc. reflexivity.
Qed.

Lemma raster_copy_outcome
    (s_fh : string) (s_xoff s_yoff s_xsize s_ysize s_band_n : Z)
    (t_fh : string) (t_xoff t_yoff t_xsize t_ysize t_band_n : Z)
    (nodata_arg : option F) (w : World) :
  let m := raster_copy s_fh s_xoff s_yoff s_xsize s_ysize s_band_n
             t_fh t_xoff t_yoff t_xsize t_ysize t_band_n nodata_arg in
  copy_effect t_fh t_band_n (mk_window t_xoff t_yoff t_xsize t_ysize)
              w (m w).1 (m w).2.
Proof.
  intros m. unfold m. rewrite raster_copy_run. unfold selected_copy.
  destruct nodata_arg as [nd|]; [apply raster_copy_with_nodata_outcome|].
  destruct (find_band w s_fh s_band_n) as [[sd sb]|].
  - destruct (negb (MaskFlags sb =? GMF_ALL_VALID));
      [apply raster_copy_with_mask_outcome|].
    destruct (ColorInterpretation sb =? GCI_AlphaBand);
      [apply raster_copy_with_mask_outcome|apply plain_copy_outcome].
  - exists []. split; [constructor|]. left. split; [eauto|].
    split; [reflexivity|]. simpl. rewrite app_nil_r. reflexivity.
Qed.

(** [copy_into], whatever the strategy: an arithmetic exception or a
    skip with nothing touched, or one band copy into the target
    window. *)
Lemma copy_into_outcome (self : file_info) (t_fh : string) (s_band t_band : Z)
    (nodata_arg : option F) (w : World) (t : Dataset) :
  files w !! t_fh = Some t ->
  let m := copy_into self t_fh s_band t_band nodata_arg in
  match copy_windows self t with
  | Raise e => m w = (Raise (ArithmeticError e), w)
  | Ok None => m w = (Ok 1, w)
  | Ok (Some (sw, tw)) => copy_effect t_fh t_band tw w (m w).1 (m w).2
  end.
Proof.
  intros Ht m. unfold m. rewrite (copy_into_run _ _ _ _ _ _ _ Ht).
  destruct (copy_windows self t) as [[[sw [tx ty txs tys]]|]|e]; try reflexivity.
  apply raster_copy_outcome.
Qed.

Lemma copy_effect_files (t_fh : string) (band : Z) (tw : window)
    (w w' : World) (r : result exn Z) (name : string) :
  copy_effect t_fh band tw w r w' -> name <> t_fh ->
  files w' !! name = files w !! name.
Proof.
  intros (evs & _ & [(_ & Hf & _)|[(td & tb & data & _ & _ & _ & _ & ->)
                                  |(td & tb & _ & _ & _ & Hf & _)]]) Hne.
  - rewrite Hf. reflexivity.
  - unfold stored. simpl. apply lookup_insert_ne. congruence.
  - rewrite Hf. reflexivity.
Qed.

Lemma find_band_files (w : World) (name : string) (n : Z) (d : Dataset) (bd : Band) :
  find_band w name n = Some (d, bd) -> files w !! name = Some d.
Proof.
  unfold find_band. destruct (files w !! name) as [d0|]; [|discriminate]. simpl.
  destruct (band_at d0 n); [|discriminate]. simpl. intros [= -> _]. reflexivity.
Qed.

Lemma header_of_set_band (d : Dataset) (n : Z) (bd : Band) :
  header_of (set_band d n bd) = header_of d.
Proof. unfold header_of, set_band. simpl. rewrite length_insert. reflexivity. Qed.

Lemma copy_effect_header (t_fh : string) (band : Z) (tw : window)
    (w w' : World) (r : result exn Z) :
  copy_effect t_fh band tw w r w' ->
  header_of <$> files w' !! t_fh = header_of <$> files w !! t_fh.
Proof.
  intros (evs & _ & [(_ & Hf & _)|[(td & tb & data & Hb & _ & _ & _ & ->)
                                  |(td & tb & _ & _ & _ & Hf & _)]]).
  - rewrite Hf. reflexivity.
  - rewrite (find_band_files _ _ _ _ _ Hb). unfold stored. simpl.
    rewrite lookup_insert_eq. simpl. rewrite header_of_set_band. reflexivity.
  - rewrite Hf. reflexivity.
Qed.

Lemma copy_effect_trace (t_fh : string) (band : Z) (tw : window)
    (w w' : World) (r : result exn Z) :
  copy_effect t_fh band tw w r w' ->
  exists evs, trace w' = trace w ++ evs /\ Forall (touches_only t_fh) evs.
Proof.
  assert (Hread : forall evs, Forall is_read evs -> Forall (touches_only t_fh) evs).
  { intros evs He. eapply Forall_impl; [exact He|].
    intros [] Hev; simpl in *; tauto. }
  intros (evs & Hevs & [(_ & _ & Ht)|[(td & tb & data & _ & _ & _ & _ & ->)
                                     |(td & tb & _ & _ & _ & _ & Ht)]]).
  - exists evs. split; [exact Ht|apply Hread, Hevs].
  - exists (evs ++ [RasterWrite (BandOf t_fh band)]). split.
    + unfold stored. simpl. rewrite app_assoc. reflexivity.
    + apply Forall_app. split; [apply Hread, Hevs|].
      repeat constructor. exists band. reflexivity.
  - exists (evs ++ [RasterWrite (BandOf t_fh band)]). split; [exact Ht|].
    apply Forall_app. split; [apply Hread, Hevs|].
    repeat constructor. exists band. reflexivity.
Qed.

Lemma copy_effect_pixels (t_fh : string) (band : Z) (tw : window)
    (w w' : World) (r : result exn Z) (band' x y : Z) :
  copy_effect t_fh band tw w r w' ->
  ~ (band' = band /\ inside tw x y) ->
  pixel w' t_fh band' x y = pixel w t_fh band' x y.
Proof.
  intros (evs & _ & [(_ & Hf & _)|[(td & tb & data & Hb & _ & Hs & _ & ->)
                                  |(td & tb & _ & _ & _ & Hf & _)]]) Hout.
  - unfold pixel, find_band. rewrite Hf. reflexivity.
  - set (w0 := mkWorld (files w) (trace w ++ evs)).
    destruct (decide (band' = band)) as [->|Hne].
    + rewrite (pixel_stored w0 _ _ _ _ _ _ _ _ _ Hb).
      unfold pixel. rewrite Hb. simpl. f_equal.
      apply (store_outside _ _ _ (win_xsize tw) (win_ysize tw)); [exact Hs|].
      unfold inside in Hout. tauto.
    + apply (pixel_stored_other w0 _ _ _ _ _ _ _ _ _ _ Hb Hne).
  - unfold pixel, find_band. rewrite Hf. reflexivity.
Qed.

Lemma copy_effect_kept (t_fh : string) (band : Z) (tw : window)
    (w w' : World) (r : result exn Z) :
  copy_effect t_fh band tw w r w' -> kept t_fh w w'.
Proof.
  intros He. split; [split|].
  - intros name Hne. eapply copy_effect_files; eassumption.
  - eapply copy_effect_trace; eassumption.
  - eapply copy_effect_header; eassumption.
Qed.

Lemma confined_refl (out : string) (w : World) : confined out w w.
Proof.
  split; [reflexivity|]. exists []. rewrite app_nil_r. split; [reflexivity|constructor].
Qed.

Lemma confined_trans (out : string) (w1 w2 w3 : World) :
  confined out w1 w2 -> confined out w2 w3 -> confined out w1 w3.
Proof.
  intros [Hf1 (e1 & Ht1 & He1)] [Hf2 (e2 & Ht2 & He2)]. split.
  - intros name Hne. rewrite (Hf2 name Hne). apply Hf1, Hne.
  - exists (e1 ++ e2). rewrite Ht2, Ht1, app_assoc. split; [reflexivity|].
    apply Forall_app. split; assumption.
Qed.

Lemma kept_refl (out : string) (w : World) : kept out w w.
Proof. split; [apply confined_refl|reflexivity]. Qed.

Lemma kept_trans (out : string) (w1 w2 w3 : World) :
  kept out w1 w2 -> kept out w2 w3 -> kept out w1 w3.
Proof.
  intros [Hc1 Hh1] [Hc2 Hh2]. split; [eapply confined_trans; eassumption|].
  rewrite Hh2. exact Hh1.
Qed.

(** ** Relations a run preserves *)

Section Preserves.
Variable R : World -> World -> Prop.
Hypothesis R_refl : forall w, R w w.
Hypothesis R_trans : forall w1 w2 w3, R w1 w2 -> R w2 w3 -> R w1 w3.

Lemma preserves_same {A} (m : M A) :
  (forall w, (m w).2 = w) -> preserves R m.
Proof. intros Hm w. rewrite Hm. apply R_refl. Qed.

Lemma preserves_bind {A B} (m : M A) (k : A -> M B) :
  preserves R m -> (forall a, preserves R (k a)) -> preserves R (m ≫= k).
Proof.
  intros Hm Hk w. rewrite bind_run. specialize (Hm w).
  destruct (m w) as [[a|e] w1]; simpl in *; [|exact Hm].
  eapply R_trans; [exact Hm|apply Hk].
Qed.

Lemma preserves_for_each {A} (xs : list A) (body : A -> M unit) :
  (forall x, preserves R (body x)) -> preserves R (for_each xs body).
Proof.
  intros Hb. induction xs as [|x xs IH]; simpl.
  - apply preserves_same. reflexivity.
  - apply preserves_bind; [apply Hb|intros _; exact IH].
Qed.

End Preserves.

Lemma preserves_copy_into (self : file_info) (t_fh : string) (s_band t_band : Z)
    (nodata_arg : option F) :
  preserves (kept t_fh) (copy_into self t_fh s_band t_band nodata_arg).
Proof.
  intros w. destruct (files w !! t_fh) as [t|] eqn:Ht.
  - pose proof (copy_into_outcome self t_fh s_band t_band nodata_arg w t Ht) as Ho.
    cbv zeta in Ho.
    destruct (copy_windows self t) as [[[sw tw]|]|e].
    + eapply copy_effect_kept. exact Ho.
    + rewrite Ho. apply kept_refl.
    + rewrite Ho. apply kept_refl.
  - unfold copy_into. rewrite bind_run. unfold dataset_of. rewrite Ht.
    apply kept_refl.
Qed.

Lemma preserves_copy_tiles (t_fh : string) (nbands : option Z)
    (file_infos : list file_info) (t_band : Z) :
  preserves (kept t_fh) (copy_tiles t_fh nbands file_infos t_band).
Proof.
  pose proof (kept_refl t_fh) as Hr. pose proof (kept_trans t_fh) as Ht.
  revert t_band. induction file_infos as [|fi rest IH]; intros t_band; simpl.
  - apply (preserves_same _ Hr). reflexivity.
  - apply (preserves_bind _ Ht); [|intros tb; apply IH].
    apply (preserves_bind _ Ht).
    + unfold copy_bands_stacked. destruct nbands as [n|].
      * apply (preserves_for_each _ Hr Ht).
        intros band. apply (preserves_bind _ Ht); [apply preserves_copy_into|].
        intros _. apply (preserves_same _ Hr). reflexivity.
      * apply (preserves_same _ Hr). reflexivity.
    + intros _. apply (preserves_same _ Hr). reflexivity.
Qed.

Lemma init_from_name_same (name : string) (w : World) :
  (init_from_name name w).2 = w.
Proof.
  unfold init_from_name. rewrite bind_run. unfold gdal_Open.
  destruct (files w !! name) as [d|] eqn:Hd; simpl; [|reflexivity].
  rewrite bind_run. unfold dataset_of. rewrite Hd.
  destruct (band_at d 1); reflexivity.
Qed.

Lemma names_to_fileinfos_from_same (acc : list file_info) (names : list string)
    (w : World) :
  (names_to_fileinfos_from acc names w).2 = w.
Proof.
  revert acc. induction names as [|name rest IH]; intros acc; simpl; [reflexivity|].
  rewrite bind_run. pose proof (init_from_name_same name w) as Hi.
  destruct (init_from_name name w) as [[fi|e] w1]; simpl in Hi; subst w1;
    [apply IH|reflexivity].
Qed.

Lemma preserves_create_output (drv : Driver) (out_file : string) (p : plan)
    (band_type0 : Z) (projection0 : string) :
  preserves (confined out_file)
            (create_output drv out_file p band_type0 projection0).
Proof.
  intros w.
  destruct (Create drv out_file (plan_xsize p) (plan_ysize p) (plan_bands p)
                   band_type0) as [d0|] eqn:Hc.
  - rewrite (create_output_run _ _ _ _ _ _ _ Hc). split.
    + intros name Hne. simpl. apply lookup_insert_ne. congruence.
    + exists [DatasetCreate out_file]. split; [reflexivity|].
      repeat constructor.
  - unfold create_output. rewrite Hc. apply confined_refl.
Qed.

Lemma kept_confined (out : string) (w w' : World) :
  kept out w w' -> confined out w w'.
Proof. intros [Hc _]. exact Hc. Qed.

Lemma preserves_merge_from (drv : Driver) (out_file : string)
    (file_infos : list file_info) (e : extent) (fi0 : file_info) :
  preserves (confined out_file) (merge_from drv out_file file_infos e fi0).
Proof.
  intros w. unfold merge_from. cbv zeta. rewrite bind_run. unfold gdal_Open.
  destruct (files w !! out_file) as [t|] eqn:Hout.
  - rewrite bind_run, ret_run. apply kept_confined, preserves_copy_tiles.
  - rewrite !bind_run. unfold lift_arith.
    destruct (plan_output _ _ _ _ _ _) as [p|err]; [|apply confined_refl].
    rewrite bind_run.
    pose proof (preserves_create_output drv out_file p (band_type fi0)
                  (projection fi0) w) as Hc.
    destruct (create_output drv out_file p (band_type fi0) (projection fi0) w)
      as [[t_fh|err] w1] eqn:Hrun; simpl in Hc; [|exact Hc].
    assert (t_fh = out_file) as ->.
    { destruct (Create drv out_file (plan_xsize p) (plan_ysize p) (plan_bands p)
                       (band_type fi0)) as [d0|] eqn:Hcr.
      - rewrite (create_output_run _ _ _ _ _ _ _ Hcr) in Hrun. congruence.
      - unfold create_output in Hrun. rewrite Hcr in Hrun. discriminate. }
    rewrite ret_run. eapply confined_trans; [exact Hc|].
    apply kept_confined, preserves_copy_tiles.
Qed.

Lemma preserves_merge_with (drv : Driver) (names : list string)
    (out_file : string) :
  preserves (confined out_file) (merge_with drv names out_file).
Proof.
  intros w. rewrite merge_with_run.
  pose proof (names_to_fileinfos_from_same [] names w) as Hn.
  fold (names_to_fileinfos names) in Hn.
  destruct (names_to_fileinfos names w) as [[[|fi0 rest]|e] w1];
    simpl in Hn; subst w1; try apply confined_refl.
  apply preserves_merge_from.
Qed.

(** X1. Whatever the inputs and however the run ends, [run_merge]
    changes no dataset but the one stored under the output name, and
    every write and every creation in its trace is a write to, or the
    creation of, that dataset. *)
Theorem run_merge_touches_only_output
    (env : Env) (names : list string) (out_file : string) (w : World) :
  confined out_file w (run_merge env names out_file w).2.
Proof.
  unfold run_merge. rewrite bind_run. unfold lift.
  destruct (GetOutputDriverFor env out_file) as [format|e]; [|apply confined_refl].
  destruct (GetDriverByName env format) as [drv|]; [|apply confined_refl].
  destruct (negb (DCAP_CREATE drv)); [apply confined_refl|].
  apply preserves_merge_with.
Qed.

(** X2. [copy_into] stays inside its window, whatever the strategy
    and whether it succeeds or raises: the other datasets are as
    before, the target keeps its size, geotransform, projection and
    band count, and a target sample changes only in band [t_band] and
    only inside the target window that [copy_into] computes. *)
Theorem copy_into_stays_in_its_window
    (self : file_info) (t_fh : string) (s_band t_band : Z)
    (nodata_arg : option F) (w : World) (t : Dataset) :
  files w !! t_fh = Some t ->
  (forall name, name <> t_fh ->
     files (copy_into self t_fh s_band t_band nodata_arg w).2 !! name
     = files w !! name)
  /\ header_of <$> files (copy_into self t_fh s_band t_band nodata_arg w).2 !! t_fh
     = Some (header_of t)
  /\ forall band x y,
       (band = t_band ->
        forall sw tw, copy_windows self t = Ok (Some (sw, tw)) -> ~ inside tw x y) ->
       pixel (copy_into self t_fh s_band t_band nodata_arg w).2 t_fh band x y
       = pixel w t_fh band x y.
Proof.
  intros Ht.
  pose proof (copy_into_outcome self t_fh s_band t_band nodata_arg w t Ht) as Ho.
  cbv zeta in Ho.
  destruct (copy_windows self t) as [[[sw tw]|]|e] eqn:Hcw.
  - split; [|split].
    + intros name Hne. eapply copy_effect_files; eassumption.
    + rewrite (copy_effect_header _ _ _ _ _ _ Ho), Ht. reflexivity.
    + intros band x y Hout. eapply copy_effect_pixels; [exact Ho|].
      intros [Hb Hi]. exact (Hout Hb sw tw eq_refl Hi).
  - rewrite Ho. simpl. rewrite Ht. repeat split; reflexivity.
  - rewrite Ho. simpl. rewrite Ht. repeat split; reflexivity.
Qed.

(** X3. The value [copy_into] returns tells a skip from an attempted
    copy, not a success from a failure: 1 means that the tile was
    skipped and nothing was touched; 0 (which the docstring calls a
    failure) means that the windows were computed, the reads went
    through and a write to the target band was the last call.  That
    write stores one buffer of the window's shape when the target
    window lies inside the target raster; when it does not, the write
    is refused, its error code is dropped and no dataset has changed:
    0 does not say that anything was written. *)
Theorem copy_into_return_value
    (self : file_info) (t_fh : string) (s_band t_band : Z)
    (nodata_arg : option F) (w w' : World) (t : Dataset) (r : Z) :
  files w !! t_fh = Some t ->
  copy_into self t_fh s_band t_band nodata_arg w = (Ok r, w') ->
  (r = 1 /\ w' = w /\ copy_windows self t = Ok None)
  \/ (r = 0
      /\ exists sw tw evs,
           copy_windows self t = Ok (Some (sw, tw))
           /\ Forall is_read evs
           /\ trace w' = trace w ++ evs ++ [RasterWrite (BandOf t_fh t_band)]
           /\ (window_in t tw = false -> files w' = files w)
           /\ (window_in t tw = true ->
               exists tb data,
                 band_at t t_band = Some tb
                 /\ has_shape data (win_xsize tw) (win_ysize tw)
                 /\ files w'
                    = <[t_fh := set_band t t_band
                                  (set_samples tb
                                     (store (samples tb) (xoff tw) (yoff tw) data))]>
                        (files w))).
Proof.
  intros Ht Hrun.
  pose proof (copy_into_outcome self t_fh s_band t_band nodata_arg w t Ht) as Ho.
  cbv zeta in Ho. rewrite Hrun in Ho. simpl in Ho.
  destruct (copy_windows self t) as [[[sw tw]|]|e] eqn:Hcw.
  - right.
    destruct Ho as (evs & Hevs & [([e He] & _)
                                 |[(td & tb & data & Hb & Hin & Hs & Hr & ->)
                                  |(td & tb & Hb & Hin & Hr & Hf & Htr)]]);
      [discriminate| |].
    + injection Hr as ->. split; [reflexivity|].
      pose proof (find_band_files _ _ _ _ _ Hb) as Htd.
      rewrite Ht in Htd. injection Htd as <-.
      exists sw, tw, evs. split; [reflexivity|]. split; [exact Hevs|].
      split; [unfold stored; simpl; rewrite app_assoc; reflexivity|].
      split; [congruence|]. intros _. exists tb, data.
      split; [|split; [exact Hs|reflexivity]].
      unfold find_band in Hb. rewrite Ht in Hb. simpl in Hb.
      destruct (band_at t t_band) as [tb'|]; [|discriminate].
      simpl in Hb. congruence.
    + injection Hr as ->. split; [reflexivity|].
      pose proof (find_band_files _ _ _ _ _ Hb) as Htd.
      rewrite Ht in Htd. injection Htd as <-.
      exists sw, tw, evs. split; [reflexivity|]. split; [exact Hevs|].
      split; [exact Htr|]. split; [intros _; exact Hf|]. congruence.
  - left. injection Ho as -> ->. repeat split.
  - discriminate.
Qed.

(** X4. An output file that already opens stops the run: as soon as
    one input opens, [run_merge] raises [UnboundLocalError] ([bands] is
    assigned only where the output is created) and has touched
    nothing. *)
Theorem run_merge_on_existing_output
    (env : Env) (drv : Driver) (format : string)
    (names : list string) (out_file : string) (w : World) (name : string) :
  has_bands w ->
  GetOutputDriverFor env out_file = Ok format ->
  GetDriverByName env format = Some drv ->
  DCAP_CREATE drv = true ->
  is_Some (files w !! out_file) ->
  name ∈ names -> is_Some (files w !! name) ->
  run_merge env names out_file w = (Raise UnboundLocalError, w).
Proof.
  intros Hw Hfmt Hdrv Hcap [t Hout] Hin Hopen.
  unfold run_merge. rewrite bind_run. unfold lift. rewrite Hfmt, Hdrv, Hcap.
  cbn [negb]. rewrite merge_with_run. unfold names_to_fileinfos.
  rewrite names_to_fileinfos_from_run by exact Hw. cbn [app].
  destruct (omap (describe_in w) names) as [|fi0 rest] eqn:Hfis.
  - exfalso. pose proof (described_names w names Hw) as Hd.
    rewrite Hfis in Hd. symmetry in Hd.
    assert (Hn : name ∈ filter (fun n => is_Some (files w !! n)) names)
      by (apply list_elem_of_filter; split; assumption).
    rewrite Hd in Hn. inversion Hn.
  - unfold merge_from. cbv zeta. rewrite bind_run. unfold gdal_Open. rewrite Hout.
    rewrite bind_run, ret_run, copy_tiles_cons. reflexivity.
Qed.

(** X5. The header of a created output: once the plan is made and the
    driver has allocated the raster, the output carries the planned
    geotransform and the first tile's projection, with the size and
    bands the driver gave it, and they stay so through the copy phase,
    however that ends. *)
Theorem created_output_keeps_planned_header
    (drv : Driver) (names : list string) (out_file : string) (w : World)
    (fi0 : file_info) (rest : list file_info) (p : plan) (d0 : Dataset) :
  names_to_fileinfos names w = (Ok (fi0 :: rest), w) ->
  files w !! out_file = None ->
  mosaic_plan (fi0 :: rest) = Ok p ->
  Create drv out_file (plan_xsize p) (plan_ysize p) (plan_bands p) (band_type fi0)
    = Some d0 ->
  header_of <$> files (merge_with drv names out_file w).2 !! out_file
  = Some (RasterXSize d0, RasterYSize d0, plan_geotransform p, projection fi0,
          length (raster_bands d0)).
Proof.
  intros Hn Hout Hp Hc.
  rewrite (merge_with_creates_planned _ _ _ _ _ _ _ Hn Hout), Hp.
  rewrite bind_run, (create_output_run _ _ _ _ _ _ _ Hc).
  match goal with
  | |- context [copy_tiles ?t ?nb ?fis ?tb ?w1] =>
    destruct (preserves_copy_tiles t nb fis tb w1) as [_ Hh]
  end.
  rewrite Hh. simpl. rewrite lookup_insert_eq. reflexivity.
Qed.

(** X6. A tile with fewer bands than the copy asks for: where its
    window overlaps the target, [copy_into] raises [AttributeError]
    (the band object is [None]) and no dataset is changed. *)
Theorem copy_into_missing_source_band
    (self : file_info) (t_fh : string) (band t_band : Z)
    (nodata_arg : option F) (w : World) (t sd : Dataset) (sw tw : window) :
  files w !! t_fh = Some t ->
  copy_windows self t = Ok (Some (sw, tw)) ->
  files w !! filename self = Some sd ->
  RasterCount sd < band ->
  (copy_into self t_fh band t_band nodata_arg w).1 = Raise AttributeError
  /\ files (copy_into self t_fh band t_band nodata_arg w).2 = files w.
Proof.
  intros Ht Hcw Hsd Hband.
  assert (Hnone : find_band w (filename self) band = None).
  { unfold find_band. rewrite Hsd. simpl. unfold band_at, RasterCount in *.
    destruct (1 <=? band); [|reflexivity].
    rewrite lookup_ge_None_2 by lia. reflexivity. }
  rewrite (copy_into_run _ _ _ _ _ _ _ Ht), Hcw, raster_copy_run.
  unfold selected_copy. destruct nodata_arg as [nd|].
  - unfold raster_copy_with_nodata, ReadAsArray, GetRasterBand, read_window.
    rewrite bind_run, emit_run, !bind_run, band_of_run.
    simpl ref_name; simpl ref_band.
    change (find_band (mkWorld (files w) (trace w ++ [Enter NodataComposite]))
                      (filename self) band)
      with (find_band w (filename self) band).
    rewrite Hnone. split; reflexivity.
  - rewrite Hnone. split; reflexivity.
Qed.

(** ** Plain mosaics of any length *)

Lemma insideb_inside (win : window) (x y : Z) :
  insideb win x y = true <-> inside win x y.
Proof.
  unfold insideb, inside.
  rewrite !andb_true_iff, !Z.leb_le, !Z.ltb_lt. tauto.
Qed.

Lemma copy_tile_skipped (t_fh : string) (n : Z) (fi : file_info)
    (w : World) (t : Dataset) :
  files w !! t_fh = Some t -> copy_windows fi t = Ok None ->
  copy_bands_stacked fi t_fh (Some n) w = (Ok tt, w).
Proof.
  intros Ht Hcw. unfold copy_bands_stacked.
  induction (seqZ 1 n) as [|b bs IH]; simpl; [reflexivity|].
  rewrite !bind_run, (copy_into_run _ _ _ _ _ _ _ Ht), Hcw, ret_run. exact IH.
Qed.

Lemma plain_mosaic_from (t_fh : string) (n : Z) (w0 : World) (t0 : Dataset)
    (fis : list file_info) :
  n <= RasterCount t0 ->
  Forall (mosaic_tile w0 t_fh t0 n) fis ->
  forall (w : World) (t : Dataset),
  (forall name, name <> t_fh -> files w !! name = files w0 !! name) ->
  files w !! t_fh = Some t -> frame_of t = frame_of t0 ->
  exists w',
    copy_tiles t_fh (Some n) fis 1 w = (Ok tt, w')
    /\ forall band x y,
         pixel w' t_fh band x y
         = fold_left (fun acc fi => overlay w0 t0 n fi band x y acc) fis
                     (pixel w t_fh band x y).
Proof.
  intros Hn Hall. induction Hall as [|fi fis Hfi Hall IH]; intros w t Hoth Ht Hfr.
  - exists w. split; reflexivity.
  - rewrite copy_tiles_cons. destruct Hfi as [Hskip|(sd & sw & tw & Hpl)].
    + rewrite (copy_tile_skipped t_fh n fi w t Ht)
        by (rewrite (copy_windows_frame _ _ _ Hfr); exact Hskip).
      destruct (IH w t Hoth Ht Hfr) as (w' & Hrun & Hpx).
      exists w'. split; [exact Hrun|]. intros band x y. rewrite Hpx. simpl.
      f_equal. unfold overlay. rewrite Hskip. reflexivity.
    + pose proof Hpl as (Hne & Hsrc & _ & _ & Hcw & _).
      destruct (copy_tile_plain t_fh n fi sd sw tw w t t0 Ht Hfr)
        as (w1 & t1 & Hrun1 & _ & Hoth1 & Ht1 & Hfr1 & Hpx1).
      * rewrite (RasterCount_frame _ _ Hfr). exact Hn.
      * rewrite (Hoth _ Hne). exact Hsrc.
      * destruct Hpl as (? & ? & Hrest). split; [assumption|].
        split; [rewrite (Hoth _ Hne); assumption|exact Hrest].
      * rewrite Hrun1. destruct (IH w1 t1) as (w' & Hrun & Hpx).
        -- intros name Hname. rewrite (Hoth1 _ Hname). apply Hoth, Hname.
        -- exact Ht1.
        -- exact Hfr1.
        -- exists w'. split; [exact Hrun|]. intros band x y.
           rewrite Hpx. simpl. f_equal. rewrite Hpx1.
           unfold overlay. rewrite Hcw, Hsrc.
           destruct (decide (1 <= band <= n /\ inside tw x y)) as [[Hb Hi]|Hno].
           ++ apply insideb_inside in Hi. rewrite Hi.
              replace (1 <=? band) with true by (symmetry; apply Z.leb_le; lia).
              replace (band <=? n) with true by (symmetry; apply Z.leb_le; lia).
              reflexivity.
           ++ destruct ((1 <=? band) && (band <=? n) && insideb tw x y) eqn:E;
                [|reflexivity].
              exfalso. apply Hno.
              apply andb_true_iff in E as [E Hi]. apply insideb_inside in Hi.
              apply andb_true_iff in E as [E1 E2].
              apply Z.leb_le in E1, E2. split; [lia|exact Hi].
Qed.

(** X7. A plain mosaic of any number of tiles: when every tile is
    either skipped or copied plainly into a window the output
    contains, the copy loop succeeds and each output sample is what
    folding the tiles over the old sample in list order gives: the
    sample of the last tile whose window covers the pixel, converted
    to the pixel type of the output band (the sample itself where the
    tile's band has that type), or the old sample where no tile covers
    the pixel. *)
Theorem plain_mosaic_is_fold_in_list_order
    (t_fh : string) (n : Z) (fis : list file_info) (w : World) (t : Dataset) :
  files w !! t_fh = Some t -> n <= RasterCount t ->
  Forall (mosaic_tile w t_fh t n) fis ->
  exists w',
    copy_tiles t_fh (Some n) fis 1 w = (Ok tt, w')
    /\ forall band x y,
         pixel w' t_fh band x y
         = fold_left (fun acc fi => overlay w t n fi band x y acc) fis
                     (pixel w t_fh band x y).
Proof.
  intros Ht Hn Hall.
  apply (plain_mosaic_from t_fh n w t fis Hn Hall w t); [reflexivity|exact Ht|reflexivity].
Qed.

(** ** Names that do not open *)


(** ** Descriptors of datasets without bands *)

(** X8. [names_to_fileinfos] never changes the store, and the one way
    it fails is a name that opens a dataset without bands
    ([GetRasterBand(1)] is [None]): then it raises [AttributeError];
    otherwise it returns the descriptors of the names that open. *)
Theorem names_to_fileinfos_fails_only_on_bandless
    (names : list string) (w : World) :
  (opens_bandless w names ->
   names_to_fileinfos names w = (Raise AttributeError, w))
  /\ (~ opens_bandless w names ->
      names_to_fileinfos names w = (Ok (omap (describe_in w) names), w)).
Proof.
  assert (Hgen : forall acc,
            (opens_bandless w names ->
             names_to_fileinfos_from acc names w = (Raise AttributeError, w))
            /\ (~ opens_bandless w names ->
                names_to_fileinfos_from acc names w
                = (Ok (acc ++ omap (describe_in w) names), w))).
  { induction names as [|name rest IH]; intros acc.
    - split.
      + intros (n & d & Hin & _). inversion Hin.
      + intros _. simpl. rewrite app_nil_r. reflexivity.
    - assert (Hstep : forall d, files w !! name = Some d -> raster_bands d = [] ->
                init_from_name name w = (Raise AttributeError, w)).
      { intros d Hd Hb. unfold init_from_name. rewrite bind_run. unfold gdal_Open.
        rewrite Hd. simpl. rewrite bind_run. unfold dataset_of. rewrite Hd.
        unfold band_at. simpl. rewrite Hb. reflexivity. }
      assert (Hok : (forall d, files w !! name = Some d -> raster_bands d <> []) ->
                init_from_name name w = (Ok (describe_in w name), w)).
      { intros Hd. unfold init_from_name, describe_in. rewrite bind_run.
        unfold gdal_Open. destruct (files w !! name) as [d|] eqn:E; simpl;
          [|reflexivity].
        rewrite bind_run. unfold dataset_of. rewrite E.
        destruct (band_at_first d (Hd d eq_refl)) as [b1 ->]. reflexivity. }
      destruct (files w !! name) as [d|] eqn:Hd.
      + destruct (raster_bands d) as [|b0 bs] eqn:Hb.
        * split.
          -- intros _. simpl. rewrite bind_run, (Hstep d eq_refl Hb). reflexivity.
          -- intros Hno. exfalso. apply Hno. exists name, d.
             split; [left|]. split; assumption.
        * assert (Hi : init_from_name name w = (Ok (describe_in w name), w)).
          { apply Hok. intros d' [= <-]. rewrite Hb. discriminate. }
          split.
          -- intros (n' & d' & Hin & Hd' & Hb').
             apply elem_of_cons in Hin as [->|Hin]; [congruence|].
             simpl. rewrite bind_run, Hi. apply IH. exists n', d'. tauto.
          -- intros Hno. simpl. rewrite bind_run, Hi.
             destruct (IH (match describe_in w name with
                           | Some fi => acc ++ [fi] | None => acc end)) as [_ ->].
             ++ destruct (describe_in w name); [rewrite <- app_assoc|]; reflexivity.
             ++ intros (n' & d' & Hin & Hd' & Hb'). apply Hno.
                exists n', d'. split; [right; exact Hin|]. tauto.
      + assert (Hi : init_from_name name w = (Ok (describe_in w name), w)).
        { apply Hok. intros d' [=]. }
        split.
        * intros (n' & d' & Hin & Hd' & Hb').
          apply elem_of_cons in Hin as [->|Hin]; [congruence|].
          simpl. rewrite bind_run, Hi. apply IH. exists n', d'. tauto.
        * intros Hno. simpl. rewrite bind_run, Hi.
          destruct (IH (match describe_in w name with
                        | Some fi => acc ++ [fi] | None => acc end)) as [_ ->].
          -- destruct (describe_in w name); [rewrite <- app_assoc|]; reflexivity.
          -- intros (n' & d' & Hin & Hd' & Hb'). apply Hno.
             exists n', d'. split; [right; exact Hin|]. tauto. }
  exact (Hgen []).
Qed.

(** ** Masks honoured without a nodata value *)

(** X9. Transparency without a nodata value.  When the source band has
    mask flags other than all-valid, or is an alpha band, a
    [raster_copy] without nodata value returns 0 and decides every
    pixel of the target window by the mask sample (the mask band's in
    the first case, the band's own sample in the second): 0 keeps the
    old target sample, anything else takes the source sample, either
    of them brought to the common type of the two bands and then to
    the target band's type; pixels of the band outside the window stay
    as they are.  When the two bands have the same pixel type the
    sample kept or taken is stored as it is. *)
Theorem raster_copy_without_nodata_honours_masks
    (s_fh : string) (s_xoff s_yoff s_xsize s_ysize s_band_n : Z)
    (t_fh : string) (t_xoff t_yoff t_xsize t_ysize t_band_n : Z)
    (w : World) (sd td : Dataset) (sb tb : Band) :
  find_band w s_fh s_band_n = Some (sd, sb) ->
  find_band w t_fh t_band_n = Some (td, tb) ->
  window_ok sd s_xoff s_yoff s_xsize s_ysize = true ->
  window_ok td t_xoff t_yoff t_xsize t_ysize = true ->
  negb (MaskFlags sb =? GMF_ALL_VALID) || (ColorInterpretation sb =? GCI_AlphaBand)
  = true ->
  exists w',
    raster_copy s_fh s_xoff s_yoff s_xsize s_ysize s_band_n
                t_fh t_xoff t_yoff t_xsize t_ysize t_band_n None w = (Ok 0, w')
    /\ (forall i j, 0 <= i < t_xsize -> 0 <= j < t_ysize ->
          pixel w' t_fh t_band_n (t_xoff + i) (t_yoff + j)
          = Some (if eqb (sample_for
                            (if negb (MaskFlags sb =? GMF_ALL_VALID)
                             then mask_samples sb else samples sb)
                            s_xoff s_yoff s_xsize s_ysize t_xsize t_ysize i j)
                         (of_int 0)
                  then composited (DataType sb) (DataType tb) (DataType tb)
                                  (samples tb (t_xoff + i) (t_yoff + j))
                  else composited (DataType sb) (DataType tb) (DataType sb)
                         (sample_for (samples sb) s_xoff s_yoff s_xsize s_ysize
                                     t_xsize t_ysize i j)))
    /\ (DataType sb = DataType tb ->
        forall i j, 0 <= i < t_xsize -> 0 <= j < t_ysize ->
          pixel w' t_fh t_band_n (t_xoff + i) (t_yoff + j)
          = Some (if eqb (sample_for
                            (if negb (MaskFlags sb =? GMF_ALL_VALID)
                             then mask_samples sb else samples sb)
                            s_xoff s_yoff s_xsize s_ysize t_xsize t_ysize i j)
                         (of_int 0)
                  then samples tb (t_xoff + i) (t_yoff + j)
                  else sample_for (samples sb) s_xoff s_yoff s_xsize s_ysize
                                  t_xsize t_ysize i j))
    /\ (forall x' y',
          ~ (t_xoff <= x' < t_xoff + t_xsize /\ t_yoff <= y' < t_yoff + t_ysize) ->
          pixel w' t_fh t_band_n x' y' = Some (samples tb x' y')).
Proof.
  intros Hs Ht Hsw Htw Hmask.
  rewrite raster_copy_run. unfold selected_copy. rewrite Hs.
  assert (Hgen : forall m_band,
            ref_name m_band = s_fh -> ref_band m_band = s_band_n ->
            ref_samples m_band sb
            = (if negb (MaskFlags sb =? GMF_ALL_VALID)
               then mask_samples sb else samples sb) ->
            exists w',
              raster_copy_with_mask s_fh s_xoff s_yoff s_xsize s_ysize s_band_n
                t_fh t_xoff t_yoff t_xsize t_ysize t_band_n m_band w = (Ok 0, w')
              /\ (forall i j, 0 <= i < t_xsize -> 0 <= j < t_ysize ->
                    pixel w' t_fh t_band_n (t_xoff + i) (t_yoff + j)
                    = Some (if eqb (sample_for
                                      (if negb (MaskFlags sb =? GMF_ALL_VALID)
                                       then mask_samples sb else samples sb)
                                      s_xoff s_yoff s_xsize s_ysize t_xsize t_ysize i j)
                                   (of_int 0)
                            then composited (DataType sb) (DataType tb) (DataType tb)
                                            (samples tb (t_xoff + i) (t_yoff + j))
                            else composited (DataType sb) (DataType tb) (DataType sb)
                                   (sample_for (samples sb) s_xoff s_yoff s_xsize
                                               s_ysize t_xsize t_ysize i j)))
              /\ (DataType sb = DataType tb ->
                  forall i j, 0 <= i < t_xsize -> 0 <= j < t_ysize ->
                    pixel w' t_fh t_band_n (t_xoff + i) (t_yoff + j)
                    = Some (if eqb (sample_for
                                      (if negb (MaskFlags sb =? GMF_ALL_VALID)
                                       then mask_samples sb else samples sb)
                                      s_xoff s_yoff s_xsize s_ysize t_xsize t_ysize i j)
                                   (of_int 0)
                            then samples tb (t_xoff + i) (t_yoff + j)
                            else sample_for (samples sb) s_xoff s_yoff s_xsize s_ysize
                                            t_xsize t_ysize i j))
              /\ (forall x' y',
                    ~ (t_xoff <= x' < t_xoff + t_xsize
                       /\ t_yoff <= y' < t_yoff + t_ysize) ->
                    pixel w' t_fh t_band_n x' y' = Some (samples tb x' y'))).
  { intros m_band Hname Hband Hsamples.
    destruct (mask_copy_pixels s_fh s_xoff s_yoff s_xsize s_ysize s_band_n
                t_fh t_xoff t_yoff t_xsize t_ysize t_band_n m_band w
                sd sd td sb sb tb Hs) as (w' & Hrun & Hin & Hout);
      try assumption; [rewrite Hname, Hband; exact Hs|].
    rewrite Hsamples in Hin.
    exists w'. split; [exact Hrun|]. split; [exact Hin|]. split; [|exact Hout].
    intros Hty i j Hi Hj.
    rewrite (Hin i j Hi Hj), <- Hty, !composited_same. reflexivity. }
  destruct (negb (MaskFlags sb =? GMF_ALL_VALID)) eqn:Hflags.
  - apply (Hgen (MaskOf s_fh s_band_n)); reflexivity.
  - simpl in Hmask. rewrite Hmask.
    apply (Hgen (BandOf s_fh s_band_n)); reflexivity.
Qed.

End Properties.

(** * Choosing the output driver *)

Section DriverChoice.
Variable splitext : string -> string * string.
Variables lower upper : string -> string.
Variable drivers : list Drivers.GDALDriver.

Local Abbreviation GetExtension := (Drivers.GetExtension splitext).
Local Abbreviation takes := (Drivers.takes splitext lower).
Local Abbreviation visit := (Drivers.visit lower).

Lemma string_length_zero (s : string) :
  (Z.of_nat (String.length s) =? 0) = String.eqb s "".
Proof. destruct s; reflexivity. Qed.

Lemma string_length_pos (s : string) :
  (0 <? Z.of_nat (String.length s)) = negb (String.eqb s "").
Proof. destruct s; reflexivity. Qed.

Lemma visit_takes (filename : string) (drv_list : list string)
    (drv : Drivers.GDALDriver) :
  visit filename (GetExtension filename) drv_list drv
  = if takes filename drv then drv_list ++ [Drivers.ShortName drv] else drv_list.
Proof.
  unfold Drivers.visit, Drivers.takes. rewrite string_length_pos.
  destruct (_ && bool_decide (is_Some (Drivers.GetMetadataItem drv Drivers.DCAP_RASTER)));
    [|reflexivity].
  cbn [andb].
  destruct (negb _ && Drivers.DoesDriverHandleExtension lower drv _); [reflexivity|].
  cbn [orb].
  destruct (Drivers.GetMetadataItem drv Drivers.DMD_CONNECTION_PREFIX); reflexivity.
Qed.

Lemma visit_fold (filename : string) (l : list Drivers.GDALDriver)
    (acc : list string) :
  fold_left (visit filename (GetExtension filename)) l acc
  = acc ++ (Drivers.ShortName <$> filter (fun drv => takes filename drv) l).
Proof.
  revert acc. induction l as [|drv l IH]; intros acc; simpl.
  - rewrite app_nil_r. reflexivity.
  - rewrite IH, visit_takes, filter_cons.
    destruct (takes filename drv) eqn:E.
    + rewrite decide_True by exact I.
      rewrite fmap_cons, <- app_assoc. reflexivity.
    + rewrite decide_False by exact id. reflexivity.
Qed.

(** X13. The list of candidate drivers.  [GetOutputDriversFor] returns
    the short names of the drivers the loop takes, in registration
    order, and never reorders them: the netCDF-before-GMT swap of line
    45 cannot happen, because its condition asks for an empty list
    and then reads the list's first item.  With an extension that
    lowers to [nc] and no driver taken, that read raises
    [IndexError]. *)
Theorem GetOutputDriversFor_keeps_registration_order (filename : string) :
  Drivers.GetOutputDriversFor splitext lower upper drivers filename
  = let names := Drivers.ShortName <$> filter (fun drv => takes filename drv) drivers in
    if String.eqb (lower (GetExtension filename)) "nc" && bool_decide (names = [])
    then Raise IndexError
    else Ok names.
Proof.
  unfold Drivers.GetOutputDriversFor. cbv zeta.
  rewrite visit_fold, app_nil_l.
  destruct (String.eqb _ "nc"); [|reflexivity].
  destruct (Drivers.ShortName <$> filter _ drivers) as [|d0 rest]; reflexivity.
Qed.

(** X14. The driver chosen for an output name: the first driver taken,
    in registration order; with none taken, [IndexError] when the
    extension lowers to [nc], else ['GTiff'] for a name without
    extension and the "cannot guess" exception for any other. *)
Theorem GetOutputDriverFor_decision_table (filename : string) :
  Drivers.GetOutputDriverFor splitext lower upper drivers filename
  = match filter (fun drv => takes filename drv) drivers with
    | drv :: _ => Ok (Drivers.ShortName drv)
    | [] =>
      if String.eqb (lower (GetExtension filename)) "nc" then Raise IndexError
      else if String.eqb (GetExtension filename) "" then Ok "GTiff"
           else Raise DriverGuessError
    end.
Proof.
  unfold Drivers.GetOutputDriverFor, Drivers.GetOutputDriversFor. cbv zeta.
  rewrite visit_fold, app_nil_l, string_length_zero.
  destruct (filter _ drivers) as [|drv rest].
  - destruct (String.eqb _ "nc"); [reflexivity|].
    cbn. destruct (String.eqb _ ""); reflexivity.
  - destruct (String.eqb _ "nc"); reflexivity.
Qed.

End DriverChoice.

(** * The order on binary64 *)

Ltac cmp_cases :=
  repeat match goal with
  | |- context [Z.compare ?a ?b] => destruct (Z.compare_spec a b)
  | |- context [Pos.compare_cont Eq ?a ?b] =>
      change (Pos.compare_cont Eq a b) with (Pos.compare a b)
  | |- context [Pos.compare ?a ?b] => destruct (Pos.compare_spec a b)
  end.

Lemma SFleb_refl (x : spec_float) : B64.isnan x = false -> SFleb x x = true.
Proof.
  unfold SFleb, SFcompare.
  destruct x as [s|s| |s m e]; try discriminate; intros _;
    try destruct s; simpl; try reflexivity;
    rewrite Z.compare_refl;
    change (Pos.compare_cont Eq m m) with (Pos.compare m m);
    rewrite Pos.compare_refl; reflexivity.
Qed.

Lemma SFltb_leb (x y : spec_float) : SFltb x y = true -> SFleb x y = true.
Proof.
  unfold SFltb, SFleb. destruct (SFcompare x y) as [[]|]; congruence.
Qed.

Lemma SFleb_total (x y : spec_float) :
  B64.isnan x = false -> B64.isnan y = false ->
  SFltb y x = false -> SFleb x y = true.
Proof.
  unfold SFltb, SFleb, SFcompare.
  destruct x as [sx|sx| |sx mx ex], y as [sy|sy| |sy my ey];
    try discriminate; intros _ _;
    repeat match goal with s : bool |- _ => destruct s end;
    simpl; try congruence; cmp_cases; simpl; try congruence; try lia.
Qed.

Lemma SFleb_trans (x y z : spec_float) :
  SFleb x y = true -> SFleb y z = true -> SFleb x z = true.
Proof.
  unfold SFleb, SFcompare.
  destruct x as [sx|sx| |sx mx ex], y as [sy|sy| |sy my ey],
           z as [sz|sz| |sz mz ez];
    try discriminate;
    repeat match goal with s : bool |- _ => destruct s end;
    simpl; try congruence; try reflexivity;
    cmp_cases; simpl; try congruence; try reflexivity; try lia.
Qed.

#[export] Instance B64_ordered : OrderedNumber B64.t :=
  Build_OrderedNumber B64.t B64.number
    SFleb_refl SFltb_leb SFleb_total SFleb_trans.

(** * The planner, proved *)

Section Planner.
Context {F : Type} `{OrderedNumber F}.

Local Abbreviation file_info := (file_info (F:=F)).
Local Abbreviation extent := (extent (F:=F)).

Lemma fold_py_min (l : list F) (a : F) :
  isnan a = false -> Forall (fun x => isnan x = false) l ->
  let m := fold_left py_min l a in
  isnan m = false /\ (m = a \/ m ∈ l) /\ leb m a = true
  /\ forall x, x ∈ l -> leb m x = true.
Proof.
  revert a. induction l as [|x l IH]; intros a Ha Hl; simpl.
  - split; [exact Ha|]. split; [left; reflexivity|].
    split; [apply leb_refl, Ha|]. intros x Hx. inversion Hx.
  - apply Forall_cons in Hl as [Hx Hl].
    assert (Hn : isnan (py_min a x) = false)
      by (unfold py_min; destruct (ltb x a); assumption).
    assert (H1 : leb (py_min a x) a = true).
    { unfold py_min. destruct (ltb x a) eqn:E; [apply ltb_leb, E|apply leb_refl, Ha]. }
    assert (H2 : leb (py_min a x) x = true).
    { unfold py_min. destruct (ltb x a) eqn:E;
        [apply leb_refl, Hx|apply leb_total; assumption]. }
    destruct (IH (py_min a x) Hn Hl) as (Hm & Hin & Hle & Hall).
    split; [exact Hm|]. split; [|split].
    + destruct Hin as [->|Hin]; [|right; right; exact Hin].
      unfold py_min. destruct (ltb x a); [right; left|left]; reflexivity.
    + eapply leb_trans; [exact Hle|exact H1].
    + intros y [->|Hy]%elem_of_cons; [|apply Hall, Hy].
      eapply leb_trans; [exact Hle|exact H2].
Qed.

Lemma fold_py_max (l : list F) (a : F) :
  isnan a = false -> Forall (fun x => isnan x = false) l ->
  let m := fold_left py_max l a in
  isnan m = false /\ (m = a \/ m ∈ l) /\ leb a m = true
  /\ forall x, x ∈ l -> leb x m = true.
Proof.
  revert a. induction l as [|x l IH]; intros a Ha Hl; simpl.
  - split; [exact Ha|]. split; [left; reflexivity|].
    split; [apply leb_refl, Ha|]. intros x Hx. inversion Hx.
  - apply Forall_cons in Hl as [Hx Hl].
    assert (Hn : isnan (py_max a x) = false)
      by (unfold py_max, gtb; destruct (ltb a x); assumption).
    assert (H1 : leb a (py_max a x) = true).
    { unfold py_max, gtb. destruct (ltb a x) eqn:E;
        [apply ltb_leb, E|apply leb_refl, Ha]. }
    assert (H2 : leb x (py_max a x) = true).
    { unfold py_max, gtb. destruct (ltb a x) eqn:E;
        [apply leb_refl, Hx|apply leb_total; assumption]. }
    destruct (IH (py_max a x) Hn Hl) as (Hm & Hin & Hle & Hall).
    split; [exact Hm|]. split; [|split].
    + destruct Hin as [->|Hin]; [|right; right; exact Hin].
      unfold py_max, gtb. destruct (ltb a x); [right; left|left]; reflexivity.
    + eapply leb_trans; [exact H1|exact Hle].
    + intros y [->|Hy]%elem_of_cons; [|apply Hall, Hy].
      eapply leb_trans; [exact H2|exact Hle].
Qed.

Lemma fold_grow (l : list file_info) (e : extent) :
  fold_left grow l e
  = mk_extent (fold_left py_min (ulx <$> l) (ext_ulx e))
              (fold_left py_max (uly <$> l) (ext_uly e))
              (fold_left py_max (lrx <$> l) (ext_lrx e))
              (fold_left py_min (lry <$> l) (ext_lry e)).
Proof.
  revert e. induction l as [|fi l IH]; intros e; simpl.
  - destruct e; reflexivity.
  - rewrite IH. reflexivity.
Qed.

Lemma min_of_fold (l : list F) (a : F) :
  Forall (fun x => isnan x = false) (a :: l) ->
  is_min (fold_left py_min (a :: l) a) (a :: l).
Proof.
  intros Hl. pose proof Hl as Hl'. apply Forall_cons in Hl' as [Ha _].
  destruct (fold_py_min (a :: l) a Ha Hl) as (_ & Hin & _ & Hall).
  split; [|exact Hall]. destruct Hin as [->|Hin]; [left|exact Hin].
Qed.

Lemma max_of_fold (l : list F) (a : F) :
  Forall (fun x => isnan x = false) (a :: l) ->
  is_max (fold_left py_max (a :: l) a) (a :: l).
Proof.
  intros Hl. pose proof Hl as Hl'. apply Forall_cons in Hl' as [Ha _].
  destruct (fold_py_max (a :: l) a Ha Hl) as (_ & Hin & _ & Hall).
  split; [|exact Hall]. destruct Hin as [->|Hin]; [left|exact Hin].
Qed.

(** The union extent of a non-empty list, and the plan made from it. *)
Lemma union_extent_plan (fi0 : file_info) (rest : list file_info) :
  Forall extent_defined (fi0 :: rest) ->
  exists e,
    union_extent (fi0 :: rest) = Ok e
    /\ is_min (ext_ulx e) (ulx <$> fi0 :: rest)
    /\ is_min (ext_lry e) (lry <$> fi0 :: rest)
    /\ is_max (ext_uly e) (uly <$> fi0 :: rest)
    /\ is_max (ext_lrx e) (lrx <$> fi0 :: rest)
    /\ mosaic_plan (fi0 :: rest)
       = match
           (qx ← div (sub (ext_lrx e) (ext_ulx e)) (gt1 (geotransform fi0));
            xsize ← py_int (add qx lit_0_5);
            qy ← div (sub (ext_lry e) (ext_uly e)) (gt5 (geotransform fi0));
            ysize ← py_int (add qy lit_0_5);
            mret (xsize, ysize))
         with
         | Ok (xsize, ysize) =>
           Ok (mk_plan (mkGT (ext_ulx e) (gt1 (geotransform fi0)) (of_int 0)
                             (ext_uly e) (of_int 0) (gt5 (geotransform fi0)))
                       xsize ysize (bands fi0))
         | Raise err => Raise (ArithmeticError err)
         end.
Proof.
  intros Hd. eexists. split; [reflexivity|].
  rewrite fold_grow. cbn [ext_ulx ext_uly ext_lrx ext_lry].
  assert (Hn : forall (f : file_info -> F),
             (forall fi, extent_defined fi -> isnan (f fi) = false) ->
             Forall (fun x => isnan x = false) (f fi0 :: (f <$> rest))).
  { intros f Hf. rewrite <- fmap_cons.
    apply Forall_fmap. eapply Forall_impl; [exact Hd|]. exact Hf. }
  rewrite !fmap_cons.
  split; [apply (min_of_fold (ulx <$> rest) (ulx fi0)), (Hn ulx); intros fi Hf; apply Hf|].
  split; [apply (min_of_fold (lry <$> rest) (lry fi0)), (Hn lry); intros fi Hf; apply Hf|].
  split; [apply (max_of_fold (uly <$> rest) (uly fi0)), (Hn uly); intros fi Hf; apply Hf|].
  split; [apply (max_of_fold (lrx <$> rest) (lrx fi0)), (Hn lrx); intros fi Hf; apply Hf|].
  unfold mosaic_plan. cbn [union_extent mbind result_bind rbind].
  rewrite fold_grow, !fmap_cons. cbn [ext_ulx ext_uly ext_lrx ext_lry].
  unfold plan_output, bTargetAlignedPixels, to_pixel.
  cbn [mbind result_bind rbind ext_ulx ext_uly ext_lrx ext_lry gt1 gt5].
  destruct (div _ (gt1 (geotransform fi0))) as [qx|err]; [|reflexivity].
  cbn [mbind result_bind rbind].
  destruct (py_int (add qx lit_0_5)) as [xs|err]; [|reflexivity].
  cbn [mbind result_bind rbind].
  destruct (div _ (gt5 (geotransform fi0))) as [qy|err]; [|reflexivity].
  cbn [mbind result_bind rbind].
  destruct (py_int (add qy lit_0_5)) as [ys|err]; reflexivity.
Qed.

End Planner.

(** * Planning on binary64 *)

(** C6. The planned output of a non-empty tile list: the extent is
    the componentwise union (least [ulx] and [lry], greatest [uly] and
    [lrx] over all tiles), the pixel size is the first tile's, and the
    size is [int((lrx - ulx) / pixelWidth + 0.5)] by
    [int((lry - uly) / pixelHeight + 0.5)] with the signed pixel
    height.  The tiles [0,10] x [0,10] and [5,20] x [-5,10] of pixel
    size 1 give an output over exactly [0,20] x [-5,10]. *)
Theorem planned_output_is_union_extent :
  (forall (fi0 : file_info (F:=B64.t)) (rest : list file_info),
     Forall extent_defined (fi0 :: rest) ->
     exists e,
       union_extent (fi0 :: rest) = Ok e
       /\ is_min (ext_ulx e) (ulx <$> fi0 :: rest)
       /\ is_min (ext_lry e) (lry <$> fi0 :: rest)
       /\ is_max (ext_uly e) (uly <$> fi0 :: rest)
       /\ is_max (ext_lrx e) (lrx <$> fi0 :: rest)
       /\ mosaic_plan (fi0 :: rest)
          = match
              (qx ← div (sub (ext_lrx e) (ext_ulx e)) (gt1 (geotransform fi0));
               xsize ← py_int (add qx lit_0_5);
               qy ← div (sub (ext_lry e) (ext_uly e)) (gt5 (geotransform fi0));
               ysize ← py_int (add qy lit_0_5);
               mret (xsize, ysize))
            with
            | Ok (xsize, ysize) =>
              Ok (mk_plan (mkGT (ext_ulx e) (gt1 (geotransform fi0)) (of_int 0)
                                (ext_uly e) (of_int 0) (gt5 (geotransform fi0)))
                          xsize ysize (bands fi0))
            | Raise err => Raise (ArithmeticError err)
            end)
  /\ (let fz := Sample.fz in
      (ulx Sample.fiA, lrx Sample.fiA, lry Sample.fiA, uly Sample.fiA)
        = (fz 0, fz 10, fz 0, fz 10)
      /\ (ulx Sample.fiB, lrx Sample.fiB, lry Sample.fiB, uly Sample.fiB)
        = (fz 5, fz 20, fz (-5), fz 10)
      /\ exists p,
           mosaic_plan [Sample.fiA; Sample.fiB] = Ok p
           /\ plan_geotransform p = mkGT (fz 0) (fz 1) (fz 0) (fz 10) (fz 0) (fz (-1))
           /\ plan_xsize p = 20 /\ plan_ysize p = 15
           /\ add (fz 0) (mul (of_int (plan_xsize p)) (fz 1)) = fz 20
           /\ add (fz 10) (mul (of_int (plan_ysize p)) (fz (-1))) = fz (-5)).
Proof.
  split.
  - intros fi0 rest Hd. apply union_extent_plan. exact Hd.
  - cbv zeta. split; [vm_compute; reflexivity|].
    split; [vm_compute; reflexivity|].
    eexists. split; [vm_compute; reflexivity|].
    repeat split; vm_compute; reflexivity.
Qed.

Lemma planned_output_witness :
  exists e,
    union_extent [Sample.fiA; Sample.fiB] = Ok e
    /\ is_min (ext_ulx e) [ulx Sample.fiA; ulx Sample.fiB]
    /\ is_max (ext_lrx e) [lrx Sample.fiA; lrx Sample.fiB].
Proof.
  destruct (proj1 planned_output_is_union_extent Sample.fiA [Sample.fiB])
    as (e & He & Hulx & _ & _ & Hlrx & _).
  - repeat constructor.
  - exists e. split; [exact He|]. split; [exact Hulx|exact Hlrx].
Defined.

(** C2. The window offsets of [copy_into] on a grid of pixel size 0.1
    whose target starts three pixels into the tile: the target offset
    is taken with the 0.1 guard, the source offset without it, and the
    source window starts at pixel 2, not 3, and is 8 wide for a 7-wide
    target window. *)
Theorem source_offset_lacks_epsilon :
  let r := intersection Sample.fi_fine Sample.fine_target in
  let g := geotransform Sample.fi_fine in
  target_window (GetGeoTransform Sample.fine_target) r
    = Ok (mk_window 0 0 7 10)
  /\ source_window Sample.fi_fine r = Ok (mk_window 2 0 8 10)
  /\ to_pixel (tgw_ulx r) (gt0 g) (gt1 g) lit_0_1 = Ok 3
  /\ to_pixel_floor (tgw_ulx r) (gt0 g) (gt1 g) = Ok 2.
Proof. cbv zeta. repeat split; vm_compute; reflexivity. Qed.

(** * The snap to the pixel grid *)


Lemma snap_down_index (x step : B64.t) :
  snap_down x step = (k ← grid_floor x step; mret (mul (of_int k) step)).
Proof.
  unfold snap_down, grid_floor.
  destruct (div x step) as [q|err]; simpl; [|reflexivity].
  destruct (py_floor q); reflexivity.
Qed.

Lemma snap_up_index (x step : B64.t) :
  snap_up x step = (k ← grid_ceil x step; mret (mul (of_int k) step)).
Proof.
  unfold snap_up, grid_ceil.
  destruct (div x step) as [q|err]; simpl; [|reflexivity].
  destruct (py_ceil q); reflexivity.
Qed.



(** * The theorems on the sample rasters *)

Lemma store0_has_bands : has_bands Sample.store0.
Proof.
  intros name d. unfold Sample.store0. cbn [files].
  repeat (rewrite lookup_insert; case_decide; [intros [= <-]; discriminate|]).
  rewrite lookup_empty. discriminate.
Qed.

Lemma store1_has_bands : has_bands Sample.store1.
Proof.
  intros name d. unfold Sample.store1, Sample.store0. cbn [files].
  repeat (rewrite lookup_insert; case_decide; [intros [= <-]; discriminate|]).
  rewrite lookup_empty. discriminate.
Qed.

(** ** The composites *)

(** Tile A holds 5 everywhere; the Int16 tile that is the sentinel
    -9999 everywhere, composited over it with that nodata value,
    leaves 5 everywhere. *)
Lemma nodata_composite_witness :
  exists w',
    raster_copy_with_nodata "hole.tif" 0 0 10 10 1 "a.tif" 0 0 10 10 1
                            (Sample.fz (-9999)) Sample.store0 = (Ok 0, w')
    /\ forall i j, 0 <= i < 10 -> 0 <= j < 10 ->
         pixel w' "a.tif" 1 i j = Some (Sample.fz 5).
Proof.
  destruct (nodata_composite_per_pixel
              "hole.tif" 0 0 10 10 1 "a.tif" 0 0 10 10 1
              (Sample.fz (-9999)) Sample.store0
              Sample.hole Sample.tileA
              (Sample.int16_band (Sample.fz (-9999)))
              (Sample.uniform_band (Sample.fz 5)))
    as (w' & Hrun & Hpix & _); try reflexivity.
  exists w'. split; [exact Hrun|].
  intros i j Hi Hj.
  refine (eq_trans (Hpix i j Hi Hj) _). vm_compute. reflexivity.
Defined.

(** C1, a counterexample.  An Int16 tile of 300 composited over the Byte tile
    A: 300 is not the nodata value, and the destination gets 255, not
    the source sample.  A Float32 tile holding the float32 nearest to
    0.1 composited over a Float32 tile of 5 with the nodata value 0.1:
    the source sample is not equal to the nodata value, and the
    destination keeps its 5. *)
Lemma nodata_composite_converts_and_compares_in_type :
  let r1 := raster_copy_with_nodata "bright.tif" 0 0 10 10 1 "a.tif" 0 0 10 10 1
              (Sample.fz (-9999)) Sample.store0 in
  let r2 := raster_copy_with_nodata "mist.tif" 0 0 10 10 1 "slate.tif" 0 0 10 10 1
              (B64.lit 1 10) Sample.store0 in
  (r1.1 = Ok 0
   /\ pixel Sample.store0 "bright.tif" 1 2 3 = Some (Sample.fz 300)
   /\ eqb (Sample.fz 300) (Sample.fz (-9999)) = false
   /\ pixel r1.2 "a.tif" 1 2 3 = Some (Sample.fz 255)
   /\ Sample.fz 255 <> Sample.fz 300)
  /\ (r2.1 = Ok 0
      /\ pixel Sample.store0 "mist.tif" 1 2 3
         = Some (Sample.to_float32 (B64.lit 1 10))
      /\ eqb (Sample.to_float32 (B64.lit 1 10)) (B64.lit 1 10) = false
      /\ pixel Sample.store0 "slate.tif" 1 2 3 = Some (Sample.fz 5)
      /\ pixel r2.2 "slate.tif" 1 2 3 = Some (Sample.fz 5)
      /\ Sample.fz 5 <> Sample.to_float32 (B64.lit 1 10)).
Proof.
  cbv zeta. split.
  - repeat split; try (vm_compute; reflexivity). vm_compute. discriminate.
  - repeat split; try (vm_compute; reflexivity). vm_compute. discriminate.
Qed.

(** Where the mask is 0 the 5 of the destination stays; where it is
    255 the 7 of the source comes in. *)
Lemma mask_composite_witness :
  exists w',
    raster_copy_with_mask "masked.tif" 0 0 10 10 1 "a.tif" 0 0 10 10 1
                          (MaskOf "masked.tif" 1) Sample.store0 = (Ok 0, w')
    /\ pixel w' "a.tif" 1 2 3 = Some (Sample.fz 5)
    /\ pixel w' "a.tif" 1 7 3 = Some (Sample.fz 7).
Proof.
  destruct (mask_composite_is_binary
              "masked.tif" 0 0 10 10 1 "a.tif" 0 0 10 10 1
              (MaskOf "masked.tif" 1) Sample.store0
              Sample.masked Sample.masked Sample.tileA
              (Sample.half_masked_band (Sample.fz 7))
              (Sample.half_masked_band (Sample.fz 7))
              (Sample.uniform_band (Sample.fz 5)))
    as (w' & Hrun & Hpix & _); try reflexivity.
  exists w'. split; [exact Hrun|]. split.
  - refine (eq_trans (Hpix 2 3 _ _) _); [lia|lia|vm_compute; reflexivity].
  - refine (eq_trans (Hpix 7 3 _ _) _); [lia|lia|vm_compute; reflexivity].
Defined.

(** C4, a counterexample.  The masked Int16 tile of 300 over the Byte tile A:
    at column 7 the mask sample is 255, not 0, and the destination
    gets 255, not the source sample 300. *)
Lemma mask_composite_converts_samples :
  let r := raster_copy_with_mask "glare.tif" 0 0 10 10 1 "a.tif" 0 0 10 10 1
             (MaskOf "glare.tif" 1) Sample.store0 in
  r.1 = Ok 0
  /\ mask_samples (Sample.half_masked GDT_Int16 (Sample.fz 300)) 7 3
     = Sample.fz 255
  /\ eqb (Sample.fz 255) (of_int 0) = false
  /\ pixel Sample.store0 "glare.tif" 1 7 3 = Some (Sample.fz 300)
  /\ pixel r.2 "a.tif" 1 7 3 = Some (Sample.fz 255)
  /\ Sample.fz 255 <> Sample.fz 300.
Proof.
  cbv zeta. repeat split; try (vm_compute; reflexivity). vm_compute. discriminate.
Qed.

(** ** Tiles in list order *)

Lemma plain_tile_A :
  plain_tile Sample.store1 "out.tif" Sample.canvas 1 Sample.fiA Sample.tileA
             (mk_window 0 0 10 10) (mk_window 0 0 10 10).
Proof.
  split; [discriminate|]. split; [reflexivity|].
  split; [repeat constructor; discriminate|].
  split; [vm_compute; discriminate|].
  split; [vm_compute; reflexivity|]. split; reflexivity.
Defined.

Lemma plain_tile_B :
  plain_tile Sample.store1 "out.tif" Sample.canvas 1 Sample.fiB Sample.tileB
             (mk_window 0 0 15 15) (mk_window 5 0 15 15).
Proof.
  split; [discriminate|]. split; [reflexivity|].
  split; [repeat constructor; discriminate|].
  split; [vm_compute; discriminate|].
  split; [vm_compute; reflexivity|]. split; reflexivity.
Defined.

Lemma plain_tile_Bright :
  plain_tile Sample.store1 "out.tif" Sample.canvas 1 Sample.fiBright Sample.bright
             (mk_window 0 0 10 10) (mk_window 0 0 10 10).
Proof.
  split; [discriminate|]. split; [reflexivity|].
  split; [repeat constructor; discriminate|].
  split; [vm_compute; discriminate|].
  split; [vm_compute; reflexivity|]. split; reflexivity.
Defined.

(** Pixel (7, 3) lies in both tiles: A then B leaves B's 2 there, B
    then A leaves A's 5. *)
Lemma later_tile_overwrites_witness :
  exists wAB wBA,
    copy_tiles "out.tif" (Some 1) [Sample.fiA; Sample.fiB] 1 Sample.store1
      = (Ok tt, wAB)
    /\ copy_tiles "out.tif" (Some 1) [Sample.fiB; Sample.fiA] 1 Sample.store1
      = (Ok tt, wBA)
    /\ pixel wAB "out.tif" 1 7 3 = Some (Sample.fz 2)
    /\ pixel wBA "out.tif" 1 7 3 = Some (Sample.fz 5).
Proof.
  destruct (later_tile_overwrites_under_plain_copy
              "out.tif" 1 Sample.fiA Sample.fiB Sample.store1
              Sample.canvas Sample.tileA Sample.tileB
              (mk_window 0 0 10 10) (mk_window 0 0 10 10)
              (mk_window 0 0 15 15) (mk_window 5 0 15 15))
    as (wAB & wBA & HAB & HBA & _ & _ & Hpix).
  - reflexivity.
  - vm_compute. discriminate.
  - exact plain_tile_A.
  - exact plain_tile_B.
  - exists wAB, wBA. split; [exact HAB|]. split; [exact HBA|].
    destruct (Hpix 1 7 3) as [H1 H2].
    + lia.
    + unfold inside. simpl. lia.
    + unfold inside. simpl. lia.
    + split; [rewrite H1|rewrite H2]; vm_compute; reflexivity.
Defined.

(** C3, a counterexample.  The run on tile A (Byte, all 5) and then the Int16
    tile of 300 over the same extent creates a Byte output, the first
    tile's type, and ends well; the output then holds 255 in the
    overlap, not the later tile's 300. *)
Lemma later_tile_is_stored_converted :
  let r := run_merge Sample.env ["a.tif"; "bright.tif"] "out.tif" Sample.store0 in
  r.1 = Ok tt
  /\ pixel Sample.store0 "a.tif" 1 2 3 = Some (Sample.fz 5)
  /\ pixel Sample.store0 "bright.tif" 1 2 3 = Some (Sample.fz 300)
  /\ pixel r.2 "out.tif" 1 2 3 = Some (Sample.fz 255)
  /\ Sample.fz 255 <> Sample.fz 300.
Proof.
  cbv zeta. repeat split; try (vm_compute; reflexivity). vm_compute. discriminate.
Qed.

(** A tile a hundred units east of the output is skipped. *)
Lemma degenerate_overlap_witness :
  copy_into Sample.fiFar "out.tif" 1 1 None Sample.store1 = (Ok 1, Sample.store1).
Proof.
  apply (copy_into_degenerate_overlap_is_noop
           Sample.fiFar "out.tif" 1 1 None Sample.store1 Sample.canvas).
  - reflexivity.
  - left. vm_compute. reflexivity.
Defined.

(** ** Names that do not open *)

Lemma plain_tiles_of_created :
  let t := created (mk_plan (Sample.north_up 0 10) 20 15 1) Sample.fiA
                   (mkDataset 20 15
                      (mkGT (Sample.fz 0) (Sample.fz 1) (Sample.fz 0)
                            (Sample.fz 0) (Sample.fz 0) (Sample.fz 1)) ""
                      [mkBand GDT_Byte GMF_ALL_VALID 1 None
                              (fun _ _ => Sample.fz 0) (fun _ _ => Sample.fz 255)]) in
  Forall (mosaic_tile (with_created Sample.store0 "out.tif" t) "out.tif" t 1)
         [Sample.fiA; Sample.fiB].
Proof.
  cbv zeta. apply Forall_cons_2; [|apply Forall_cons_2; [|apply Forall_nil_2]].
  - right. exists Sample.tileA, (mk_window 0 0 10 10), (mk_window 0 0 10 10).
    split; [discriminate|]. split; [reflexivity|].
    split; [repeat constructor; discriminate|].
    split; [vm_compute; discriminate|].
    split; [vm_compute; reflexivity|]. split; reflexivity.
  - right. exists Sample.tileB, (mk_window 0 0 15 15), (mk_window 5 0 15 15).
    split; [discriminate|]. split; [reflexivity|].
    split; [repeat constructor; discriminate|].
    split; [vm_compute; discriminate|].
    split; [vm_compute; reflexivity|]. split; reflexivity.
Defined.



(** ** What a copy leaves alone *)

(** Tile A goes to columns 0-9 of the output: the sample at column 15
    is as before the copy. *)
Lemma copy_into_window_witness :
  pixel (copy_into Sample.fiA "out.tif" 1 1 None Sample.store1).2 "out.tif" 1 15 3
  = pixel Sample.store1 "out.tif" 1 15 3.
Proof.
  destruct (copy_into_stays_in_its_window
              Sample.fiA "out.tif" 1 1 None Sample.store1 Sample.canvas eq_refl)
    as (_ & _ & Hpix).
  apply Hpix. intros _ sw tw Hcw.
  vm_compute in Hcw. injection Hcw as <- <-.
  unfold inside. simpl. lia.
Defined.

(** Two copies that return: the far tile is skipped, 1 comes back and
    the store is the same; the 32-wide tile at 10^17 gets a target
    window 16 wide on the 10-wide target, the write is refused, 0
    comes back and no dataset has changed. *)
Lemma copy_into_return_witness :
  copy_windows Sample.fiFar Sample.canvas = Ok None
  /\ copy_windows Sample.fiWide Sample.narrow
     = Ok (Some (mk_window 0 0 16 10, mk_window 0 0 16 10))
  /\ (copy_into Sample.fiWide "narrow.tif" 1 1 None Sample.store3).1 = Ok 0
  /\ files (copy_into Sample.fiWide "narrow.tif" 1 1 None Sample.store3).2
     = files Sample.store3
  /\ trace (copy_into Sample.fiWide "narrow.tif" 1 1 None Sample.store3).2
     = [Enter PlainCopy; RasterRead (BandOf "wide.tif" 1);
        RasterWrite (BandOf "narrow.tif" 1)].
Proof.
  assert (Hfar : copy_into Sample.fiFar "out.tif" 1 1 None Sample.store1
                 = (Ok 1, Sample.store1))
    by (rewrite (copy_into_run Sample.fiFar "out.tif" 1 1 None Sample.store1
                   Sample.canvas eq_refl); vm_compute; reflexivity).
  assert (Hwide : copy_into Sample.fiWide "narrow.tif" 1 1 None Sample.store3
                  = (Ok 0, (copy_into Sample.fiWide "narrow.tif" 1 1 None
                                      Sample.store3).2))
    by (vm_compute; reflexivity).
  split.
  { destruct (copy_into_return_value Sample.fiFar "out.tif" 1 1 None
                Sample.store1 Sample.store1 Sample.canvas 1 eq_refl Hfar)
      as [(_ & _ & Hskip)|(Hr & _)]; [exact Hskip|discriminate]. }
  destruct (copy_into_return_value Sample.fiWide "narrow.tif" 1 1 None
              Sample.store3 _ Sample.narrow 0 eq_refl Hwide)
    as [(Hr & _)|(_ & sw & tw & evs & Hcw & _ & _ & Hrefused & _)];
    [discriminate|].
  assert (Hw : copy_windows Sample.fiWide Sample.narrow
               = Ok (Some (mk_window 0 0 16 10, mk_window 0 0 16 10)))
    by (vm_compute; reflexivity).
  split; [exact Hw|]. split; [rewrite Hwide; reflexivity|].
  split; [|vm_compute; reflexivity].
  apply Hrefused. rewrite Hw in Hcw. injection Hcw as <- <-.
  vm_compute. reflexivity.
Defined.

(** The output is already in the store: the run stops at [bands]. *)
Lemma existing_output_witness :
  run_merge Sample.env ["a.tif"] "out.tif" Sample.store1
  = (Raise UnboundLocalError, Sample.store1).
Proof.
  apply (run_merge_on_existing_output Sample.env Sample.mem "GTiff"
           ["a.tif"] "out.tif" Sample.store1 "a.tif").
  - exact store1_has_bands.
  - reflexivity.
  - reflexivity.
  - reflexivity.
  - eexists. reflexivity.
  - left.
  - eexists. reflexivity.
Defined.

(** Tiles A and B give a 20 x 15 output at (0, 10) with pixel size 1. *)
Lemma created_output_witness :
  header_of <$> files (merge_with Sample.mem ["a.tif"; "b.tif"] "out.tif"
                                  Sample.store0).2 !! "out.tif"
  = Some (20, 15, Sample.north_up 0 10, "", 1%nat).
Proof.
  refine (eq_trans
            (created_output_keeps_planned_header
               Sample.mem ["a.tif"; "b.tif"] "out.tif" Sample.store0
               Sample.fiA [Sample.fiB]
               (mk_plan (Sample.north_up 0 10) 20 15 1)
               (mkDataset 20 15
                  (mkGT (Sample.fz 0) (Sample.fz 1) (Sample.fz 0)
                        (Sample.fz 0) (Sample.fz 0) (Sample.fz 1)) ""
                  [mkBand 1 GMF_ALL_VALID 1 None
                          (fun _ _ => Sample.fz 0) (fun _ _ => Sample.fz 255)])
               _ _ _ _) _).
  - vm_compute. reflexivity.
  - reflexivity.
  - vm_compute. reflexivity.
  - vm_compute. reflexivity.
  - reflexivity.
Defined.

(** Tile A has one band: asking for its band 2 raises. *)
Lemma missing_source_band_witness :
  (copy_into Sample.fiA "out.tif" 2 1 None Sample.store1).1 = Raise AttributeError
  /\ files (copy_into Sample.fiA "out.tif" 2 1 None Sample.store1).2
     = files Sample.store1.
Proof.
  apply (copy_into_missing_source_band
           Sample.fiA "out.tif" 2 1 None Sample.store1 Sample.canvas Sample.tileA
           (mk_window 0 0 10 10) (mk_window 0 0 10 10)).
  - reflexivity.
  - vm_compute. reflexivity.
  - reflexivity.
  - vm_compute. reflexivity.
Defined.

(** A, the far tile, B, then the Int16 tile of 300 over A's extent:
    the far tile is skipped; pixel (12, 3) ends with B's 2, pixel
    (7, 3), which A, B and the last tile cover, with the 255 that 300
    becomes in a Byte band, pixel (3, 12) with the 0 it had. *)
Lemma plain_mosaic_witness :
  exists w',
    copy_tiles "out.tif" (Some 1)
               [Sample.fiA; Sample.fiFar; Sample.fiB; Sample.fiBright] 1
               Sample.store1 = (Ok tt, w')
    /\ pixel w' "out.tif" 1 12 3 = Some (Sample.fz 2)
    /\ pixel w' "out.tif" 1 7 3 = Some (Sample.fz 255)
    /\ pixel w' "out.tif" 1 3 12 = Some (Sample.fz 0).
Proof.
  destruct (plain_mosaic_is_fold_in_list_order
              "out.tif" 1 [Sample.fiA; Sample.fiFar; Sample.fiB; Sample.fiBright]
              Sample.store1 Sample.canvas)
    as (w' & Hrun & Hpix).
  - reflexivity.
  - vm_compute. discriminate.
  - apply Forall_cons_2;
      [|apply Forall_cons_2;
        [|apply Forall_cons_2; [|apply Forall_cons_2; [|apply Forall_nil_2]]]].
    + right. eexists _, _, _. exact plain_tile_A.
    + left. vm_compute. reflexivity.
    + right. eexists _, _, _. exact plain_tile_B.
    + right. eexists _, _, _. exact plain_tile_Bright.
  - exists w'. split; [exact Hrun|].
    rewrite !Hpix. repeat split; vm_compute; reflexivity.
Defined.

(** One of the two names opens a dataset without bands. *)
Lemma bandless_dataset_witness :
  names_to_fileinfos ["a.tif"; "bare.tif"] Sample.store2
  = (Raise AttributeError, Sample.store2).
Proof.
  apply (proj1 (names_to_fileinfos_fails_only_on_bandless
                  ["a.tif"; "bare.tif"] Sample.store2)).
  exists "bare.tif", Sample.bare. split; [right; left|].
  split; reflexivity.
Defined.

(** The masked tiles over tile A, without nodata value: where the mask
    is 0 the 5 stays; where it is 255 the Byte tile's 7 comes in, and
    the Int16 tile's 300 comes in as 255. *)
Lemma implicit_mask_witness :
  (exists w',
     raster_copy "masked.tif" 0 0 10 10 1 "a.tif" 0 0 10 10 1 None Sample.store0
     = (Ok 0, w')
     /\ pixel w' "a.tif" 1 2 3 = Some (Sample.fz 5)
     /\ pixel w' "a.tif" 1 7 3 = Some (Sample.fz 7))
  /\ (exists w',
        raster_copy "glare.tif" 0 0 10 10 1 "a.tif" 0 0 10 10 1 None Sample.store0
        = (Ok 0, w')
        /\ pixel w' "a.tif" 1 2 3 = Some (Sample.fz 5)
        /\ pixel w' "a.tif" 1 7 3 = Some (Sample.fz 255)).
Proof.
  split.
  - destruct (raster_copy_without_nodata_honours_masks
                "masked.tif" 0 0 10 10 1 "a.tif" 0 0 10 10 1 Sample.store0
                Sample.masked Sample.tileA
                (Sample.half_masked_band (Sample.fz 7))
                (Sample.uniform_band (Sample.fz 5)))
      as (w' & Hrun & Hpix & _); try reflexivity.
    exists w'. split; [exact Hrun|]. split.
    + refine (eq_trans (Hpix 2 3 _ _) _); [lia|lia|vm_compute; reflexivity].
    + refine (eq_trans (Hpix 7 3 _ _) _); [lia|lia|vm_compute; reflexivity].
  - destruct (raster_copy_without_nodata_honours_masks
                "glare.tif" 0 0 10 10 1 "a.tif" 0 0 10 10 1 Sample.store0
                Sample.glare Sample.tileA
                (Sample.half_masked GDT_Int16 (Sample.fz 300))
                (Sample.uniform_band (Sample.fz 5)))
      as (w' & Hrun & Hpix & _); try reflexivity.
    exists w'. split; [exact Hrun|]. split.
    + refine (eq_trans (Hpix 2 3 _ _) _); [lia|lia|vm_compute; reflexivity].
    + refine (eq_trans (Hpix 7 3 _ _) _); [lia|lia|vm_compute; reflexivity].
Defined.
